(** * numberguess: the adaptive number guessing game of [game.py]

    A shallow embedding of the four classes of [game.py]
    ([HotColdLearner], [HintBandit], [UserProfile], [AdaptiveGame]) and of
    [main], followed by the properties of the update rules, of the two game
    loops and of the persistence round trip.

    Conventions of the embedding.
    - A Python [int] is a [Z]; a Python [float] is an IEEE 754 binary64
      value, a [spec_float] of the standard library with [prec = 53] and
      [emax = 1024], and its arithmetic is the correctly rounded one
      ([SFadd], [SFmul], ...), so results are the ones CPython computes.
    - A value that is an [int] at one time and a [float] at another (the
      running averages) is a [pynum].
    - A raised exception is the [Raise] case of [result].
    - A [dict] is a [gmap]; the console is a list of input events, and
      takes every text printed; the pseudo random generator is a record of
      the draws a game makes; a file is the JSON value [json.dump] stores
      in it.
    - [UserProfile.save_to_file] and [UserProfile.load_from_file] are the
      two methods at the level of the record, in a directory where every
      name is a file of its own. [OnDisk] gives them on a disk behind the
      operating system, where a name leads to a file or to none, [open]
      can raise and [json.dump] can refuse a number; [main] runs on that
      disk. [Attributes] gives what [load_from_file] assigns as the Python
      objects they are, of whatever type the file holds. *)

From Stdlib Require Import ZArith Lia Bool List Ascii String.
From Stdlib Require Import Floats.SpecFloat.
From stdpp Require Import base option strings gmap list.
Import ListNotations.

Local Open Scope Z_scope.
Set Warnings "-register-all".

(** ** Exceptions and results *)

Inductive exn : Type :=
  | ZeroDivisionError
  | OverflowError
  | ValueError
  | KeyError (key : string)
  | IndexError
  | EOFError
  | KeyboardInterrupt
  | OSError.

Inductive result (A : Type) : Type :=
  | Ok (a : A)
  | Raise (e : exn).

Arguments Ok {A} a.
Arguments Raise {A} e.

Definition rbind {A B : Type} (r : result A) (k : A -> result B) : result B :=
  match r with
  | Ok a => k a
  | Raise e => Raise e
  end.

Notation "'let*' x := r 'in' k" := (rbind r (fun x => k))
  (at level 10, x pattern, r at level 100, k at level 200).

(** ** Binary64 floats *)

Module Float.

Definition prec : Z := 53.
Definition emax : Z := 1024.

Definition float : Type := spec_float.

Definition add : float -> float -> float := SFadd prec emax.
Definition sub : float -> float -> float := SFsub prec emax.
Definition mul : float -> float -> float := SFmul prec emax.
Definition ltb : float -> float -> bool := SFltb.
Definition leb : float -> float -> bool := SFleb.

(** The nearest binary64 value to an integer (round half to even). *)
Definition of_Z (n : Z) : float := binary_normalize prec emax n 0 false.

(** The least magnitude that rounds to [2^1024], that is, out of the
    range of binary64: [DBL_MAX] plus half a unit in its last place. *)
Definition overflow_threshold : Z := 2 ^ 1024 - 2 ^ 970.

(** [float(n)] for an [int n]: [OverflowError] when [n] is too large to
    convert. *)
Definition of_int (n : Z) : result float :=
  if Z.abs n <? overflow_threshold then Ok (of_Z n) else Raise OverflowError.

(** The correctly rounded quotient of two integers, [b] not zero. *)
Definition quotient (a b : Z) : float :=
  let sign := xorb (a <? 0) (b <? 0) in
  match Z.abs a with
  | Z0 => S754_zero sign
  | ma =>
      let '(mz, ez, lz) := SFdiv_core_binary prec emax ma 0 (Z.abs b) 0 in
      binary_round_aux prec emax sign mz ez lz
  end.

(** [a / b] on two [int]s (true division). *)
Definition int_truediv (a b : Z) : result float :=
  if b =? 0 then Raise ZeroDivisionError
  else if overflow_threshold * Z.abs b <=? Z.abs a then Raise OverflowError
  else Ok (quotient a b).

(** A decimal literal [num / den] of the source denotes the nearest
    binary64 value. *)
Definition literal (num den : Z) : float := quotient num den.

Definition lit_0_0 : float := S754_zero false.
Definition lit_0_1 : float := Eval vm_compute in literal 1 10.
Definition lit_0_2 : float := Eval vm_compute in literal 2 10.
Definition lit_0_3 : float := Eval vm_compute in literal 3 10.
Definition lit_0_5 : float := Eval vm_compute in literal 5 10.
Definition lit_0_8 : float := Eval vm_compute in literal 8 10.
Definition lit_0_9 : float := Eval vm_compute in literal 9 10.
Definition lit_1_2 : float := Eval vm_compute in literal 12 10.

Definition is_nan (f : float) : bool :=
  match f with S754_nan => true | _ => false end.

(** The integer value of a float times [2^1074]: every finite binary64
    value is a multiple of [2^-1074]. *)
Definition signed (s : bool) (m : Z) : Z := if s then - m else m.

(** Exact comparison of a float with an integer, as [float.__lt__] and
    its siblings do when the other operand is an [int]. *)
Definition compare_int (f : float) (n : Z) : option comparison :=
  match f with
  | S754_nan => None
  | S754_infinity s => Some (if s then Lt else Gt)
  | S754_zero _ => Some (0 ?= n)
  | S754_finite s m e =>
      Some (signed s (Z.pos m) * 2 ^ Z.max e 0 ?= n * 2 ^ Z.max (- e) 0)
  end.

(** [round(f)] with one argument: the nearest integer, ties to even;
    [ValueError] on NaN and [OverflowError] on an infinity. *)
Definition round_half_even (m : Z) (sh : Z) : Z :=
  let q := m / 2 ^ sh in
  let r := m mod 2 ^ sh in
  match 2 * r ?= 2 ^ sh with
  | Lt => q
  | Gt => q + 1
  | Eq => if Z.even q then q else q + 1
  end.

Definition round (f : float) : result Z :=
  match f with
  | S754_nan => Raise ValueError
  | S754_infinity _ => Raise OverflowError
  | S754_zero _ => Ok 0
  | S754_finite s m e =>
      if 0 <=? e then Ok (signed s (Z.pos m * 2 ^ e))
      else Ok (signed s (round_half_even (Z.pos m) (- e)))
  end.

(** [int(f)]: truncation toward zero. *)
Definition trunc (f : float) : result Z :=
  match f with
  | S754_nan => Raise ValueError
  | S754_infinity _ => Raise OverflowError
  | S754_zero _ => Ok 0
  | S754_finite s m e =>
      if 0 <=? e then Ok (signed s (Z.pos m * 2 ^ e))
      else Ok (signed s (Z.pos m / 2 ^ (- e)))
  end.

End Float.

(** ** Numbers that are an [int] or a [float] at run time *)

Inductive pynum : Type :=
  | PInt (n : Z)
  | PFloat (f : Float.float).

Definition to_float (x : pynum) : result Float.float :=
  match x with
  | PInt n => Float.of_int n
  | PFloat f => Ok f
  end.

(** [x < y], [x > y] and the like go through one three-way comparison; a
    comparison with NaN is [None], and every ordering test on it is false. *)
Definition num_compare (x y : pynum) : option comparison :=
  match x, y with
  | PInt a, PInt b => Some (a ?= b)
  | PFloat f, PFloat g => SFcompare f g
  | PFloat f, PInt b => Float.compare_int f b
  | PInt a, PFloat g => CompOpp <$> Float.compare_int g a
  end.

Definition num_lt (x y : pynum) : bool :=
  match num_compare x y with Some Lt => true | _ => false end.

Definition num_gt (x y : pynum) : bool := num_lt y x.


(** A method of a mutable object: the object after the call, and the
    exception the call raised, if any. What was assigned before the
    exception stays assigned. *)
Definition effect (S : Type) : Type := (S * option exn)%type.

Definition returned {S : Type} (s : S) : effect S := (s, None).
Definition raised {S : Type} (s : S) (e : exn) : effect S := (s, Some e).

(** [commit s r]: the object becomes the result of [r], or stays [s] when
    [r] raises before assigning. *)
Definition commit {S : Type} (s : S) (r : result S) : effect S :=
  match r with
  | Ok s' => returned s'
  | Raise e => raised s e
  end.

Definition and_then {S : Type} (x : effect S) (k : S -> effect S) : effect S :=
  match x with
  | (s, None) => k s
  | (s, Some e) => (s, Some e)
  end.

(** ** class HotColdLearner *)

Module HotColdLearner.

Record t : Type := mk {
  k : Float.float;
  target_guesses : Z;
  learning_rate : Float.float;
  history : list (Z * Z)
}.

(** [__init__(self, target_guesses=3)] *)
Definition init (target : Z) : t :=
  {| k := Float.lit_0_3;
     target_guesses := target;
     learning_rate := Float.lit_0_1;
     history := [] |}.

Definition set_k (l : t) (x : Float.float) : t :=
  {| k := x;
     target_guesses := target_guesses l;
     learning_rate := learning_rate l;
     history := history l |}.

(** [max(0.1, min(0.8, k))]: [min] keeps its first argument unless the
    second is smaller, [max] unless the second is larger. *)
Definition clamp (x : Float.float) : Float.float :=
  let m := if Float.ltb x Float.lit_0_8 then x else Float.lit_0_8 in
  if Float.ltb Float.lit_0_1 m then m else Float.lit_0_1.

Definition update_k (l : t) (actual_guesses predicted_guesses : Z) : result t :=
  let* k1 :=
    (if actual_guesses <=? target_guesses l then
       let* q := Float.int_truediv predicted_guesses (target_guesses l) in
       Ok (Float.add (k l)
             (Float.mul (learning_rate l) (Float.sub (Float.of_Z 1) q)))
     else
       let* q := Float.int_truediv actual_guesses (target_guesses l) in
       Ok (Float.sub (k l)
             (Float.mul (learning_rate l) (Float.sub q (Float.of_Z 1))))) in
  Ok (set_k l (clamp k1)).

Definition is_hot (l : t) (guess secret cur_lo cur_hi : Z) : result bool :=
  let distance := Z.abs (guess - secret) in
  let range_size := cur_hi - cur_lo + 1 in
  let* r := Float.of_int range_size in
  let threshold := Float.mul (k l) r in
  Ok (num_lt (PInt distance) (PFloat threshold)).

Definition record_game (l : t) (actual_guesses : Z) : effect t :=
  let predicted_guesses := target_guesses l in
  let l1 :=
    {| k := k l;
       target_guesses := target_guesses l;
       learning_rate := learning_rate l;
       history := history l ++ [(actual_guesses, predicted_guesses)] |} in
  commit l1 (update_k l1 actual_guesses predicted_guesses).

(** The object after a series of [record_game] calls, each one made on
    the object the previous one left, whether it raised or not. *)
Definition record_games (l : t) (games : list Z) : t :=
  fold_left (fun l a => fst (record_game l a)) games l.

End HotColdLearner.

(** ** class HintBandit *)

(** The draws one call of [select_hint_style] takes from [random]:
    [random.random()], and the index [random.choice] picks (reduced modulo
    the length of the sequence). *)
Record style_draws : Type := {
  explore_draw : Float.float;
  choice_draw : nat
}.

Module HintBandit.

Record t : Type := mk {
  hint_styles : list string;
  exploration_rate : pynum;
  attempts : gmap string Z;
  avg_attempts : gmap string pynum;
  total_games : Z
}.

(** [{style: v for style in hint_styles}] *)
Definition dict_of {V : Type} (styles : list string) (v : V) : gmap string V :=
  fold_left (fun m s => <[s := v]> m) styles ∅.

Definition init (styles : list string) (rate : pynum) : t :=
  {| hint_styles := styles;
     exploration_rate := rate;
     attempts := dict_of styles 0;
     avg_attempts := dict_of styles (PFloat Float.lit_0_0);
     total_games := 0 |}.

(** [d[key]] *)
Definition getitem {V : Type} (d : gmap string V) (key : string) : result V :=
  match d !! key with
  | Some v => Ok v
  | None => Raise (KeyError key)
  end.

(** [random.choice(seq)] *)
Definition choice (seq : list string) (draw : nat) : result string :=
  match seq with
  | [] => Raise IndexError
  | _ :: _ =>
      match seq !! (draw mod length seq)%nat with
      | Some s => Ok s
      | None => Raise IndexError
      end
  end.

(** The loop of [min(seq, key=...)]: the running minimum is replaced only
    by an item whose key is strictly smaller. *)
Fixpoint min_loop (avg : gmap string pynum) (best : string) (best_key : pynum)
    (rest : list string) : result string :=
  match rest with
  | [] => Ok best
  | s :: rest' =>
      let* v := getitem avg s in
      if num_lt v best_key then min_loop avg s v rest'
      else min_loop avg best best_key rest'
  end.

Definition min_by_avg (avg : gmap string pynum) (seq : list string) : result string :=
  match seq with
  | [] => Raise ValueError
  | s :: rest =>
      let* v := getitem avg s in
      min_loop avg s v rest
  end.

Definition select_hint_style (b : t) (d : style_draws) : result string :=
  if num_lt (PFloat (explore_draw d)) (exploration_rate b) then
    choice (hint_styles b) (choice_draw d)
  else min_by_avg (avg_attempts b) (hint_styles b).

(** [0.8 * old + 0.2 * attempts] *)
Definition blend (old : pynum) (attempts : Z) : result pynum :=
  let* o := to_float old in
  let* a := Float.of_int attempts in
  Ok (PFloat (Float.add (Float.mul Float.lit_0_8 o) (Float.mul Float.lit_0_2 a))).

Definition update_stats (b : t) (hint_style : string) (n : Z) : effect t :=
  match attempts b !! hint_style with
  | None => raised b (KeyError hint_style)
  | Some c =>
      let b1 :=
        {| hint_styles := hint_styles b;
           exploration_rate := exploration_rate b;
           attempts := <[hint_style := c + 1]> (attempts b);
           avg_attempts := avg_attempts b;
           total_games := total_games b + 1 |} in
      let set_avg (v : pynum) : t :=
        {| hint_styles := hint_styles b1;
           exploration_rate := exploration_rate b1;
           attempts := attempts b1;
           avg_attempts := <[hint_style := v]> (avg_attempts b1);
           total_games := total_games b1 |} in
      if c + 1 =? 1 then returned (set_avg (PInt n))
      else
        commit b1
          (let* old := getitem (avg_attempts b1) hint_style in
           let* v := blend old n in
           Ok (set_avg v))
  end.

(** The object after a series of [update_stats] calls. *)
Definition update_all (b : t) (calls : list (string * Z)) : t :=
  fold_left (fun b c => fst (update_stats b c.1 c.2)) calls b.

End HintBandit.

(** ** Persisted records *)

(** What [json.load] returns and [json.dump] accepts. An object keeps its
    members in order, as a [dict] does. *)
Inductive json : Type :=
  | JNull
  | JBool (b : bool)
  | JInt (n : Z)
  | JFloat (f : Float.float)
  | JString (s : string)
  | JArray (items : list json)
  | JObject (members : list (string * json)).

(** A file holds a JSON text, seen as the value it denotes, or something
    else, on which [open] or [json.load] raises: a text that is not JSON,
    a truncated one, a directory, a file that may not be read. *)
Inductive file : Type :=
  | NotJson
  | Json (data : json).

Abbreviation files := (gmap string file).

(** [d.get(key)] on the members of an object *)
Fixpoint member (key : string) (members : list (string * json)) : option json :=
  match members with
  | [] => None
  | (k, v) :: rest => if String.eqb k key then Some v else member key rest
  end.

Definition json_of_num (x : pynum) : json :=
  match x with
  | PInt n => JInt n
  | PFloat f => JFloat f
  end.

(** The fields of a profile are typed. A record is read into them when each
    member has the JSON type [save_to_file] writes for it; [None] marks a
    record that has a member of another type, which is outside this
    embedding. *)
Definition as_float (j : json) : option Float.float :=
  match j with JFloat f => Some f | _ => None end.

Definition as_int (j : json) : option Z :=
  match j with JInt n => Some n | _ => None end.

Definition as_num (j : json) : option pynum :=
  match j with
  | JInt n => Some (PInt n)
  | JFloat f => Some (PFloat f)
  | _ => None
  end.

Definition as_optional_num (j : json) : option (option pynum) :=
  match j with
  | JNull => Some None
  | _ => Some <$> as_num j
  end.

(** ** class UserProfile *)

Module UserProfile.

Record t : Type := mk {
  username : string;
  alpha : Float.float;
  avg_attempts : option pynum;
  range_size : Z;
  games_played : Z;
  hot_cold_learner : HotColdLearner.t;
  hint_bandit : HintBandit.t
}.

Definition styles : list string := ["hot_cold"; "higher_lower"; "range"]%string.

(** [__init__(self, username)] *)
Definition init (name : string) : t :=
  {| username := name;
     alpha := Float.lit_0_5;
     avg_attempts := None;
     range_size := 100;
     games_played := 0;
     hot_cold_learner := HotColdLearner.init 3;
     hint_bandit := HintBandit.init styles (PFloat Float.lit_0_1) |}.

Definition filename (name : string) : string :=
  ("user_" ++ name ++ ".json")%string.

Definition style_stats (b : HintBandit.t) (style : string) : result (string * json) :=
  let* a := HintBandit.getitem (HintBandit.attempts b) style in
  let* v := HintBandit.getitem (HintBandit.avg_attempts b) style in
  Ok (style, JObject [("attempts"%string, JInt a);
                      ("avg_attempts"%string, json_of_num v)]).

Fixpoint all_style_stats (b : HintBandit.t) (seq : list string)
    : result (list (string * json)) :=
  match seq with
  | [] => Ok []
  | s :: rest =>
      let* x := style_stats b s in
      let* xs := all_style_stats b rest in
      Ok (x :: xs)
  end.

Definition to_json (p : t) : result json :=
  let* stats := all_style_stats (hint_bandit p) (HintBandit.hint_styles (hint_bandit p)) in
  Ok (JObject
        [("username"%string, JString (username p));
         ("alpha"%string, JFloat (alpha p));
         ("avg_attempts"%string,
           match avg_attempts p with
           | None => JNull
           | Some x => json_of_num x
           end);
         ("range_size"%string, JInt (range_size p));
         ("games_played"%string, JInt (games_played p));
         ("hot_cold_k"%string, JFloat (HotColdLearner.k (hot_cold_learner p)));
         ("hint_style_stats"%string, JObject stats)]).

Definition save_to_file (p : t) (fs : files) : result files :=
  let* data := to_json p in
  Ok (<[filename (username p) := Json data]> fs).

(** The loop over [data['hint_style_stats'].items()]. The boolean tells
    whether the loop ran to its end; it is false when an item raised,
    the assignments made before staying in place. *)
Fixpoint load_style_stats (b : HintBandit.t) (items : list (string * json))
    : option (HintBandit.t * bool) :=
  match items with
  | [] => Some (b, true)
  | (style, stats) :: rest =>
      if bool_decide (style ∈ HintBandit.hint_styles b) then
        match stats with
        | JObject ms =>
            match member "attempts" ms with
            | None => Some (b, false)
            | Some ja =>
                a ← as_int ja;
                let b1 :=
                  {| HintBandit.hint_styles := HintBandit.hint_styles b;
                     HintBandit.exploration_rate := HintBandit.exploration_rate b;
                     HintBandit.attempts := <[style := a]> (HintBandit.attempts b);
                     HintBandit.avg_attempts := HintBandit.avg_attempts b;
                     HintBandit.total_games := HintBandit.total_games b |} in
                match member "avg_attempts" ms with
                | None => Some (b1, false)
                | Some jv =>
                    v ← as_num jv;
                    load_style_stats
                      {| HintBandit.hint_styles := HintBandit.hint_styles b1;
                         HintBandit.exploration_rate := HintBandit.exploration_rate b1;
                         HintBandit.attempts := HintBandit.attempts b1;
                         HintBandit.avg_attempts := <[style := v]> (HintBandit.avg_attempts b1);
                         HintBandit.total_games := HintBandit.total_games b1 |}
                      rest
                end
            end
        | _ => Some (b, false)
        end
      else load_style_stats b rest
  end.

(** The body of the [try] block once [json.load] has returned [data]. *)
Definition load_data (p : t) (data : json) : option (t * bool) :=
  match data with
  | JObject ms =>
      a ← as_float (default (JFloat Float.lit_0_5) (member "alpha" ms));
      avg ← as_optional_num (default JNull (member "avg_attempts" ms));
      rs ← as_int (default (JInt 100) (member "range_size" ms));
      gp ← as_int (default (JInt 0) (member "games_played" ms));
      learner ←
        match member "hot_cold_k" ms with
        | None => Some (hot_cold_learner p)
        | Some jk => HotColdLearner.set_k (hot_cold_learner p) <$> as_float jk
        end;
      let with_bandit (b : HintBandit.t) : t :=
        {| username := username p;
           alpha := a;
           avg_attempts := avg;
           range_size := rs;
           games_played := gp;
           hot_cold_learner := learner;
           hint_bandit := b |} in
      match member "hint_style_stats" ms with
      | None => Some (with_bandit (hint_bandit p), true)
      | Some (JObject items) =>
          '(b, finished) ← load_style_stats (hint_bandit p) items;
          Some (with_bandit b, finished)
      | Some _ => Some (with_bandit (hint_bandit p), false)
      end
  | _ => Some (p, false)
  end.

(** [load_from_file]: the profile after the call and the value returned.
    Every exception of the [try] block is caught there. *)
Definition load_from_file (p : t) (fs : files) : option (t * bool) :=
  match fs !! filename (username p) with
  | None => Some (p, false)
  | Some NotJson => Some (p, false)
  | Some (Json data) => load_data p data
  end.

End UserProfile.

(** ** The attributes [load_from_file] assigns, as Python holds them

    The attributes of a Python object have no types: [load_from_file]
    assigns whatever [data.get] returns. [Attributes.t] holds, for each
    attribute the method assigns, the value of [json.load] it has after the
    call; [Attributes.load_from_file] is the method on them, defined on
    every file. [UserProfile.load_data] is the same method on the typed
    fields, defined when every value assigned has the type of its
    field. *)

Module Attributes.

Record t : Type := mk {
  alpha : json;
  avg_attempts : json;
  range_size : json;
  games_played : json;
  hot_cold_k : json;
  style_attempts : gmap string json;
  style_avg_attempts : gmap string json
}.

Definition of_profile (p : UserProfile.t) : t :=
  {| alpha := JFloat (UserProfile.alpha p);
     avg_attempts :=
       match UserProfile.avg_attempts p with
       | None => JNull
       | Some x => json_of_num x
       end;
     range_size := JInt (UserProfile.range_size p);
     games_played := JInt (UserProfile.games_played p);
     hot_cold_k := JFloat (HotColdLearner.k (UserProfile.hot_cold_learner p));
     style_attempts := JInt <$> HintBandit.attempts (UserProfile.hint_bandit p);
     style_avg_attempts :=
       json_of_num <$> HintBandit.avg_attempts (UserProfile.hint_bandit p) |}.

Definition set_style_attempts (a : t) (style : string) (v : json) : t :=
  {| alpha := alpha a;
     avg_attempts := avg_attempts a;
     range_size := range_size a;
     games_played := games_played a;
     hot_cold_k := hot_cold_k a;
     style_attempts := <[style := v]> (style_attempts a);
     style_avg_attempts := style_avg_attempts a |}.

Definition set_style_avg_attempts (a : t) (style : string) (v : json) : t :=
  {| alpha := alpha a;
     avg_attempts := avg_attempts a;
     range_size := range_size a;
     games_played := games_played a;
     hot_cold_k := hot_cold_k a;
     style_attempts := style_attempts a;
     style_avg_attempts := <[style := v]> (style_avg_attempts a) |}.

(** The loop over [data['hint_style_stats'].items()]; [styles] is
    [hint_styles]. [stats['attempts']] raises [TypeError] when [stats] is
    not a [dict] and [KeyError] when it has no such key; the boolean is
    false when an item raised, what was assigned before staying
    assigned. *)
Fixpoint load_style_stats (styles : list string) (a : t)
    (items : list (string * json)) : t * bool :=
  match items with
  | [] => (a, true)
  | (style, stats) :: rest =>
      if bool_decide (style ∈ styles) then
        match stats with
        | JObject ms =>
            match member "attempts" ms with
            | None => (a, false)
            | Some ja =>
                let a1 := set_style_attempts a style ja in
                match member "avg_attempts" ms with
                | None => (a1, false)
                | Some jv =>
                    load_style_stats styles (set_style_avg_attempts a1 style jv) rest
                end
            end
        | _ => (a, false)
        end
      else load_style_stats styles a rest
  end.

(** The body of the [try] block once [json.load] has returned [data].
    [data.get] raises [AttributeError] when [data] is not a [dict], and so
    does [.items()] on a [hint_style_stats] that is not one. *)
Definition load_data (styles : list string) (a : t) (data : json) : t * bool :=
  match data with
  | JObject ms =>
      let a1 :=
        {| alpha := default (JFloat Float.lit_0_5) (member "alpha" ms);
           avg_attempts := default JNull (member "avg_attempts" ms);
           range_size := default (JInt 100) (member "range_size" ms);
           games_played := default (JInt 0) (member "games_played" ms);
           hot_cold_k := default (hot_cold_k a) (member "hot_cold_k" ms);
           style_attempts := style_attempts a;
           style_avg_attempts := style_avg_attempts a |} in
      match member "hint_style_stats" ms with
      | None => (a1, true)
      | Some (JObject items) => load_style_stats styles a1 items
      | Some _ => (a1, false)
      end
  | _ => (a, false)
  end.

(** [load_from_file], on what the file name leads to: nothing, or a file.
    Every exception of the [try] block is caught there. *)
Definition load_from_file (styles : list string) (a : t) (found : option file)
    : t * bool :=
  match found with
  | Some (Json data) => load_data styles a data
  | _ => (a, false)
  end.

End Attributes.

(** ** Numbers as text

    [str(n)], which an f-string without a format and [json.dump] apply to
    an [int], raises [ValueError] on an [int] of more than 4300 decimal
    digits (CPython 3.11 and later, with the default limit). *)

Definition int_prints (n : Z) : bool := Z.abs n <? 10 ^ 4300.

Definition str_int (n : Z) : result unit :=
  if int_prints n then Ok tt else Raise ValueError.

(** [format(x, '.1f')]: an [int] is converted to a float first. *)
Definition format_f (x : pynum) : result unit :=
  let* _ := to_float x in Ok tt.

(** [json.dump] writes every value of the tree; it raises on an [int]
    that [str] refuses. NaN and the infinities are written, as [NaN] and
    [Infinity], and [json.load] reads them back. *)
Fixpoint dumpable (j : json) : bool :=
  match j with
  | JInt n => int_prints n
  | JArray items => forallb dumpable items
  | JObject members => forallb (fun kv => let '(_, v) := kv in dumpable v) members
  | _ => true
  end.

(** ** The disk behind the operating system *)

(** What the operating system makes of a file name. [locate name] is the
    file the path [name] leads to, if it leads to one: two names can lead
    to the same file, and a name to none (a directory on the way is
    missing, the name is longer than the system takes). [open_w name] is
    [open(name, 'w')]: the file it opens, created if need be, or the
    exception it raises. Neither depends on the files the program
    writes: it creates no directory. *)
Class FileSystem : Type := {
  locate : string -> option string;
  open_w : string -> result string
}.

Module OnDisk.

Section Paths.

Context {F : FileSystem}.

(** What [os.path.exists] and [open(name, 'r')] find under a name; a
    disk is keyed by the files themselves. *)
Definition found (name : string) (fs : files) : option file :=
  path ← locate name; fs !! path.

(** [save_to_file]: the disk after the call, and the exception raised, if
    any. [data] is built before the file is opened; [open] empties the
    file before [json.dump] writes, so that a [json.dump] that raises
    leaves a truncated text. *)
Definition save_to_file (p : UserProfile.t) (fs : files) : effect files :=
  match UserProfile.to_json p with
  | Raise e => raised fs e
  | Ok data =>
      match open_w (UserProfile.filename (UserProfile.username p)) with
      | Raise e => raised fs e
      | Ok path =>
          if dumpable data then returned (<[path := Json data]> fs)
          else raised (<[path := NotJson]> fs) ValueError
      end
  end.

(** [load_from_file] on the typed fields; [None] marks a record outside
    the embedding, as in [UserProfile.load_data]. *)
Definition load_from_file (p : UserProfile.t) (fs : files)
    : option (UserProfile.t * bool) :=
  match found (UserProfile.filename (UserProfile.username p)) fs with
  | Some (Json data) => UserProfile.load_data p data
  | _ => Some (p, false)
  end.

End Paths.

End OnDisk.

(** ** The console and the builtins applied to its lines *)

(** One call of [input()]: a line, the end of the input ([EOFError]) or an
    interruption ([KeyboardInterrupt]). *)
Inductive event : Type :=
  | Line (s : string)
  | EndOfInput
  | Interrupt.

Definition input (ev : event) : result string :=
  match ev with
  | Line s => Ok s
  | EndOfInput => Raise EOFError
  | Interrupt => Raise KeyboardInterrupt
  end.

(** [int(s)] ([None] is [ValueError]), [s.strip()] and [s.lower()] are
    Python's; the game is stated for any functions in their place. *)
Class Builtins : Type := {
  py_int : string -> option Z;
  py_strip : string -> string;
  py_lower : string -> string
}.

(** The draws one game of [play_user_guesses] takes from [random]. The
    secret is [lo + secret_draw mod (hi - lo + 1)]. *)
Record game_draws : Type := {
  secret_draw : Z;
  style_of_game : style_draws
}.

(** [random.randint(lo, hi)] *)
Definition randint (lo hi draw : Z) : result Z :=
  if hi <? lo then Raise ValueError else Ok (lo + draw mod (hi - lo + 1)).

(** ** class AdaptiveGame *)

(** The texts [get_hint] returns. *)
Inductive hint : Type :=
  | Hot
  | Cold
  | Higher
  | Lower
  | VeryClose
  | GettingWarm
  | Lukewarm
  | FarAway
  | InvalidHintStyle.

(** How a game mode ends when it returns to its caller. *)
Inductive verdict : Type :=
  | Won (attempts : Z)
  | Contradiction
  | Interrupted.

(** A game mode after an input event: still at its prompt, returned to the
    menu, or left by an exception that nothing in the mode catches. *)
Inductive progress (S : Type) : Type :=
  | Running (s : S)
  | Returned (v : verdict) (p : UserProfile.t)
  | Crashed (e : exn) (p : UserProfile.t).

Arguments Running {S} s.
Arguments Returned {S} v p.
Arguments Crashed {S} e p.

Module AdaptiveGame.

Import UserProfile.

Definition set_alpha (p : t) (a : Float.float) : t :=
  {| username := username p;
     alpha := a;
     avg_attempts := avg_attempts p;
     range_size := range_size p;
     games_played := games_played p;
     hot_cold_learner := hot_cold_learner p;
     hint_bandit := hint_bandit p |}.

Definition set_learner (p : t) (l : HotColdLearner.t) : t :=
  {| username := username p;
     alpha := alpha p;
     avg_attempts := avg_attempts p;
     range_size := range_size p;
     games_played := games_played p;
     hot_cold_learner := l;
     hint_bandit := hint_bandit p |}.

Definition set_bandit (p : t) (b : HintBandit.t) : t :=
  {| username := username p;
     alpha := alpha p;
     avg_attempts := avg_attempts p;
     range_size := range_size p;
     games_played := games_played p;
     hot_cold_learner := hot_cold_learner p;
     hint_bandit := b |}.

Definition set_stats (p : t) (avg : option pynum) (played size : Z) : t :=
  {| username := username p;
     alpha := alpha p;
     avg_attempts := avg;
     range_size := size;
     games_played := played;
     hot_cold_learner := hot_cold_learner p;
     hint_bandit := hint_bandit p |}.

(** [__init__(self, username)]: a fresh profile, then [load_from_file],
    whose returned value is dropped. *)
Definition init {F : FileSystem} (name : string) (fs : files) : option t :=
  fst <$> OnDisk.load_from_file (UserProfile.init name) fs.

Definition get_hint (p : t) (guess secret cur_lo cur_hi : Z) (hint_style : string)
    : result hint :=
  if String.eqb hint_style "hot_cold" then
    let* h := HotColdLearner.is_hot (hot_cold_learner p) guess secret cur_lo cur_hi in
    Ok (if h then Hot else Cold)
  else if String.eqb hint_style "higher_lower" then
    Ok (if guess <? secret then Higher else Lower)
  else if String.eqb hint_style "range" then
    let distance := Z.abs (guess - secret) in
    let* size := Float.of_int (cur_hi - cur_lo + 1) in
    let below (c : Float.float) : bool :=
      num_lt (PInt distance) (PFloat (Float.mul size c)) in
    if below Float.lit_0_1 then Ok VeryClose
    else if below Float.lit_0_3 then Ok GettingWarm
    else if below Float.lit_0_5 then Ok Lukewarm
    else Ok FarAway
  else Ok InvalidHintStyle.

(** The new [range_size], from the average just stored. *)
Definition adjust_range (avg : pynum) (size : Z) : result Z :=
  if num_lt avg (PInt 4) then
    let* f := Float.of_int size in
    let* n := Float.trunc (Float.mul f Float.lit_1_2) in
    Ok (Z.min 10000 n)
  else if num_gt avg (PInt 8) then
    let* f := Float.of_int size in
    let* n := Float.trunc (Float.mul f Float.lit_0_8) in
    Ok (Z.max 10 n)
  else Ok size.

Definition update_user_stats (p : t) (attempts : Z) : effect t :=
  let new_avg : result pynum :=
    match avg_attempts p with
    | None => Ok (PInt attempts)
    | Some old => HintBandit.blend old attempts
    end in
  match new_avg with
  | Raise e => raised p e
  | Ok avg =>
      let p1 := set_stats p (Some avg) (games_played p + 1) (range_size p) in
      commit p1
        (let* size := adjust_range avg (range_size p1) in
         Ok (set_stats p1 (Some avg) (games_played p1) size))
  end.

(** [show_stats] changes nothing; it raises when a number does not
    print. [if self.user.avg_attempts] is false on [None] and on a zero. *)
Definition truthy (x : option pynum) : bool :=
  match x with
  | None => false
  | Some (PInt n) => negb (n =? 0)
  | Some (PFloat (S754_zero _)) => false
  | Some (PFloat _) => true
  end.

Fixpoint show_style_stats (b : HintBandit.t) (seq : list string) : result unit :=
  match seq with
  | [] => Ok tt
  | style :: rest =>
      let* avg := HintBandit.getitem (HintBandit.avg_attempts b) style in
      let* count := HintBandit.getitem (HintBandit.attempts b) style in
      let* _ :=
        (if 0 <? count then
           let* _ := format_f avg in str_int count
         else Ok tt) in
      show_style_stats b rest
  end.

Definition show_stats (p : t) : result unit :=
  let* _ := str_int (games_played p) in
  let* _ :=
    (match avg_attempts p with
     | Some avg => if truthy (Some avg) then format_f avg else Ok tt
     | None => Ok tt
     end) in
  let* _ := str_int (range_size p) in
  show_style_stats (hint_bandit p) (HintBandit.hint_styles (hint_bandit p)).

(** *** [play_user_guesses] *)

(** The local variables of the loop, with the profile; [hints] are the
    hints printed so far, the latest first. *)
Record user_game : Type := {
  secret : Z;
  hint_style : string;
  attempts : Z;
  cur_lo : Z;
  cur_hi : Z;
  user : t;
  hints : list hint
}.

(** The statements of [play_user_guesses] before its loop. *)
Definition start_user_game (p : t) (d : game_draws) : progress user_game :=
  let lo := 1 in
  let hi := range_size p in
  match randint lo hi (secret_draw d) with
  | Raise e => Crashed e p
  | Ok x =>
      match HintBandit.select_hint_style (hint_bandit p) (style_of_game d) with
      | Raise e => Crashed e p
      | Ok style =>
          Running {| secret := x; hint_style := style; attempts := 0;
                     cur_lo := lo; cur_hi := hi; user := p; hints := [] |}
      end
  end.

(** [alpha] after a guess, when [cur_hi > cur_lo]. *)
Definition blend_alpha (a : Float.float) (guess lo hi : Z) : result Float.float :=
  if lo <? hi then
    let* pos := Float.int_truediv (guess - lo) (hi - lo) in
    Ok (Float.add (Float.mul Float.lit_0_9 a) (Float.mul Float.lit_0_1 pos))
  else Ok a.

(** The three updates of a won game. *)
Definition finish_user_game (p : t) (style : string) (n : Z) : effect t :=
  and_then
    (let '(l, e) := HotColdLearner.record_game (hot_cold_learner p) n in
     (set_learner p l, e))
    (fun p1 =>
       and_then
         (let '(b, e) := HintBandit.update_stats (hint_bandit p1) style n in
          (set_bandit p1 b, e))
         (fun p2 => update_user_stats p2 n)).

(** The loop body from [attempts += 1] on, for a guess that is a number
    inside the current range. *)
Definition accept_guess (g : user_game) (guess : Z) : progress user_game :=
  let n := attempts g + 1 in
  match blend_alpha (alpha (user g)) guess (cur_lo g) (cur_hi g) with
  | Raise e => Crashed e (user g)
  | Ok a =>
      let p := set_alpha (user g) a in
      match get_hint p guess (secret g) (cur_lo g) (cur_hi g) (hint_style g) with
      | Raise e => Crashed e p
      | Ok h =>
          if guess =? secret g then
            match finish_user_game p (hint_style g) n with
            | (p', None) => Returned (Won n) p'
            | (p', Some e) => Crashed e p'
            end
          else if guess <? secret g then
            Running {| secret := secret g; hint_style := hint_style g;
                       attempts := n;
                       cur_lo := Z.max (cur_lo g) (guess + 1);
                       cur_hi := cur_hi g;
                       user := p; hints := h :: hints g |}
          else
            Running {| secret := secret g; hint_style := hint_style g;
                       attempts := n;
                       cur_lo := cur_lo g;
                       cur_hi := Z.min (cur_hi g) (guess - 1);
                       user := p; hints := h :: hints g |}
      end
  end.

Definition in_range (g : user_game) (guess : Z) : bool :=
  negb ((guess <? cur_lo g) || (cur_hi g <? guess)).

Section Console.

Context `{Builtins}.

(** One turn of the loop of [play_user_guesses]: from the prompt to the
    next prompt, or out of the loop. *)
Definition user_step (g : user_game) (ev : event) : progress user_game :=
  match input ev with
  | Raise e => Crashed e (user g)
  | Ok s =>
      match py_int s with
      | None => Running g
      | Some guess =>
          if in_range g guess then accept_guess g guess else Running g
      end
  end.

Fixpoint user_loop (g : user_game) (evs : list event) : progress user_game :=
  match evs with
  | [] => Running g
  | ev :: rest =>
      match user_step g ev with
      | Running g' => user_loop g' rest
      | r => r
      end
  end.

Definition play_user_guesses (p : t) (d : game_draws) (evs : list event)
    : progress user_game :=
  match start_user_game p d with
  | Running g => user_loop g evs
  | r => r
  end.

(** *** [play_computer_guesses] *)

(** The guess of one turn, after the clamp into the range. *)
Definition next_guess (a : Float.float) (lo hi : Z) : result Z :=
  let* guess :=
    (if lo <? hi then
       let* width := Float.of_int (hi - lo) in
       let* base := Float.of_int lo in
       Float.round (Float.add base (Float.mul width a))
     else Ok lo) in
  Ok (Z.max lo (Z.min hi guess)).

(** The mode at its prompt for a response: the guess of this turn has
    been printed. [guesses] are the guesses printed so far, the latest
    first. *)
Record computer_game : Type := {
  c_attempts : Z;
  c_lo : Z;
  c_hi : Z;
  c_guess : Z;
  c_user : t;
  guesses : list Z
}.

(** The top of the loop down to the prompt. *)
Definition computer_turn (p : t) (n lo hi : Z) (printed : list Z)
    : progress computer_game :=
  match next_guess (alpha p) lo hi with
  | Raise e => Crashed e p
  | Ok g =>
      Running {| c_attempts := n + 1; c_lo := lo; c_hi := hi; c_guess := g;
                 c_user := p; guesses := g :: printed |}
  end.

(** From the prompt for a response to the next one, or out of the
    loop. *)
Definition computer_step (c : computer_game) (ev : event) : progress computer_game :=
  match input ev with
  | Raise _ => Returned Interrupted (c_user c)
  | Ok s =>
      let response := py_lower (py_strip s) in
      if String.eqb response "c" then Returned (Won (c_attempts c)) (c_user c)
      else if String.eqb response "h" then
        let lo := Z.max (c_lo c) (c_guess c + 1) in
        if c_hi c <? lo then Returned Contradiction (c_user c)
        else computer_turn (c_user c) (c_attempts c) lo (c_hi c) (guesses c)
      else if String.eqb response "l" then
        let hi := Z.min (c_hi c) (c_guess c - 1) in
        if hi <? c_lo c then Returned Contradiction (c_user c)
        else computer_turn (c_user c) (c_attempts c) (c_lo c) hi (guesses c)
      else computer_turn (c_user c) (c_attempts c) (c_lo c) (c_hi c) (guesses c)
  end.

Fixpoint computer_loop (c : computer_game) (evs : list event)
    : progress computer_game :=
  match evs with
  | [] => Running c
  | ev :: rest =>
      match computer_step c ev with
      | Running c' => computer_loop c' rest
      | r => r
      end
  end.

(** The statements before the loop, the first of which reads a line
    outside any [try], and the first turn. *)
Definition start_computer_game (p : t) (ready : event) : progress computer_game :=
  match input ready with
  | Raise e => Crashed e p
  | Ok _ => computer_turn p 0 1 (range_size p) []
  end.

Definition play_computer_guesses (p : t) (evs : list event)
    : progress computer_game :=
  match evs with
  | [] => Crashed EOFError p
  | ready :: rest =>
      match start_computer_game p ready with
      | Running c => computer_loop c rest
      | r => r
      end
  end.

End Console.

End AdaptiveGame.

(** ** [main] *)

(** Where the process stands: at one of its prompts, or ended. [Untyped]
    marks a process that loaded a record outside the embedding: what it
    does from there on is not modelled. *)
Inductive prompt : Type :=
  | AtUsername
  | AtMenu (p : UserProfile.t)
  | AtGuess (g : AdaptiveGame.user_game)
  | AtReady (p : UserProfile.t)
  | AtResponse (c : AdaptiveGame.computer_game)
  | Exited
  | Died (e : exn)
  | Untyped.

Record process : Type := {
  disk : files;
  games_started : nat;
  at_prompt : prompt
}.

Section Main.

Context `{Builtins} {F : FileSystem}.

(** The draws of the game of mode 1 started as the [n]th. *)
Variable rng : nat -> game_draws.

Definition back_to_menu {S : Type} (at_running : S -> prompt) (r : progress S) : prompt :=
  match r with
  | Running s => at_running s
  | Returned _ p => AtMenu p
  | Crashed e _ => Died e
  end.

(** The process after one more input event. *)
Definition main_step (st : process) (ev : event) : process :=
  let stay (pr : prompt) : process :=
    {| disk := disk st; games_started := games_started st; at_prompt := pr |} in
  match at_prompt st with
  | AtUsername =>
      match input ev with
      | Raise e => stay (Died e)
      | Ok s =>
          let name := py_strip s in
          let username := if String.eqb name "" then "Player"%string else name in
          match AdaptiveGame.init username (disk st) with
          | Some p => stay (AtMenu p)
          | None => stay Untyped
          end
      end
  | AtMenu p =>
      match input ev with
      | Raise _ => stay Exited
      | Ok s =>
          let choice := py_strip s in
          if String.eqb choice "1" then
            {| disk := disk st;
               games_started := S (games_started st);
               at_prompt :=
                 back_to_menu AtGuess
                   (AdaptiveGame.start_user_game p (rng (games_started st))) |}
          else if String.eqb choice "2" then stay (AtReady p)
          else if String.eqb choice "3" then
            match AdaptiveGame.show_stats p with
            | Ok _ => stay (AtMenu p)
            | Raise e => stay (Died e)
            end
          else if String.eqb choice "4" then
            let '(fs, exc) := OnDisk.save_to_file p (disk st) in
            {| disk := fs; games_started := games_started st;
               at_prompt := match exc with
                            | None => AtMenu p
                            | Some e => Died e
                            end |}
          else if String.eqb choice "5" then
            let '(fs, exc) := OnDisk.save_to_file p (disk st) in
            {| disk := fs; games_started := games_started st;
               at_prompt := match exc with
                            | None => Exited
                            | Some e => Died e
                            end |}
          else stay (AtMenu p)
      end
  | AtGuess g => stay (back_to_menu AtGuess (AdaptiveGame.user_step g ev))
  | AtReady p => stay (back_to_menu AtResponse (AdaptiveGame.start_computer_game p ev))
  | AtResponse c => stay (back_to_menu AtResponse (AdaptiveGame.computer_step c ev))
  | Exited => st
  | Died _ => st
  | Untyped => st
  end.

Definition main (fs : files) (evs : list event) : process :=
  fold_left main_step evs {| disk := fs; games_started := 0%nat; at_prompt := AtUsername |}.

End Main.

(** ** The builtins on ASCII text *)

Module Ascii_text.

(** The ASCII characters [str.isspace] holds for, which [strip] and
    [int] drop: 9 to 13, 28 to 31, and 32. *)
Definition is_space (c : ascii) : bool :=
  let n := nat_of_ascii c in
  ((9 <=? n) && (n <=? 13) || (28 <=? n) && (n <=? 32))%nat.

Fixpoint lstrip (s : string) : string :=
  match s with
  | String c rest => if is_space c then lstrip rest else s
  | EmptyString => EmptyString
  end.

Fixpoint rstrip (s : string) : string :=
  match s with
  | String c rest =>
      match rstrip rest with
      | EmptyString => if is_space c then EmptyString else String c EmptyString
      | rest' => String c rest'
      end
  | EmptyString => EmptyString
  end.

Definition strip (s : string) : string := rstrip (lstrip s).

Definition lower_ascii (c : ascii) : ascii :=
  let n := nat_of_ascii c in
  if ((65 <=? n) && (n <=? 90))%nat then ascii_of_nat (n + 32) else c.

Fixpoint lower (s : string) : string :=
  match s with
  | String c rest => String (lower_ascii c) (lower rest)
  | EmptyString => EmptyString
  end.

Definition digit (c : ascii) : option Z :=
  let n := nat_of_ascii c in
  if ((48 <=? n) && (n <=? 57))%nat then Some (Z.of_nat (n - 48)) else None.

(** The digits of a numeral after its first: one underscore may stand
    between two digits. [count] is the number of digits read. *)
Fixpoint digits (acc : Z) (count : nat) (s : string) : option (Z * nat) :=
  match s with
  | EmptyString => Some (acc, count)
  | String c rest =>
      let c' := match rest with String d _ => Some d | EmptyString => None end in
      if Ascii.eqb c "_" then
        match c' with
        | Some d => if Ascii.eqb d "_" then None else digits acc count rest
        | None => None
        end
      else
        match digit c with
        | Some d => digits (10 * acc + d) (S count) rest
        | None => None
        end
  end.

(** A numeral starts with a digit, and has at most 4300 of them. *)
Definition unsigned (s : string) : option Z :=
  match s with
  | String c _ =>
      match digit c with
      | Some _ =>
          '(n, count) ← digits 0 0 s;
          if (count <=? 4300)%nat then Some n else None
      | None => None
      end
  | EmptyString => None
  end.

(** Decimal numerals with an optional sign, between optional blanks. *)
Definition int (s : string) : option Z :=
  match strip s with
  | String "-" rest => Z.opp <$> unsigned rest
  | String "+" rest => unsigned rest
  | t => unsigned t
  end.

#[export] Instance builtins : Builtins :=
  {| py_int := int; py_strip := strip; py_lower := lower |}.

End Ascii_text.

(** ** A directory without subdirectories

    The file system of a directory of Linux that holds files only: a name
    of at most 255 bytes without a slash is a file of its own, and no
    other name opens. [open] raises [ValueError] on a name with a null
    byte, which [os.path.exists] takes for a name that leads nowhere. *)

Module Flat.

Definition has (c : ascii) (name : string) : bool :=
  existsb (Ascii.eqb c) (list_ascii_of_string name).

Definition plain (name : string) : bool :=
  negb (has "/" name) && negb (has "000" name)
  && (String.length name <=? 255)%nat.

Definition flat_locate (name : string) : option string :=
  if plain name then Some name else None.

Definition flat_open_w (name : string) : result string :=
  if has "000" name then Raise ValueError
  else if plain name then Ok name
  else Raise OSError.

#[export] Instance file_system : FileSystem :=
  {| locate := flat_locate; open_w := flat_open_w |}.

End Flat.

(** * Vocabulary of the statements *)

(** [k] is in the closed interval [[0.1, 0.8]]. *)
Definition in_bounds (x : Float.float) : Prop :=
  Float.leb Float.lit_0_1 x = true /\ Float.leb x Float.lit_0_8 = true.

(** The first guess [play_computer_guesses] prints for [p] is [x]. *)
Definition first_guess_is (p : UserProfile.t) (x : Z) : Prop :=
  exists c, AdaptiveGame.start_computer_game p (Line ""%string) = Running c
            /\ AdaptiveGame.guesses c = [x].

(** [float(x)] does not raise. *)
Definition convertible (x : pynum) : Prop :=
  match x with
  | PInt n => Z.abs n < Float.overflow_threshold
  | PFloat _ => True
  end.

(** The number of values in the current range of a game. *)
Definition width (g : AdaptiveGame.user_game) : Z :=
  AdaptiveGame.cur_hi g - AdaptiveGame.cur_lo g + 1.

(** The secret is inside the current range. *)
Definition secret_inside (g : AdaptiveGame.user_game) : Prop :=
  AdaptiveGame.cur_lo g <= AdaptiveGame.secret g <= AdaptiveGame.cur_hi g.

(** A profile on which the three updates of a won game, played with hint
    style [style], find what they read: a target that is not zero, the
    entries of the style, numbers a float can hold, and a [range_size] up to
    the cap of 10000. *)
Record profile_ready (p : UserProfile.t) (style : string) : Prop := {
  ready_target :
    HotColdLearner.target_guesses (UserProfile.hot_cold_learner p) <> 0;
  ready_attempts :
    is_Some (HintBandit.attempts (UserProfile.hint_bandit p) !! style);
  ready_avg :
    exists v, HintBandit.avg_attempts (UserProfile.hint_bandit p) !! style = Some v
              /\ convertible v;
  ready_user_avg :
    match UserProfile.avg_attempts p with
    | Some v => convertible v
    | None => True
    end;
  ready_range : 0 <= UserProfile.range_size p <= 10000
}.

(** A game of [play_user_guesses] at its prompt, in a state the mode
    reaches: the secret inside the range, and counters a float can hold. *)
Record game_ready (g : AdaptiveGame.user_game) : Prop := {
  ready_secret : secret_inside g;
  ready_count : 0 <= AdaptiveGame.attempts g;
  ready_size : AdaptiveGame.attempts g + width g < Float.overflow_threshold;
  ready_profile : profile_ready (AdaptiveGame.user g) (AdaptiveGame.hint_style g)
}.

Section Guesses.

Context `{Builtins}.

(** Every event is a line that [int] reads as a number inside the range
    current when it is typed, up to the end of the game. *)
Fixpoint guesses_in_range (g : AdaptiveGame.user_game) (evs : list event) : bool :=
  match evs with
  | [] => true
  | Line s :: rest =>
      match py_int s with
      | Some x =>
          AdaptiveGame.in_range g x
          && match AdaptiveGame.accept_guess g x with
             | Running g' => guesses_in_range g' rest
             | _ => true
             end
      | None => false
      end
  | _ :: _ => false
  end.

(** Whenever the loop, fed the events [evs], stands at its prompt, the
    event that comes next is a line that [int] reads as a number inside
    the range current at that prompt. *)
Definition in_range_guesses (g : AdaptiveGame.user_game) (evs : list event) : Prop :=
  forall pre ev post g',
    evs = pre ++ ev :: post ->
    AdaptiveGame.user_loop g pre = Running g' ->
    exists s x, ev = Line s /\ py_int s = Some x
                /\ AdaptiveGame.in_range g' x = true.

End Guesses.

(** [int(size * 1.2)] and [int(size * 0.8)] both return. *)
Definition scaling_returns (size : Z) : bool :=
  match Float.trunc (Float.mul (Float.of_Z size) Float.lit_1_2),
        Float.trunc (Float.mul (Float.of_Z size) Float.lit_0_8) with
  | Ok _, Ok _ => true
  | _, _ => false
  end.

(** The scenario of a fresh profile named Player: the game the
    human-guesses mode starts on the secret 50 with the hint style
    [hot_cold], and the system-guesses mode at its first prompt. *)
Definition scenario_game : AdaptiveGame.user_game :=
  {| AdaptiveGame.secret := 50;
     AdaptiveGame.hint_style := "hot_cold"%string;
     AdaptiveGame.attempts := 0;
     AdaptiveGame.cur_lo := 1;
     AdaptiveGame.cur_hi := 100;
     AdaptiveGame.user := UserProfile.init "Player"%string;
     AdaptiveGame.hints := [] |}.

Definition scenario_computer_game : AdaptiveGame.computer_game :=
  {| AdaptiveGame.c_attempts := 1;
     AdaptiveGame.c_lo := 1;
     AdaptiveGame.c_hi := 100;
     AdaptiveGame.c_guess := 50;
     AdaptiveGame.c_user := UserProfile.init "Player"%string;
     AdaptiveGame.guesses := [50] |}.

(** The draws that make mode 1 pick the secret 50 on the range [[1, 100]]. *)
Definition scenario_draws (sd : style_draws) : game_draws :=
  {| secret_draw := 49; style_of_game := sd |}.

Definition scenario_lines : list event :=
  [Line "75"%string; Line "25"%string; Line "50"%string].

(** C2 as stated: in the scenario three attempts are counted, the
    average becomes 3 and [k] is strictly larger than before. *)
Definition scenario_claim (sd : style_draws) : Prop :=
  exists p,
    AdaptiveGame.play_user_guesses (H := Ascii_text.builtins)
      (UserProfile.init "Player"%string) (scenario_draws sd) scenario_lines
      = Returned (Won 3) p
    /\ UserProfile.avg_attempts p = Some (PInt 3)
    /\ Float.ltb (HotColdLearner.k (UserProfile.hot_cold_learner (UserProfile.init "Player"%string)))
                 (HotColdLearner.k (UserProfile.hot_cold_learner p)) = true.

(** The calls of a series each name a style of the bandit and pass a
    number of attempts that a float can hold. *)
Definition calls_ok (styles : list string) (calls : list (string * Z)) : Prop :=
  Forall (fun c => c.1 ∈ styles /\ Z.abs c.2 < Float.overflow_threshold) calls.

(** How many calls of a series were for the style [s]. *)
Definition calls_for (s : string) (calls : list (string * Z)) : nat :=
  length (List.filter (fun c => String.eqb c.1 s) calls).

(** A number that compares: an [int], or a float that is a binary64 value
    and not NaN. *)
Definition num_ok (x : pynum) : bool :=
  match x with
  | PInt _ => true
  | PFloat f => valid_binary Float.prec Float.emax f && negb (Float.is_nan f)
  end.

(** The real value of a number times [2^1074], an integer for every [int]
    and every finite binary64 value, or an infinity. *)
Inductive scaled : Type :=
  | NegInf
  | Fin (z : Z)
  | PosInf.

Definition scaled_compare (a b : scaled) : comparison :=
  match a, b with
  | NegInf, NegInf => Eq
  | NegInf, _ => Lt
  | _, NegInf => Gt
  | PosInf, PosInf => Eq
  | PosInf, _ => Gt
  | _, PosInf => Lt
  | Fin x, Fin y => x ?= y
  end.

Definition scale (x : pynum) : scaled :=
  match x with
  | PInt n => Fin (n * 2 ^ 1074)
  | PFloat (S754_finite s m e) => Fin (Float.signed s (Z.pos m) * 2 ^ (e + 1074))
  | PFloat (S754_infinity s) => if s then NegInf else PosInf
  | PFloat _ => Fin 0
  end.

(** [exploration_rate] is zero: the [int] 0, or a float zero. *)
Definition zero_rate (r : pynum) : Prop := num_compare r (PInt 0) = Some Eq.

(** The style [s], at index [i] of [styles], is the first of the styles
    with the least average. *)
Definition first_minimum (avg : gmap string pynum) (styles : list string)
    (i : nat) (s : string) : Prop :=
  styles !! i = Some s
  /\ exists v, avg !! s = Some v
     /\ forall (j : nat) (s' : string) (v' : pynum),
          styles !! j = Some s' -> avg !! s' = Some v' ->
          num_lt v' v = false /\ ((j < i)%nat -> num_lt v v' = true).

(** Each style of the bandit has its entry in both dictionaries, as the
    constructor makes them. *)
Definition covers (b : HintBandit.t) : Prop :=
  forall s, s ∈ HintBandit.hint_styles b ->
            is_Some (HintBandit.attempts b !! s)
            /\ is_Some (HintBandit.avg_attempts b !! s).

(** The item [save_to_file] writes for the style [s] of the bandit [b]. *)
Definition stats_item (b : HintBandit.t) (s : string) (item : string * json) : Prop :=
  exists a v,
    HintBandit.attempts b !! s = Some a
    /\ HintBandit.avg_attempts b !! s = Some v
    /\ item = (s, JObject [("attempts"%string, JInt a);
                           ("avg_attempts"%string, json_of_num v)]).

(** The calls of a series that name a style of [styles]. *)
Definition known_calls (styles : list string) (calls : list (string * Z))
    : list (string * Z) :=
  List.filter (fun c => bool_decide (c.1 ∈ styles)) calls.

(** Both scalings of a size return, the growth to no less than the size
    and the cut to no more. *)
Definition scaling_bounded (size : Z) : bool :=
  match Float.trunc (Float.mul (Float.of_Z size) Float.lit_1_2),
        Float.trunc (Float.mul (Float.of_Z size) Float.lit_0_8) with
  | Ok up, Ok down => (size <=? up) && (down <=? size) && (0 <=? down)
  | _, _ => false
  end.

(** Two profiles that differ at most in [alpha]. *)
Definition same_but_alpha (p p' : UserProfile.t) : Prop :=
  UserProfile.username p' = UserProfile.username p
  /\ UserProfile.avg_attempts p' = UserProfile.avg_attempts p
  /\ UserProfile.range_size p' = UserProfile.range_size p
  /\ UserProfile.games_played p' = UserProfile.games_played p
  /\ UserProfile.hot_cold_learner p' = UserProfile.hot_cold_learner p
  /\ UserProfile.hint_bandit p' = UserProfile.hint_bandit p.

(** The guess printed at a prompt of the system-guesses mode is inside the
    current range. *)
Definition guess_inside (c : AdaptiveGame.computer_game) : Prop :=
  AdaptiveGame.c_lo c <= AdaptiveGame.c_guess c <= AdaptiveGame.c_hi c.

Section Answers.

Context `{Builtins}.



End Answers.


(** The profile a process holds at its prompt, if it holds one. *)
Definition profile_at (pr : prompt) : option UserProfile.t :=
  match pr with
  | AtMenu p => Some p
  | AtReady p => Some p
  | AtGuess g => Some (AdaptiveGame.user g)
  | AtResponse c => Some (AdaptiveGame.c_user c)
  | _ => None
  end.

(** The process holds no profile of another username than [u], and is
    past the prompt for the username. *)
Definition session_of (u : string) (st : process) : Prop :=
  at_prompt st <> AtUsername
  /\ forall p, profile_at (at_prompt st) = Some p -> UserProfile.username p = u.

Section Session.

Context `{Builtins}.

(** The username [main] makes of the first line: [strip]ped, or Player. *)
Definition session_name (line : string) : string :=
  let name := py_strip line in
  if String.eqb name "" then "Player"%string else name.

End Session.

(** A profile on which a game of the human-guesses mode can start and
    end: a range of 1 to 10000 values, a target that is not zero, a list
    of styles that is not empty, for each style a counter and an average
    that a float can hold, and an average of the user that a float can
    hold. *)
Record profile_fit (p : UserProfile.t) : Prop := {
  fit_range : 1 <= UserProfile.range_size p <= 10000;
  fit_target :
    HotColdLearner.target_guesses (UserProfile.hot_cold_learner p) <> 0;
  fit_styles : HintBandit.hint_styles (UserProfile.hint_bandit p) <> [];
  fit_entries :
    forall s, s ∈ HintBandit.hint_styles (UserProfile.hint_bandit p) ->
      is_Some (HintBandit.attempts (UserProfile.hint_bandit p) !! s)
      /\ exists v, HintBandit.avg_attempts (UserProfile.hint_bandit p) !! s = Some v
                   /\ convertible v;
  fit_avg :
    match UserProfile.avg_attempts p with
    | Some v => convertible v
    | None => True
    end
}.

(** [json.dump] accepts the record of the profile: none of its [int]s has
    more than 4300 digits. *)
Definition dumps (p : UserProfile.t) : Prop :=
  forall data, UserProfile.to_json p = Ok data -> dumpable data = true.

(** The attributes [a] with the two dictionaries of the bandit [b] in
    place of its own. *)
Definition with_bandit (a : Attributes.t) (b : HintBandit.t) : Attributes.t :=
  {| Attributes.alpha := Attributes.alpha a;
     Attributes.avg_attempts := Attributes.avg_attempts a;
     Attributes.range_size := Attributes.range_size a;
     Attributes.games_played := Attributes.games_played a;
     Attributes.hot_cold_k := Attributes.hot_cold_k a;
     Attributes.style_attempts := JInt <$> HintBandit.attempts b;
     Attributes.style_avg_attempts := json_of_num <$> HintBandit.avg_attempts b |}.

(** Every item of [hint_style_stats] that is for a style of [styles] is an
    object with the two keys the loop reads. *)
Definition readable_stats (styles : list string) (items : list (string * json))
    : Prop :=
  Forall (fun item : string * json =>
            item.1 ∈ styles ->
            exists ms, item.2 = JObject ms
                       /\ is_Some (member "attempts" ms)
                       /\ is_Some (member "avg_attempts" ms))
         items.

(** The record that [load_from_file] finds for the username [name], if
    it finds one, is one the embedding types. *)
Definition typed_start {F : FileSystem} (name : string) (fs : files) : Prop :=
  is_Some (AdaptiveGame.init name fs).

(** * Properties *)

Local Open Scope string_scope.
Local Open Scope Z_scope.
Local Open Scope list_scope.

(** ** Sanity of the float layer *)

Example float_literals :
  Float.lit_0_1 = S754_finite false 7205759403792794 (-56) /\
  Float.lit_0_8 = S754_finite false 7205759403792794 (-53) /\
  Float.lit_0_3 = S754_finite false 5404319552844595 (-54) /\
  Float.lit_0_5 = S754_finite false 4503599627370496 (-53).
Proof. repeat split; reflexivity. Qed.

Example of_int_boundary :
  Float.of_Z (Float.overflow_threshold - 1) = SFmax_float Float.prec Float.emax /\
  Float.of_Z Float.overflow_threshold = S754_infinity false.
Proof. split; vm_compute; reflexivity. Qed.

Example int_truediv_samples :
  Float.int_truediv 3 3 = Ok (Float.of_Z 1) /\
  Float.int_truediv 0 (-3) = Ok (S754_zero true) /\
  Float.int_truediv 5 0 = Raise ZeroDivisionError /\
  Float.int_truediv (2 ^ 1100) 3 = Raise OverflowError.
Proof. repeat split; vm_compute; reflexivity. Qed.

Example round_ties :
  Float.round (Float.add (Float.of_Z 50) Float.lit_0_5) = Ok 50 /\
  Float.round (Float.add (Float.of_Z 51) Float.lit_0_5) = Ok 52 /\
  Float.round (Float.literal (-5) 2) = Ok (-2) /\
  Float.trunc (Float.literal (-5) 2) = Ok (-2) /\
  Float.trunc (Float.literal 7 2) = Ok 3.
Proof. repeat split; vm_compute; reflexivity. Qed.

Lemma ltb_leb (x y : Float.float) : Float.ltb x y = true -> Float.leb x y = true.
Proof.
  unfold Float.ltb, Float.leb, SFltb, SFleb.
  destruct (SFcompare x y) as [[]|]; congruence.
Qed.

(** ** HotColdLearner: [k] stays in [[0.1, 0.8]] *)

Lemma clamp_in_bounds (x : Float.float) : in_bounds (HotColdLearner.clamp x).
Proof.
  unfold HotColdLearner.clamp, in_bounds.
  destruct (Float.ltb x Float.lit_0_8) eqn:Hhi.
  - destruct (Float.ltb Float.lit_0_1 x) eqn:Hlo.
    + split; apply ltb_leb; assumption.
    + split; reflexivity.
  - split; reflexivity.
Qed.

Lemma update_k_in_bounds (l l' : HotColdLearner.t) (a p : Z) :
  HotColdLearner.update_k l a p = Ok l' -> in_bounds (HotColdLearner.k l').
Proof.
  unfold HotColdLearner.update_k.
  destruct (a <=? HotColdLearner.target_guesses l);
    destruct (Float.int_truediv _ _); simpl; intros Heq;
    try discriminate; injection Heq as <-; apply clamp_in_bounds.
Qed.

Lemma record_game_in_bounds (l : HotColdLearner.t) (a : Z) :
  in_bounds (HotColdLearner.k l) ->
  in_bounds (HotColdLearner.k (HotColdLearner.record_game l a).1).
Proof.
  intros Hl. unfold HotColdLearner.record_game.
  match goal with |- context [commit ?s ?r] => destruct r as [l'|e] eqn:Hup end.
  - apply update_k_in_bounds in Hup. exact Hup.
  - exact Hl.
Qed.

Lemma record_games_in_bounds (games : list Z) (l : HotColdLearner.t) :
  in_bounds (HotColdLearner.k l) ->
  in_bounds (HotColdLearner.k (HotColdLearner.record_games l games)).
Proof.
  revert l. induction games as [|a games IH]; intros l Hl; [exact Hl|].
  apply IH, record_game_in_bounds, Hl.
Qed.

(** C1. Starting from the constructor's [k = 0.3], after each call of any
    series of [record_game] calls [k] is in [[0.1, 0.8]]: whatever
    [target_guesses] is, whatever integers the calls pass (in particular
    with [actual_guesses >= 1]), and also after a call that raised. *)
Theorem k_in_bounds_after_every_record_game (target : Z) (games : list Z) (n : nat) :
  in_bounds
    (HotColdLearner.k
       (HotColdLearner.record_games (HotColdLearner.init target) (take n games))).
Proof.
  apply record_games_in_bounds. split; reflexivity.
Qed.

(** ** The guess of the system-guesses mode *)

Lemma next_guess_clamped (a : Float.float) (lo hi : Z) :
  lo <= hi ->
  match AdaptiveGame.next_guess a lo hi with
  | Ok g => lo <= g <= hi
  | Raise e => e = ValueError \/ e = OverflowError
  end.
Proof.
  intros Hle. unfold AdaptiveGame.next_guess.
  destruct (lo <? hi); simpl; [|lia].
  unfold Float.of_int.
  destruct (Z.abs (hi - lo) <? _); simpl; [|auto].
  destruct (Z.abs lo <? _); simpl; [|auto].
  unfold Float.round.
  destruct (Float.add _ _) as [s|s| |s m e]; simpl; auto; try lia.
  destruct (0 <=? e); simpl; lia.
Qed.

(** C10. For every float [alpha], NaN, infinities and values outside
    [[0, 1]] included, and every range [cur_lo <= cur_hi], a guess that
    [next_guess] returns after its clamp is inside [[cur_lo, cur_hi]]. The
    only other outcome is that [round] raises, and then no guess is
    printed. *)
Theorem emitted_guess_in_range (alpha : Float.float) (cur_lo cur_hi : Z) :
  cur_lo <= cur_hi ->
  match AdaptiveGame.next_guess alpha cur_lo cur_hi with
  | Ok guess => cur_lo <= guess <= cur_hi
  | Raise e => e = ValueError \/ e = OverflowError
  end.
Proof. apply next_guess_clamped. Qed.

Lemma emitted_guess_in_range_witness :
  1 <= 100 /\
  AdaptiveGame.next_guess (Float.literal 5 2) 1 100 = Ok 100 /\
  match AdaptiveGame.next_guess (Float.literal 5 2) 1 100 with
  | Ok guess => 1 <= guess <= 100
  | Raise e => e = ValueError \/ e = OverflowError
  end.
Proof.
  split; [lia|]. split; [vm_compute; reflexivity|].
  apply (emitted_guess_in_range (Float.literal 5 2) 1 100). lia.
Defined.

(** A range of one value needs no float at all. *)
Lemma next_guess_single (a : Float.float) (lo : Z) :
  AdaptiveGame.next_guess a lo lo = Ok lo.
Proof.
  unfold AdaptiveGame.next_guess. rewrite Z.ltb_irrefl. simpl. f_equal. lia.
Qed.

(** C7, as stated: the first guess would be 51. *)
Lemma first_guess_not_51 : ~ first_guess_is (UserProfile.init "Player") 51.
Proof.
  intros [c [Hrun Hg]].
  assert (AdaptiveGame.start_computer_game (UserProfile.init "Player") (Line "")
          = Running scenario_computer_game) as Hstart by (vm_compute; reflexivity).
  rewrite Hstart in Hrun. injection Hrun as Hc. rewrite <- Hc in Hg.
  clear Hstart Hc. simpl in Hg. discriminate Hg.
Qed.

(** C7, amended. With [alpha = 0.5] and the range [[1, 100]] the biased
    position is [1 + 99 * 0.5 = 50.5], [round] takes a tie to the even
    neighbour, and the first guess printed is 50. *)
Theorem first_guess_half_alpha (p : UserProfile.t) (s : string) :
  UserProfile.alpha p = Float.lit_0_5 ->
  UserProfile.range_size p = 100 ->
  Float.add (Float.of_Z 1) (Float.mul (Float.of_Z 99) Float.lit_0_5)
    = Float.literal 101 2
  /\ exists c, AdaptiveGame.start_computer_game p (Line s) = Running c
               /\ AdaptiveGame.c_guess c = 50
               /\ AdaptiveGame.guesses c = [50]
               /\ AdaptiveGame.c_attempts c = 1.
Proof.
  intros Ha Hr. split; [vm_compute; reflexivity|].
  unfold AdaptiveGame.start_computer_game, AdaptiveGame.computer_turn. simpl.
  rewrite Ha, Hr.
  replace (AdaptiveGame.next_guess Float.lit_0_5 1 100) with (Ok (A:=Z) 50)
    by (vm_compute; reflexivity).
  eexists. split; [reflexivity|]. simpl. auto.
Qed.

Lemma first_guess_half_alpha_witness :
  first_guess_is (UserProfile.init "Player") 50.
Proof.
  destruct (first_guess_half_alpha (UserProfile.init "Player") "" eq_refl eq_refl)
    as [_ [c [Hrun [_ [Hg _]]]]].
  exists c. split; assumption.
Defined.

(** ** Range narrowing *)

Import AdaptiveGame.

(** What a turn that stays in the loop of [play_user_guesses] did. *)
Lemma accept_guess_running (g g' : user_game) (x : Z) :
  accept_guess g x = Running g' ->
  secret g' = secret g /\ hint_style g' = hint_style g
  /\ attempts g' = attempts g + 1
  /\ UserProfile.range_size (user g') = UserProfile.range_size (user g)
  /\ UserProfile.avg_attempts (user g') = UserProfile.avg_attempts (user g)
  /\ UserProfile.hot_cold_learner (user g') = UserProfile.hot_cold_learner (user g)
  /\ UserProfile.hint_bandit (user g') = UserProfile.hint_bandit (user g)
  /\ ((x < secret g /\ cur_lo g' = Z.max (cur_lo g) (x + 1) /\ cur_hi g' = cur_hi g)
      \/ (secret g < x /\ cur_lo g' = cur_lo g /\ cur_hi g' = Z.min (cur_hi g) (x - 1))).
Proof.
  unfold accept_guess.
  destruct (blend_alpha _ _ _ _) as [a|e]; [|discriminate].
  destruct (get_hint _ _ _ _ _ _) as [h|e]; [|discriminate].
  destruct (x =? secret g) eqn:Heq.
  - destruct (finish_user_game _ _ _) as [p' [e|]]; discriminate.
  - apply Z.eqb_neq in Heq.
    destruct (x <? secret g) eqn:Hlt; intros Hrun; injection Hrun as <-; simpl;
      repeat split; [left | right]; repeat split; lia.
Qed.

Section Narrowing.

Context `{Builtins}.

Lemma user_step_monotone (g g' : user_game) (ev : event) :
  user_step g ev = Running g' ->
  cur_lo g <= cur_lo g' /\ cur_hi g' <= cur_hi g.
Proof.
  unfold user_step.
  destruct (input ev) as [s|e]; [|discriminate].
  destruct (py_int s) as [x|].
  - destruct (in_range g x).
    + intros Hrun. apply accept_guess_running in Hrun.
      destruct Hrun as (_ & _ & _ & _ & _ & _ & _ & [(_ & -> & ->) | (_ & -> & ->)]); lia.
    + intros Hrun. injection Hrun as <-. lia.
  - intros Hrun. injection Hrun as <-. lia.
Qed.

Lemma user_loop_monotone (evs : list event) (g g' : user_game) :
  user_loop g evs = Running g' ->
  cur_lo g <= cur_lo g' /\ cur_hi g' <= cur_hi g.
Proof.
  revert g. induction evs as [|ev evs IH]; intros g; simpl.
  - intros Hrun. injection Hrun as <-. lia.
  - destruct (user_step g ev) as [g1| |] eqn:Hstep; try discriminate.
    intros Hrun. apply user_step_monotone in Hstep. apply IH in Hrun. lia.
Qed.

Lemma computer_turn_running (p : UserProfile.t) (n lo hi : Z) (l : list Z)
    (c : computer_game) :
  computer_turn p n lo hi l = Running c -> c_lo c = lo /\ c_hi c = hi.
Proof.
  unfold computer_turn. destruct (next_guess _ _ _); [|discriminate].
  intros Hrun. injection Hrun as <-. auto.
Qed.

Lemma computer_step_monotone (c c' : computer_game) (ev : event) :
  computer_step c ev = Running c' ->
  c_lo c <= c_lo c' /\ c_hi c' <= c_hi c.
Proof.
  unfold computer_step.
  destruct (input ev) as [s|e]; [|discriminate].
  repeat match goal with
         | |- context [if ?b then _ else _] => destruct b
         end;
    try discriminate;
    intros Hrun; apply computer_turn_running in Hrun; lia.
Qed.

Lemma computer_loop_monotone (evs : list event) (c c' : computer_game) :
  computer_loop c evs = Running c' ->
  c_lo c <= c_lo c' /\ c_hi c' <= c_hi c.
Proof.
  revert c. induction evs as [|ev evs IH]; intros c; simpl.
  - intros Hrun. injection Hrun as <-. lia.
  - destruct (computer_step c ev) as [c1| |] eqn:Hstep; try discriminate.
    intros Hrun. apply computer_step_monotone in Hstep. apply IH in Hrun. lia.
Qed.

(** C6. In both modes, between any two prompts of a game, whatever was
    typed in between, [cur_lo] has not decreased and [cur_hi] has not
    increased. *)
Theorem range_narrowing_monotone
    (g g1 g2 : user_game) (c c1 c2 : computer_game)
    (before after before' after' : list event) :
  user_loop g before = Running g1 ->
  user_loop g1 after = Running g2 ->
  computer_loop c before' = Running c1 ->
  computer_loop c1 after' = Running c2 ->
  (cur_lo g <= cur_lo g1 <= cur_lo g2 /\ cur_hi g2 <= cur_hi g1 <= cur_hi g)
  /\ (c_lo c <= c_lo c1 <= c_lo c2 /\ c_hi c2 <= c_hi c1 <= c_hi c).
Proof.
  intros H1 H2 H3 H4.
  apply user_loop_monotone in H1, H2.
  apply computer_loop_monotone in H3, H4. lia.
Qed.

End Narrowing.

(** ** The human-guesses mode ends with a win *)

Lemma threshold_large : 2 ^ 20 < Float.overflow_threshold.
Proof. vm_compute. reflexivity. Qed.

Lemma of_int_returns (n : Z) :
  Z.abs n < Float.overflow_threshold -> Float.of_int n = Ok (Float.of_Z n).
Proof.
  intros Hn. unfold Float.of_int.
  destruct (Z.ltb_spec (Z.abs n) Float.overflow_threshold); [reflexivity|lia].
Qed.

Lemma int_truediv_returns (a b : Z) :
  b <> 0 -> Z.abs a < Float.overflow_threshold ->
  Float.int_truediv a b = Ok (Float.quotient a b).
Proof.
  intros Hb Ha. unfold Float.int_truediv.
  destruct (Z.eqb_spec b 0); [contradiction|].
  destruct (Z.leb_spec (Float.overflow_threshold * Z.abs b) (Z.abs a)); [|reflexivity].
  pose proof threshold_large. nia.
Qed.

Lemma int_truediv_fraction (a b : Z) :
  0 <= a <= b -> 0 < b -> Float.int_truediv a b = Ok (Float.quotient a b).
Proof.
  intros Ha Hb. unfold Float.int_truediv.
  destruct (Z.eqb_spec b 0); [lia|].
  destruct (Z.leb_spec (Float.overflow_threshold * Z.abs b) (Z.abs a)); [|reflexivity].
  pose proof threshold_large. nia.
Qed.

Lemma to_float_returns (x : pynum) :
  convertible x -> exists f, to_float x = Ok f.
Proof.
  destruct x as [n|f]; simpl; intros Hx; [|eauto].
  rewrite of_int_returns by exact Hx. eauto.
Qed.

Lemma blend_returns (old : pynum) (n : Z) :
  convertible old -> Z.abs n < Float.overflow_threshold ->
  exists f, HintBandit.blend old n = Ok (PFloat f).
Proof.
  intros Hold Hn. unfold HintBandit.blend.
  destruct (to_float_returns old Hold) as [o ->]. simpl.
  rewrite of_int_returns by exact Hn. simpl. eauto.
Qed.

Lemma int_truediv_self (b : Z) :
  b <> 0 -> Float.int_truediv b b = Ok (Float.quotient b b).
Proof.
  intros Hb. unfold Float.int_truediv.
  destruct (Z.eqb_spec b 0); [contradiction|].
  destruct (Z.leb_spec (Float.overflow_threshold * Z.abs b) (Z.abs b)); [|reflexivity].
  pose proof threshold_large. nia.
Qed.

Lemma record_game_returns (l : HotColdLearner.t) (n : Z) :
  HotColdLearner.target_guesses l <> 0 -> Z.abs n < Float.overflow_threshold ->
  exists l', HotColdLearner.record_game l n = (l', None).
Proof.
  intros Ht Hn. unfold HotColdLearner.record_game, HotColdLearner.update_k. simpl.
  destruct (n <=? HotColdLearner.target_guesses l).
  - rewrite int_truediv_self by exact Ht. simpl. eauto.
  - rewrite int_truediv_returns by assumption. simpl. eauto.
Qed.

Lemma update_stats_returns (b : HintBandit.t) (style : string) (n : Z) :
  is_Some (HintBandit.attempts b !! style) ->
  (exists v, HintBandit.avg_attempts b !! style = Some v /\ convertible v) ->
  Z.abs n < Float.overflow_threshold ->
  exists b', HintBandit.update_stats b style n = (b', None).
Proof.
  intros [c Hc] [v [Hv Hconv]] Hn. unfold HintBandit.update_stats. rewrite Hc.
  destruct (c + 1 =? 1); [eauto|].
  unfold HintBandit.getitem. simpl. rewrite Hv. simpl.
  destruct (blend_returns v n Hconv Hn) as [f ->]. simpl. eauto.
Qed.

(** They do for every size up to the cap of 10000. *)
Lemma scaling_returns_to_cap :
  forallb (fun i => scaling_returns (Z.of_nat i)) (seq 0 (Z.to_nat 10001)) = true.
Proof. vm_cast_no_check (eq_refl true). Qed.

Lemma scaling_returns_in_range (size : Z) :
  0 <= size <= 10000 -> scaling_returns size = true.
Proof.
  intros Hs. pose proof scaling_returns_to_cap as Hall.
  rewrite forallb_forall in Hall.
  specialize (Hall (Z.to_nat size)).
  rewrite Z2Nat.id in Hall by lia. apply Hall.
  apply in_seq. lia.
Qed.

Lemma adjust_range_returns (avg : pynum) (size : Z) :
  0 <= size <= 10000 -> exists n, adjust_range avg size = Ok n.
Proof.
  intros Hs. pose proof (scaling_returns_in_range size Hs) as Hsc.
  unfold scaling_returns in Hsc. unfold adjust_range.
  pose proof threshold_large.
  rewrite of_int_returns by lia. simpl.
  destruct (Float.trunc (Float.mul (Float.of_Z size) Float.lit_1_2)); [|discriminate].
  destruct (Float.trunc (Float.mul (Float.of_Z size) Float.lit_0_8)); [|discriminate].
  destruct (num_lt avg (PInt 4)); simpl; [eauto|].
  destruct (num_gt avg (PInt 8)); simpl; eauto.
Qed.

Lemma update_user_stats_returns (p : UserProfile.t) (n : Z) :
  match UserProfile.avg_attempts p with Some v => convertible v | None => True end ->
  0 <= UserProfile.range_size p <= 10000 ->
  Z.abs n < Float.overflow_threshold ->
  exists p', update_user_stats p n = (p', None).
Proof.
  intros Havg Hsize Hn. unfold update_user_stats.
  assert (exists avg, match UserProfile.avg_attempts p with
                      | Some old => HintBandit.blend old n
                      | None => Ok (PInt n)
                      end = Ok avg) as [avg ->].
  { destruct (UserProfile.avg_attempts p) as [old|]; [|eauto].
    destruct (blend_returns old n Havg Hn) as [f ->]. eauto. }
  simpl.
  destruct (adjust_range_returns avg (UserProfile.range_size p) Hsize) as [m ->].
  simpl. eauto.
Qed.

Lemma finish_user_game_returns (p : UserProfile.t) (style : string) (n : Z) :
  profile_ready p style -> Z.abs n < Float.overflow_threshold ->
  exists p', finish_user_game p style n = (p', None).
Proof.
  intros [Ht Ha Hv Hu Hr] Hn. unfold finish_user_game.
  destruct (record_game_returns _ n Ht Hn) as [l' ->]. simpl.
  destruct (update_stats_returns _ style n Ha Hv Hn) as [b' ->]. simpl.
  apply update_user_stats_returns; simpl; assumption.
Qed.

Lemma get_hint_returns (p : UserProfile.t) (x secret lo hi : Z) (style : string) :
  Z.abs (hi - lo + 1) < Float.overflow_threshold ->
  exists h, get_hint p x secret lo hi style = Ok h.
Proof.
  intros Hw. unfold get_hint, HotColdLearner.is_hot.
  rewrite of_int_returns by exact Hw. simpl.
  repeat match goal with
         | |- context [if ?b then _ else _] => destruct b
         end; eauto.
Qed.

Lemma blend_alpha_returns (a : Float.float) (x lo hi : Z) :
  lo <= x <= hi -> exists a', blend_alpha a x lo hi = Ok a'.
Proof.
  intros Hx. unfold blend_alpha.
  destruct (Z.ltb_spec lo hi); [|eauto].
  rewrite int_truediv_fraction by lia. simpl. eauto.
Qed.

Lemma in_range_spec (g : user_game) (x : Z) :
  in_range g x = true <-> cur_lo g <= x <= cur_hi g.
Proof.
  unfold in_range. rewrite negb_true_iff, orb_false_iff, !Z.ltb_ge. lia.
Qed.

(** A turn on a guess inside the range: a win on the secret, and on any
    other number a strictly smaller range that still holds the secret. *)
Lemma accept_guess_ready (g : user_game) (x : Z) :
  game_ready g -> in_range g x = true ->
  (x = secret g /\ exists p, accept_guess g x = Returned (Won (attempts g + 1)) p)
  \/ (x <> secret g
      /\ exists g', accept_guess g x = Running g' /\ game_ready g'
                    /\ width g' < width g).
Proof.
  intros [Hsec Hcount Hsize Hprof] Hx. apply in_range_spec in Hx.
  unfold secret_inside, width in *.
  destruct (Z.eq_dec x (secret g)) as [Heq|Hne].
  - left. split; [exact Heq|]. unfold accept_guess.
    destruct (blend_alpha_returns (UserProfile.alpha (user g)) x _ _ Hx) as [a ->].
    destruct (get_hint_returns (set_alpha (user g) a) x (secret g) (cur_lo g)
                (cur_hi g) (hint_style g)) as [h ->]; [lia|].
    rewrite (proj2 (Z.eqb_eq _ _) Heq).
    destruct (finish_user_game_returns (set_alpha (user g) a) (hint_style g)
                (attempts g + 1)) as [p' ->]; [|lia|eauto].
    destruct Hprof; constructor; assumption.
  - right. split; [exact Hne|].
    destruct (accept_guess g x) as [g'|v p|e p] eqn:Hstep.
    + exists g'. split; [reflexivity|].
      apply accept_guess_running in Hstep.
      destruct Hstep as (Hs & Hst & Hn & Hrs & Hav & Hl & Hb & Hnarrow).
      assert (cur_lo g' <= secret g <= cur_hi g' /\
              cur_hi g' - cur_lo g' < cur_hi g - cur_lo g) as [Hin Hlt]
        by (destruct Hnarrow as [(? & -> & ->) | (? & -> & ->)]; lia).
      split; [|unfold width; lia].
      constructor; unfold secret_inside, width; rewrite ?Hs, ?Hn; try lia.
      rewrite Hst. destruct Hprof as [Ht Ha Hv Hu Hr].
      constructor; rewrite ?Hl, ?Hb, ?Hav, ?Hrs; assumption.
    + exfalso. revert Hstep. unfold accept_guess.
      destruct (blend_alpha _ _ _ _); [|discriminate].
      destruct (get_hint _ _ _ _ _ _); [|discriminate].
      rewrite (proj2 (Z.eqb_neq _ _) Hne).
      destruct (x <? secret g); discriminate.
    + exfalso. revert Hstep. unfold accept_guess.
      destruct (blend_alpha_returns (UserProfile.alpha (user g)) x _ _ Hx) as [a ->].
      destruct (get_hint_returns (set_alpha (user g) a) x (secret g) (cur_lo g)
                  (cur_hi g) (hint_style g)) as [h ->]; [lia|].
      rewrite (proj2 (Z.eqb_neq _ _) Hne).
      destruct (x <? secret g); discriminate.
Qed.

Section Termination.

Context `{Builtins}.

Lemma user_loop_wins (evs : list event) (g : user_game) :
  game_ready g -> guesses_in_range g evs = true ->
  width g <= Z.of_nat (length evs) ->
  exists n p, user_loop g evs = Returned (Won n) p
              /\ attempts g < n <= attempts g + width g.
Proof.
  revert g. induction evs as [|ev evs IH]; intros g Hready Hgs Hlen.
  - destruct Hready as [Hsec _ _ _]. unfold secret_inside, width in *.
    simpl in Hlen. lia.
  - simpl in Hgs. destruct ev as [s| |]; try discriminate.
    destruct (py_int s) as [x|] eqn:Hint; [|discriminate].
    apply andb_true_iff in Hgs as [Hx Hrest].
    simpl. unfold user_step. simpl. rewrite Hint, Hx.
    destruct (accept_guess_ready g x Hready Hx)
      as [[_ [p Hwin]] | [_ [g' (Hrun & Hready' & Hw)]]].
    + rewrite Hwin. exists (attempts g + 1), p. split; [reflexivity|].
      destruct Hready as [Hsec _ _ _]. unfold secret_inside, width in *. lia.
    + rewrite Hrun in Hrest |- *.
      destruct (IH g' Hready' Hrest) as (n & p & Hwin & Hn).
      { rewrite length_cons, Nat2Z.inj_succ in Hlen. lia. }
      exists n, p. split; [exact Hwin|].
      apply accept_guess_running in Hrun.
      destruct Hrun as (_ & _ & Hatt & _). lia.
Qed.

Lemma user_loop_app (pre post : list event) (g : user_game) :
  user_loop g (pre ++ post)
  = match user_loop g pre with
    | Running g' => user_loop g' post
    | r => r
    end.
Proof.
  revert g. induction pre as [|ev pre IH]; intros g; cbn [user_loop app].
  - reflexivity.
  - destruct (user_step g ev) as [g1| |]; [apply IH|reflexivity|reflexivity].
Qed.

(** One turn of a game in a state the mode reaches: the prompt again with
    nothing changed, on a line that is no number of the range; a win, on
    the secret; a strictly smaller range and one attempt more, on any
    other number of the range; the exception of [input]. *)
Lemma user_step_ready (g : user_game) (ev : event) :
  game_ready g ->
  match user_step g ev with
  | Running g' =>
      game_ready g' /\ secret g' = secret g
      /\ (g' = g
          \/ width g' < width g /\ attempts g' = attempts g + 1
             /\ exists s x, ev = Line s /\ py_int s = Some x
                            /\ in_range g x = true /\ x <> secret g)
  | Returned v _ =>
      v = Won (attempts g + 1)
      /\ exists s, ev = Line s /\ py_int s = Some (secret g)
  | Crashed e _ =>
      ev = EndOfInput /\ e = EOFError \/ ev = Interrupt /\ e = KeyboardInterrupt
  end.
Proof.
  intros Hready. unfold user_step.
  destruct ev as [s| |]; cbn [input]; [|left; auto|right; auto].
  destruct (py_int s) as [x|] eqn:Hint; [|auto].
  destruct (in_range g x) eqn:Hx; [|auto].
  destruct (accept_guess_ready g x Hready Hx)
    as [[-> [p ->]] | [Hne [g' (Hrun & Hready' & Hw)]]].
  - split; [reflexivity|]. exists s. auto.
  - rewrite Hrun. split; [exact Hready'|].
    apply accept_guess_running in Hrun as (Hs & _ & Hn & _).
    split; [exact Hs|]. right. split; [exact Hw|]. split; [exact Hn|].
    exists s, x. auto.
Qed.

(** The prompts a ready game reaches: the game is ready there, with the
    same secret and a range no larger. *)
Lemma user_loop_ready (evs : list event) (g g' : user_game) :
  game_ready g -> user_loop g evs = Running g' ->
  game_ready g' /\ secret g' = secret g /\ width g' <= width g.
Proof.
  revert g. induction evs as [|ev evs IH]; intros g Hready; cbn [user_loop].
  - intros Hrun. injection Hrun as <-. split; [exact Hready|]. split; [reflexivity|lia].
  - pose proof (user_step_ready g ev Hready) as Hstep.
    destruct (user_step g ev) as [g1| |]; try discriminate.
    destruct Hstep as (Hready1 & Hs1 & Hnarrow). intros Hrun.
    destruct (IH g1 Hready1 Hrun) as (Hready' & Hs' & Hw').
    split; [exact Hready'|]. split; [congruence|].
    destruct Hnarrow as [->|(Hw & _)]; lia.
Qed.

(** How a ready game ends: by a win, on a line that is the secret, typed
    at a prompt the loop had reached; or by the exception of [input]. *)
Lemma user_loop_exit (evs : list event) (g : user_game) :
  game_ready g ->
  match user_loop g evs with
  | Running _ => True
  | Returned v _ =>
      exists pre s post g',
        evs = pre ++ Line s :: post
        /\ user_loop g pre = Running g'
        /\ py_int s = Some (secret g)
        /\ v = Won (attempts g' + 1)
  | Crashed e _ => e = EOFError \/ e = KeyboardInterrupt
  end.
Proof.
  revert g. induction evs as [|ev evs IH]; intros g Hready; cbn [user_loop];
    [exact I|].
  pose proof (user_step_ready g ev Hready) as Hstep.
  destruct (user_step g ev) as [g1|v p|e p] eqn:Hrun.
  - destruct Hstep as (Hready1 & Hs1 & _).
    specialize (IH g1 Hready1).
    destruct (user_loop g1 evs) as [g2|v p|e p] eqn:Hrest; [exact I| |exact IH].
    destruct IH as (pre & s & post & g' & -> & Hpre & Hint & ->).
    exists (ev :: pre), s, post, g'. split; [reflexivity|].
    split; [|split; [congruence|reflexivity]].
    cbn [user_loop]. rewrite Hrun. exact Hpre.
  - destruct Hstep as (-> & s & -> & Hint).
    exists [], s, evs, g. auto.
  - destruct Hstep as [[_ ->]|[_ ->]]; auto.
Qed.

(** On guesses that are each inside the range: while the game runs, every
    line has taken at least one value from the range. *)
Lemma user_loop_progress (evs : list event) (g : user_game) :
  game_ready g -> in_range_guesses g evs ->
  match user_loop g evs with
  | Running g' => width g' + Z.of_nat (length evs) <= width g
  | Returned v _ => exists n, v = Won n /\ attempts g < n <= attempts g + width g
  | Crashed _ _ => False
  end.
Proof.
  revert g. induction evs as [|ev evs IH]; intros g Hready Hgs; cbn [user_loop].
  - cbn. lia.
  - destruct (Hgs [] ev evs g eq_refl eq_refl) as (s & x & -> & Hint & Hx).
    assert (1 <= width g) as Hwidth.
    { destruct Hready as [Hsec _ _ _]. unfold secret_inside, width in *. lia. }
    pose proof (user_step_ready g (Line s) Hready) as Hstep.
    destruct (user_step g (Line s)) as [g1|v p|e p] eqn:Hrun.
    + destruct Hstep as (Hready1 & _ & Hnarrow).
      assert (width g1 < width g /\ attempts g1 = attempts g + 1) as [Hw Hn].
      { destruct Hnarrow as [->|(Hw & Hn & _)]; [|auto].
        exfalso. revert Hrun. unfold user_step. cbn [input]. rewrite Hint, Hx.
        intros Hrun. apply accept_guess_running in Hrun as (_ & _ & Hn & _). lia. }
      assert (in_range_guesses g1 evs) as Hgs1.
      { intros pre ev post g' -> Hpre.
        apply (Hgs (Line s :: pre) ev post g'); [reflexivity|].
        cbn [user_loop]. rewrite Hrun. exact Hpre. }
      specialize (IH g1 Hready1 Hgs1).
      destruct (user_loop g1 evs) as [g2|v p|e p].
      * rewrite length_cons, Nat2Z.inj_succ. lia.
      * destruct IH as (n & -> & Hn'). exists n. split; [reflexivity|lia].
      * exact IH.
    + destruct Hstep as (-> & _). exists (attempts g + 1). split; [reflexivity|lia].
    + destruct Hstep as [[Heq _]|[Heq _]]; discriminate Heq.
Qed.

(** C5. In a game of the human-guesses mode in a state the mode reaches,
    whatever is typed: at every prompt the loop comes to, the secret is
    the same and inside the current range, which is no larger than
    before; a wrong guess inside the range, typed at any of these
    prompts, leaves the loop at its prompt with a strictly smaller range
    and one attempt more; the secret, typed at any of them, ends the loop
    with a win after the attempts counted. On guesses that are each inside
    the range the range has lost a value with every line while the loop
    runs, so that the loop is left with a win after at most as many
    guesses as the range has values. The loop returns only on a line that
    is the secret, and nothing but the exception of [input] leaves it
    otherwise. *)
Theorem human_guesses_end_with_win (g : user_game) :
  game_ready g ->
  (forall evs g', user_loop g evs = Running g' ->
                  secret g' = secret g /\ secret_inside g'
                  /\ width g' <= width g)
  /\ (forall evs g' s x,
        user_loop g evs = Running g' ->
        py_int s = Some x -> in_range g' x = true -> x <> secret g ->
        exists g'', user_loop g (evs ++ [Line s]) = Running g''
                    /\ width g'' < width g'
                    /\ attempts g'' = attempts g' + 1)
  /\ (forall evs g' s,
        user_loop g evs = Running g' -> py_int s = Some (secret g) ->
        exists p, user_loop g (evs ++ [Line s])
                  = Returned (Won (attempts g' + 1)) p)
  /\ (forall evs, in_range_guesses g evs ->
        match user_loop g evs with
        | Running g' => width g' + Z.of_nat (length evs) <= width g
        | Returned v _ =>
            exists n, v = Won n /\ attempts g < n <= attempts g + width g
        | Crashed _ _ => False
        end)
  /\ (forall evs, in_range_guesses g evs ->
                  width g <= Z.of_nat (length evs) ->
                  exists n p, user_loop g evs = Returned (Won n) p
                              /\ attempts g < n <= attempts g + width g)
  /\ (forall evs v p, user_loop g evs = Returned v p ->
        exists pre s post g',
          evs = pre ++ Line s :: post
          /\ user_loop g pre = Running g'
          /\ py_int s = Some (secret g)
          /\ v = Won (attempts g' + 1))
  /\ (forall evs e p, user_loop g evs = Crashed e p ->
                      e = EOFError \/ e = KeyboardInterrupt).
Proof.
  intros Hready. repeat apply conj.
  - intros evs g' Hrun.
    destruct (user_loop_ready evs g g' Hready Hrun) as ([Hsec _ _ _] & Hs & Hw).
    auto.
  - intros evs g' s x Hrun Hint Hx Hne.
    destruct (user_loop_ready evs g g' Hready Hrun) as (Hready' & Hs & _).
    rewrite user_loop_app, Hrun. cbn [user_loop].
    unfold user_step. cbn [input]. rewrite Hint, Hx.
    destruct (accept_guess_ready g' x Hready' Hx)
      as [[Heq _] | [_ [g'' (Hstep & _ & Hw)]]]; [congruence|].
    rewrite Hstep. exists g''. split; [reflexivity|]. split; [exact Hw|].
    apply accept_guess_running in Hstep as (_ & _ & Hn & _). exact Hn.
  - intros evs g' s Hrun Hint.
    destruct (user_loop_ready evs g g' Hready Hrun) as (Hready' & Hs & _).
    assert (in_range g' (secret g) = true) as Hx.
    { apply in_range_spec. destruct Hready' as [Hsec _ _ _].
      unfold secret_inside in Hsec. rewrite Hs in Hsec. exact Hsec. }
    rewrite user_loop_app, Hrun. cbn [user_loop].
    unfold user_step. cbn [input]. rewrite Hint, Hx.
    destruct (accept_guess_ready g' (secret g) Hready' Hx)
      as [[_ [p Hwin]] | [Hne _]]; [|congruence].
    rewrite Hwin. exists p. reflexivity.
  - intros evs Hgs. apply user_loop_progress; assumption.
  - intros evs Hgs Hlen.
    pose proof (user_loop_progress evs g Hready Hgs) as Hprog.
    destruct (user_loop g evs) as [g'|v p|e p] eqn:Hrun.
    + exfalso.
      destruct (user_loop_ready evs g g' Hready Hrun) as ([Hsec _ _ _] & _ & _).
      unfold secret_inside, width in *. lia.
    + destruct Hprog as (n & -> & Hn). exists n, p. auto.
    + contradiction.
  - intros evs v p Hret. pose proof (user_loop_exit evs g Hready) as Hexit.
    rewrite Hret in Hexit. exact Hexit.
  - intros evs e p Hcrash. pose proof (user_loop_exit evs g Hready) as Hexit.
    rewrite Hcrash in Hexit. exact Hexit.
Qed.

End Termination.

(** ** The scenario of a fresh profile *)

Lemma scenario_game_ready : game_ready scenario_game.
Proof.
  constructor.
  - unfold secret_inside. simpl. lia.
  - simpl. lia.
  - vm_compute. reflexivity.
  - constructor.
    + simpl. lia.
    + vm_compute. eauto.
    + exists (PFloat Float.lit_0_0). split; [vm_compute; reflexivity | exact I].
    + exact I.
    + simpl. lia.
Qed.

Lemma human_guesses_end_with_win_witness :
  game_ready scenario_game
  /\ exists g1 g2 p,
       user_loop (H := Ascii_text.builtins) scenario_game [Line "75"] = Running g1
       /\ width g1 < 100
       /\ user_loop (H := Ascii_text.builtins) scenario_game
            [Line "75"; Line "25"] = Running g2
       /\ width g2 < width g1
       /\ user_loop (H := Ascii_text.builtins) scenario_game
            [Line "75"; Line "25"; Line "50"] = Returned (Won 3) p.
Proof.
  split; [exact scenario_game_ready|].
  destruct (human_guesses_end_with_win (H := Ascii_text.builtins) scenario_game
              scenario_game_ready) as (_ & Hwrong & Hright & _).
  destruct (Hwrong [] scenario_game "75" 75 eq_refl eq_refl eq_refl)
    as (g1 & Hrun1 & Hw1 & Hn1); [discriminate|].
  destruct (Hwrong [Line "75"] g1 "25" 25 Hrun1 eq_refl)
    as (g2 & Hrun2 & Hw2 & Hn2).
  { clear -Hrun1. vm_compute in Hrun1. injection Hrun1 as <-. reflexivity. }
  { discriminate. }
  destruct (Hright [Line "75"; Line "25"] g2 "50" Hrun2 eq_refl) as (p & Hwin).
  exists g1, g2, p. split; [exact Hrun1|]. split; [exact Hw1|].
  split; [exact Hrun2|]. split; [exact Hw2|].
  assert (attempts g2 + 1 = 3) as Hcount.
  { rewrite Hn2, Hn1. reflexivity. }
  rewrite Hcount in Hwin. exact Hwin.
Defined.

Lemma range_narrowing_monotone_witness :
  exists g1 g2 c1 c2,
    user_loop (H := Ascii_text.builtins) scenario_game [Line "75"] = Running g1
    /\ user_loop (H := Ascii_text.builtins) g1 [Line "25"] = Running g2
    /\ computer_loop (H := Ascii_text.builtins) scenario_computer_game [Line "h"]
         = Running c1
    /\ computer_loop (H := Ascii_text.builtins) c1 [Line "L"] = Running c2
    /\ (cur_lo g1, cur_hi g1, cur_lo g2, cur_hi g2) = (1, 74, 26, 74)
    /\ (c_lo c1, c_hi c1, c_lo c2, c_hi c2) = (51, 100, 51, 75)
    /\ (1 <= cur_lo g1 <= cur_lo g2 /\ cur_hi g2 <= cur_hi g1 <= 100)
    /\ (1 <= c_lo c1 <= c_lo c2 /\ c_hi c2 <= c_hi c1 <= 100).
Proof.
  pose (a1 := Float.add (Float.mul Float.lit_0_9 Float.lit_0_5)
                (Float.mul Float.lit_0_1 (Float.quotient 74 99))).
  pose (a2 := Float.add (Float.mul Float.lit_0_9 a1)
                (Float.mul Float.lit_0_1 (Float.quotient 24 73))).
  pose (g1 := {| secret := 50; hint_style := "hot_cold"; attempts := 1;
                 cur_lo := 1; cur_hi := 74;
                 user := set_alpha (UserProfile.init "Player") a1;
                 hints := [Hot] |}).
  pose (g2 := {| secret := 50; hint_style := "hot_cold"; attempts := 2;
                 cur_lo := 26; cur_hi := 74;
                 user := set_alpha (UserProfile.init "Player") a2;
                 hints := [Cold; Hot] |}).
  pose (c1 := {| c_attempts := 2; c_lo := 51; c_hi := 100; c_guess := 76;
                 c_user := UserProfile.init "Player"; guesses := [76; 50] |}).
  pose (c2 := {| c_attempts := 3; c_lo := 51; c_hi := 75; c_guess := 63;
                 c_user := UserProfile.init "Player"; guesses := [63; 76; 50] |}).
  assert (H1 : user_loop (H := Ascii_text.builtins) scenario_game [Line "75"]
               = Running g1) by (vm_compute; reflexivity).
  assert (H2 : user_loop (H := Ascii_text.builtins) g1 [Line "25"] = Running g2)
    by (vm_compute; reflexivity).
  assert (H3 : computer_loop (H := Ascii_text.builtins) scenario_computer_game
                 [Line "h"] = Running c1) by (vm_compute; reflexivity).
  assert (H4 : computer_loop (H := Ascii_text.builtins) c1 [Line "L"] = Running c2)
    by (vm_compute; reflexivity).
  exists g1, g2, c1, c2.
  repeat (split; [assumption || reflexivity|]).
  exact (range_narrowing_monotone (H := Ascii_text.builtins) _ _ _ _ _ _ _ _ _ _
           H1 H2 H3 H4).
Defined.

Lemma fresh_select_hint_style (sd : style_draws) :
  exists s,
    HintBandit.select_hint_style
      (HintBandit.init UserProfile.styles (PFloat Float.lit_0_1)) sd = Ok s
    /\ (s = "hot_cold" \/ s = "higher_lower" \/ s = "range").
Proof.
  unfold HintBandit.select_hint_style.
  destruct (num_lt _ _).
  - unfold HintBandit.choice, UserProfile.styles, HintBandit.init.
    cbn [HintBandit.hint_styles length].
    pose proof (Nat.mod_upper_bound (choice_draw sd) 3 ltac:(lia)) as Hlt.
    destruct (choice_draw sd mod 3)%nat as [|[|[|n]]]; [eauto 6 ..|lia].
  - exists "hot_cold". split; [vm_compute; reflexivity | auto].
Qed.

Lemma start_fresh_game (name : string) (d : game_draws) :
  exists s,
    (s = "hot_cold" \/ s = "higher_lower" \/ s = "range")
    /\ start_user_game (UserProfile.init name) d
       = Running {| secret := 1 + secret_draw d mod 100; hint_style := s;
                    attempts := 0; cur_lo := 1; cur_hi := 100;
                    user := UserProfile.init name; hints := [] |}.
Proof.
  destruct (fresh_select_hint_style (style_of_game d)) as [s [Hsel Hs]].
  exists s. split; [exact Hs|].
  unfold start_user_game. simpl UserProfile.range_size.
  simpl UserProfile.hint_bandit. rewrite Hsel. reflexivity.
Qed.

(** The game of the scenario, whatever hint style was selected. *)
Lemma scenario_outcome (s : string) :
  s = "hot_cold" \/ s = "higher_lower" \/ s = "range" ->
  exists p,
    user_loop (H := Ascii_text.builtins)
      {| secret := 50; hint_style := s; attempts := 0; cur_lo := 1; cur_hi := 100;
         user := UserProfile.init "Player"; hints := [] |} scenario_lines
    = Returned (Won 3) p
    /\ UserProfile.avg_attempts p = Some (PInt 3)
    /\ UserProfile.games_played p = 1
    /\ HintBandit.avg_attempts (UserProfile.hint_bandit p) !! s = Some (PInt 3)
    /\ HotColdLearner.history (UserProfile.hot_cold_learner p) = [(3, 3)]
    /\ HotColdLearner.k (UserProfile.hot_cold_learner p) = Float.lit_0_3.
Proof.
  intros [-> | [-> | ->]]; eexists;
    (split; [vm_compute; reflexivity|]); repeat split; vm_compute; reflexivity.
Qed.

(** C2, as stated: [k] would be strictly larger after the game. *)
Lemma scenario_k_does_not_increase :
  ~ scenario_claim {| explore_draw := Float.lit_0_5; choice_draw := 0 |}.
Proof.
  intros (p & Hrun & _ & Hk).
  destruct (scenario_outcome "hot_cold" (or_introl eq_refl))
    as (p' & Hrun' & _ & _ & _ & _ & Hk').
  assert (play_user_guesses (H := Ascii_text.builtins) (UserProfile.init "Player")
            (scenario_draws {| explore_draw := Float.lit_0_5; choice_draw := 0 |})
            scenario_lines
          = user_loop (H := Ascii_text.builtins)
              {| secret := 50; hint_style := "hot_cold"; attempts := 0;
                 cur_lo := 1; cur_hi := 100;
                 user := UserProfile.init "Player"; hints := [] |} scenario_lines)
    as Hplay by (vm_compute; reflexivity).
  rewrite Hplay, Hrun' in Hrun. injection Hrun as <-.
  rewrite Hk' in Hk. clear Hplay Hrun'. vm_compute in Hk. discriminate Hk.
Qed.

(** C2, amended. In the scenario, whatever the draws of the hint style
    are: three attempts are counted, the profile's [avg_attempts] becomes
    the integer 3, and [record_game] takes the branch of
    [actual_guesses <= target_guesses], whose increment
    [learning_rate * (1 - 3 / 3)] is zero, so that [k] is 0.3 as before. *)
Theorem scenario_three_attempts (sd : style_draws) :
  exists p,
    play_user_guesses (H := Ascii_text.builtins) (UserProfile.init "Player")
      (scenario_draws sd) scenario_lines = Returned (Won 3) p
    /\ UserProfile.avg_attempts p = Some (PInt 3)
    /\ (3 <=? HotColdLearner.target_guesses (UserProfile.hot_cold_learner p)) = true
    /\ (exists q, Float.int_truediv 3 3 = Ok q
                  /\ Float.mul Float.lit_0_1 (Float.sub (Float.of_Z 1) q)
                     = Float.lit_0_0)
    /\ HotColdLearner.k (UserProfile.hot_cold_learner p)
       = HotColdLearner.k (UserProfile.hot_cold_learner (UserProfile.init "Player")).
Proof.
  destruct (start_fresh_game "Player" (scenario_draws sd)) as (s & Hs & Hstart).
  destruct (scenario_outcome s Hs) as (p & Hrun & Havg & _ & _ & Hhist & Hk).
  exists p. unfold play_user_guesses. rewrite Hstart.
  change (1 + secret_draw (scenario_draws sd) mod 100) with 50.
  split; [exact Hrun|]. split; [exact Havg|]. split.
  - revert Hrun. destruct Hs as [-> | [-> | ->]]; intros Hrun;
      vm_compute in Hrun; injection Hrun as <-; reflexivity.
  - split; [|exact Hk].
    eexists. split; vm_compute; reflexivity.
Qed.

(** ** The end of the input inside a game mode *)

Lemma main_reads_username (F : FileSystem) (rng : nat -> game_draws)
    (name : string) :
  Ascii_text.strip name = name -> name <> "" ->
  main_step (H := Ascii_text.builtins) (F := F) rng
    {| disk := ∅; games_started := 0%nat; at_prompt := AtUsername |} (Line name)
  = {| disk := ∅; games_started := 0%nat;
       at_prompt := AtMenu (UserProfile.init name) |}.
Proof.
  intros Hstrip Hne. unfold main_step. simpl. rewrite Hstrip.
  destruct (String.eqb_spec name ""); [contradiction|].
  unfold AdaptiveGame.init, OnDisk.load_from_file, OnDisk.found.
  destruct (locate _) as [path|]; cbn [mbind option_bind];
    [rewrite lookup_empty|]; reflexivity.
Qed.

Lemma main_starts_user_game (F : FileSystem) (rng : nat -> game_draws)
    (fs : files) (n : nat) (p : UserProfile.t) :
  main_step (H := Ascii_text.builtins) (F := F) rng
    {| disk := fs; games_started := n; at_prompt := AtMenu p |} (Line "1")
  = {| disk := fs; games_started := S n;
       at_prompt := back_to_menu AtGuess (start_user_game p (rng n)) |}.
Proof. reflexivity. Qed.

Lemma main_starts_computer_game (F : FileSystem) (rng : nat -> game_draws)
    (fs : files) (n : nat) (p : UserProfile.t) :
  main_step (H := Ascii_text.builtins) (F := F) rng
    {| disk := fs; games_started := n; at_prompt := AtMenu p |} (Line "2")
  = {| disk := fs; games_started := n; at_prompt := AtReady p |}.
Proof. reflexivity. Qed.

(** C9, on the input the code fails on. The end of the input at the guess
    prompt of mode 1, and at the first prompt of mode 2, raises [EOFError]
    (an interruption [KeyboardInterrupt]) out of the mode, and [main]
    has no handler around the mode: the process dies, on any file system.
    Only the response prompt of mode 2 has the handler that brings the
    process back to the menu. *)
Theorem end_of_input_in_a_mode_is_fatal (B : Builtins) (F : FileSystem)
    (rng : nat -> game_draws) :
  (forall g, user_step (H := B) g EndOfInput = Crashed EOFError (user g)
             /\ user_step (H := B) g Interrupt = Crashed KeyboardInterrupt (user g))
  /\ (forall p, start_computer_game p EndOfInput = Crashed EOFError p
                /\ start_computer_game p Interrupt = Crashed KeyboardInterrupt p)
  /\ (forall c, computer_step (H := B) c EndOfInput = Returned Interrupted (c_user c)
                /\ computer_step (H := B) c Interrupt = Returned Interrupted (c_user c))
  /\ at_prompt (main (H := Ascii_text.builtins) (F := F) rng ∅
                  [Line "ann"; Line "1"; EndOfInput]) = Died EOFError
  /\ at_prompt (main (H := Ascii_text.builtins) (F := F) rng ∅
                  [Line "ann"; Line "2"; EndOfInput]) = Died EOFError
  /\ at_prompt (main (H := Ascii_text.builtins) (F := F) rng ∅
                  [Line "ann"; Line "2"; Line ""; EndOfInput])
     = AtMenu (UserProfile.init "ann").
Proof.
  split; [intros g; split; reflexivity|].
  split; [intros p; split; reflexivity|].
  split; [intros c; split; reflexivity|].
  unfold main. cbn [fold_left].
  rewrite (main_reads_username F rng "ann") by (reflexivity || discriminate).
  rewrite main_starts_user_game, main_starts_computer_game.
  split; [|split].
  - destruct (start_fresh_game "ann" (rng 0%nat)) as (s & _ & ->). reflexivity.
  - reflexivity.
  - vm_compute. reflexivity.
Qed.

(** ** HintBandit: the running averages *)

Lemma fold_insert_lookup {V : Type} (styles : list string) (v : V)
    (m : gmap string V) (s : string) :
  fold_left (fun m s => <[s := v]> m) styles m !! s
  = if bool_decide (s ∈ styles) then Some v else m !! s.
Proof.
  revert m. induction styles as [|x styles IH]; intros m; cbn [fold_left].
  - rewrite bool_decide_eq_false_2; [reflexivity|]. apply not_elem_of_nil.
  - rewrite IH. destruct (decide (s ∈ styles)) as [Hin|Hnot].
    + rewrite !bool_decide_eq_true_2; [reflexivity| |assumption].
      apply elem_of_cons. auto.
    + rewrite (bool_decide_eq_false_2 _ Hnot).
      destruct (decide (s = x)) as [->|Hne].
      * rewrite lookup_insert_eq, bool_decide_eq_true_2; [reflexivity|].
        apply elem_of_cons. auto.
      * rewrite lookup_insert_ne by congruence.
        rewrite bool_decide_eq_false_2; [reflexivity|].
        rewrite elem_of_cons. intros [?|?]; contradiction.
Qed.

Lemma dict_of_lookup {V : Type} (styles : list string) (v : V) (s : string) :
  s ∈ styles -> HintBandit.dict_of styles v !! s = Some v.
Proof.
  intros Hin. unfold HintBandit.dict_of.
  rewrite fold_insert_lookup, bool_decide_eq_true_2; [reflexivity|assumption].
Qed.

Lemma dict_of_lookup_None {V : Type} (styles : list string) (v : V) (s : string) :
  s ∉ styles -> HintBandit.dict_of styles v !! s = None.
Proof.
  intros Hin. unfold HintBandit.dict_of.
  rewrite fold_insert_lookup, bool_decide_eq_false_2; [apply lookup_empty|assumption].
Qed.

(** One call of [update_stats] on a style that has its two entries. *)
Lemma update_stats_step (b : HintBandit.t) (s : string) (n c : Z) (old : pynum) :
  HintBandit.attempts b !! s = Some c ->
  HintBandit.avg_attempts b !! s = Some old ->
  convertible old -> Z.abs n < Float.overflow_threshold ->
  exists o,
    to_float old = Ok o
    /\ HintBandit.update_stats b s n
       = ({| HintBandit.hint_styles := HintBandit.hint_styles b;
             HintBandit.exploration_rate := HintBandit.exploration_rate b;
             HintBandit.attempts := <[s := c + 1]> (HintBandit.attempts b);
             HintBandit.avg_attempts :=
               <[s := if c =? 0 then PInt n
                      else PFloat (Float.add (Float.mul Float.lit_0_8 o)
                                     (Float.mul Float.lit_0_2 (Float.of_Z n)))]>
                 (HintBandit.avg_attempts b);
             HintBandit.total_games := HintBandit.total_games b + 1 |}, None).
Proof.
  intros Hc Hold Hconv Hn.
  destruct (to_float_returns old Hconv) as [o Ho]. exists o. split; [exact Ho|].
  unfold HintBandit.update_stats. rewrite Hc.
  destruct (Z.eqb_spec (c + 1) 1) as [H1|H1].
  - replace (c =? 0) with true by (symmetry; apply Z.eqb_eq; lia). reflexivity.
  - replace (c =? 0) with false by (symmetry; apply Z.eqb_neq; lia).
    unfold HintBandit.getitem, HintBandit.blend. simpl.
    rewrite Hold. simpl. rewrite Ho. simpl.
    rewrite of_int_returns by exact Hn. reflexivity.
Qed.

Lemma calls_for_snoc (s : string) (calls : list (string * Z)) (c : string * Z) :
  calls_for s (calls ++ [c])
  = (calls_for s calls + if String.eqb c.1 s then 1 else 0)%nat.
Proof.
  unfold calls_for. rewrite List.filter_app, length_app. simpl.
  destruct (String.eqb c.1 s); reflexivity.
Qed.

Lemma calls_for_zero (s : string) (calls : list (string * Z)) :
  calls_for s calls = 0%nat <-> s ∉ calls.*1.
Proof.
  unfold calls_for. induction calls as [|c calls IH]; simpl.
  - split; [intros _; apply not_elem_of_nil | reflexivity].
  - rewrite not_elem_of_cons. destruct (String.eqb_spec c.1 s) as [->|Hne]; simpl.
    + split; [discriminate | intros [Hne _]; contradiction].
    + rewrite IH. split; [intros Hnot; split; [congruence|exact Hnot] | tauto].
Qed.

Lemma update_all_snoc (b : HintBandit.t) (calls : list (string * Z)) (c : string * Z) :
  HintBandit.update_all b (calls ++ [c])
  = (HintBandit.update_stats (HintBandit.update_all b calls) c.1 c.2).1.
Proof. unfold HintBandit.update_all. rewrite fold_left_app. reflexivity. Qed.

(** After a series of calls, the counter of each style is the number of
    calls made for it, and its average is a number a float can hold. *)
Lemma update_all_counts (styles : list string) (rate : pynum)
    (calls : list (string * Z)) (s : string) :
  calls_ok styles calls -> s ∈ styles ->
  let b := HintBandit.update_all (HintBandit.init styles rate) calls in
  HintBandit.attempts b !! s = Some (Z.of_nat (calls_for s calls))
  /\ exists v, HintBandit.avg_attempts b !! s = Some v /\ convertible v.
Proof.
  intros Hok. revert s. induction calls as [|[s0 n0] calls IH] using rev_ind;
    intros s Hs; simpl.
  - unfold HintBandit.update_all. simpl. rewrite !dict_of_lookup by assumption.
    split; [reflexivity|]. exists (PFloat Float.lit_0_0). split; [reflexivity|exact I].
  - apply Forall_app in Hok as [Hok Hlast].
    apply Forall_singleton in Hlast as [Hs0 Hn0]. simpl in Hs0, Hn0.
    specialize (IH Hok). rewrite update_all_snoc, calls_for_snoc. simpl.
    destruct (IH s0 Hs0) as [Hc0 (v0 & Hv0 & Hconv0)].
    destruct (update_stats_step _ s0 n0 _ v0 Hc0 Hv0 Hconv0 Hn0) as (o & _ & ->).
    simpl. destruct (String.eqb_spec s0 s) as [->|Hne].
    + rewrite !lookup_insert_eq. split; [f_equal; lia|].
      eexists. split; [reflexivity|].
      destruct (_ =? 0); simpl; [exact Hn0 | exact I].
    + rewrite !lookup_insert_ne by exact Hne.
      destruct (IH s Hs) as [Hc Hv]. split; [rewrite Hc; f_equal; lia | exact Hv].
Qed.

(** C3. On a bandit made by the constructor, for a style of the bandit and
    numbers of attempts a float can hold: a call of [update_stats] returns;
    if it is the first call for the style, [avg_attempts] of the style is
    the number passed, the integer itself; on every later call it is
    [0.8 * old + 0.2 * attempts] in float arithmetic. *)
Theorem update_stats_average (styles : list string) (rate : pynum)
    (calls : list (string * Z)) (s : string) (n : Z) :
  s ∈ styles -> calls_ok styles calls -> Z.abs n < Float.overflow_threshold ->
  let b := HintBandit.update_all (HintBandit.init styles rate) calls in
  exists old o b',
    HintBandit.avg_attempts b !! s = Some old
    /\ to_float old = Ok o
    /\ HintBandit.update_stats b s n = (b', None)
    /\ HintBandit.avg_attempts b' !! s
       = Some (if bool_decide (s ∈ calls.*1)
               then PFloat (Float.add (Float.mul Float.lit_0_8 o)
                              (Float.mul Float.lit_0_2 (Float.of_Z n)))
               else PInt n).
Proof.
  intros Hs Hok Hn b.
  destruct (update_all_counts styles rate calls s Hok Hs) as [Hc (old & Hold & Hconv)].
  fold b in Hc, Hold.
  destruct (update_stats_step b s n _ old Hc Hold Hconv Hn) as (o & Ho & Hstep).
  exists old, o. eexists. split; [exact Hold|]. split; [exact Ho|].
  split; [exact Hstep|]. simpl. rewrite lookup_insert_eq. f_equal.
  destruct (decide (s ∈ calls.*1)) as [Hin|Hnot].
  - rewrite bool_decide_eq_true_2 by exact Hin.
    destruct (Z.eqb_spec (Z.of_nat (calls_for s calls)) 0) as [Hz|_]; [|reflexivity].
    exfalso. apply (proj1 (calls_for_zero s calls)); [lia|exact Hin].
  - rewrite bool_decide_eq_false_2 by exact Hnot.
    apply calls_for_zero in Hnot. rewrite Hnot. reflexivity.
Qed.

Lemma update_stats_average_witness :
  exists b',
    HintBandit.update_stats
      (HintBandit.update_all
         (HintBandit.init UserProfile.styles (PFloat Float.lit_0_1))
         [("range", 7); ("hot_cold", 3)]) "range" 2 = (b', None)
    /\ HintBandit.avg_attempts b' !! "range"
       = Some (PFloat (Float.add (Float.mul Float.lit_0_8 (Float.of_Z 7))
                         (Float.mul Float.lit_0_2 (Float.of_Z 2)))).
Proof.
  destruct (update_stats_average UserProfile.styles (PFloat Float.lit_0_1)
              [("range", 7); ("hot_cold", 3)] "range" 2)
    as (old & o & b' & Hold & Ho & Hstep & Havg).
  - unfold UserProfile.styles. rewrite !elem_of_cons. tauto.
  - unfold UserProfile.styles.
    repeat constructor; simpl; rewrite ?elem_of_cons; auto.
  - vm_compute. reflexivity.
  - exists b'. split; [exact Hstep|]. rewrite Havg.
    clear Hstep Havg. vm_compute in Hold. injection Hold as <-.
    vm_compute in Ho. injection Ho as <-. vm_compute. reflexivity.
Defined.

(** ** The order of numbers *)

Lemma compare_scale (a b p : Z) : 0 < p -> (a * p ?= b * p) = (a ?= b).
Proof.
  intros Hp. destruct (Z.compare_spec a b) as [->|Hlt|Hgt].
  - apply Z.compare_refl.
  - apply Z.compare_lt_iff. nia.
  - apply Z.compare_gt_iff. nia.
Qed.

Lemma digits2_pos_bounds (m : positive) :
  2 ^ (Z.pos (digits2_pos m) - 1) <= Z.pos m < 2 ^ Z.pos (digits2_pos m).
Proof.
  induction m as [m IH|m IH|]; cbn [digits2_pos].
  - rewrite Pos2Z.inj_succ, (Pos2Z.inj_xI m).
    replace (Z.succ (Z.pos (digits2_pos m)) - 1) with (Z.succ (Z.pos (digits2_pos m) - 1)) by lia.
    rewrite !Z.pow_succ_r by lia. lia.
  - rewrite Pos2Z.inj_succ, (Pos2Z.inj_xO m).
    replace (Z.succ (Z.pos (digits2_pos m)) - 1) with (Z.succ (Z.pos (digits2_pos m) - 1)) by lia.
    rewrite !Z.pow_succ_r by lia. lia.
  - simpl. lia.
Qed.

(** A finite binary64 value has an exponent of at least [-1074] and a
    mantissa below [2^53], of at least [2^52] when the exponent is larger. *)
Lemma bounded_mantissa (m : positive) (e : Z) :
  bounded Float.prec Float.emax m e = true ->
  -1074 <= e /\ Z.pos m < 2 ^ 53 /\ (-1074 < e -> 2 ^ 52 <= Z.pos m).
Proof.
  unfold bounded, canonical_mantissa, fexp, emin, Float.prec, Float.emax.
  intros Hb. apply andb_true_iff in Hb as [Hc _]. apply Z.eqb_eq in Hc.
  pose proof (digits2_pos_bounds m) as [Hlo Hhi].
  assert (Z.pos (digits2_pos m) <= 53) as Hd by lia.
  split; [lia|]. split.
  - eapply Z.lt_le_trans; [exact Hhi|]. apply Z.pow_le_mono_r; lia.
  - intros He. assert (Z.pos (digits2_pos m) = 53) as Hd53 by lia.
    rewrite Hd53 in Hlo. exact Hlo.
Qed.

Lemma magnitude_order (m1 m2 : positive) (e1 e2 : Z) :
  bounded Float.prec Float.emax m1 e1 = true ->
  bounded Float.prec Float.emax m2 e2 = true ->
  e1 < e2 -> Z.pos m1 * 2 ^ (e1 + 1074) < Z.pos m2 * 2 ^ (e2 + 1074).
Proof.
  intros H1 H2 He.
  apply bounded_mantissa in H1 as (He1 & Hm1 & _).
  apply bounded_mantissa in H2 as (He2 & _ & Hm2). specialize (Hm2 ltac:(lia)).
  replace (e2 + 1074) with ((e1 + 1074) + (e2 - e1)) by lia.
  rewrite (Z.pow_add_r 2 (e1 + 1074) (e2 - e1)) by lia.
  assert (0 < 2 ^ (e1 + 1074)) as Hp by (apply Z.pow_pos_nonneg; lia).
  assert (2 ^ 1 <= 2 ^ (e2 - e1)) as Hq by (apply Z.pow_le_mono_r; lia).
  change (2 ^ 1) with 2 in Hq. change (2 ^ 53) with (2 * 2 ^ 52) in Hm1.
  set (K := 2 ^ 52) in *. set (P := 2 ^ (e1 + 1074)) in *.
  set (Q := 2 ^ (e2 - e1)) in *.
  assert (0 < K) as HK by (subst K; reflexivity).
  clearbody K P Q.
  assert (Z.pos m1 * P < 2 * K * P) by nia.
  assert (P * 2 <= P * Q) by nia.
  assert (K * (P * 2) <= K * (P * Q)) by (apply Z.mul_le_mono_nonneg_l; lia).
  assert (K * (P * Q) <= Z.pos m2 * (P * Q))
    by (apply Z.mul_le_mono_nonneg_r; nia).
  lia.
Qed.

Lemma magnitude_compare (m1 m2 : positive) (e1 e2 : Z) :
  bounded Float.prec Float.emax m1 e1 = true ->
  bounded Float.prec Float.emax m2 e2 = true ->
  match e1 ?= e2 with
  | Lt => Lt
  | Gt => Gt
  | Eq => Pos.compare_cont Eq m1 m2
  end = (Z.pos m1 * 2 ^ (e1 + 1074) ?= Z.pos m2 * 2 ^ (e2 + 1074)).
Proof.
  intros H1 H2. destruct (Z.compare_spec e1 e2) as [->|Hlt|Hgt].
  - pose proof (bounded_mantissa _ _ H2) as (He & _ & _).
    rewrite compare_scale by (apply Z.pow_pos_nonneg; lia). reflexivity.
  - symmetry. apply Z.compare_lt_iff. apply magnitude_order; assumption.
  - symmetry. apply Z.compare_gt_iff. apply magnitude_order; assumption.
Qed.

Lemma float_compare_scaled (f g : Float.float) :
  num_ok (PFloat f) = true -> num_ok (PFloat g) = true ->
  SFcompare f g = Some (scaled_compare (scale (PFloat f)) (scale (PFloat g))).
Proof.
  unfold num_ok. intros Hf Hg.
  apply andb_true_iff in Hf as [Hf Hnf]. apply andb_true_iff in Hg as [Hg Hng].
  destruct f as [sf|sf| |sf mf ef], g as [sg|sg| |sg mg eg];
    try discriminate; simpl in Hf, Hg; cbn [SFcompare scale scaled_compare];
    try (repeat match goal with s : bool |- _ => destruct s end; reflexivity).
  - f_equal. pose proof (bounded_mantissa _ _ Hg) as (He & _ & _).
    assert (0 < Z.pos mg * 2 ^ (eg + 1074))
      by (apply Z.mul_pos_pos; [lia | apply Z.pow_pos_nonneg; lia]).
    destruct sg; unfold Float.signed; symmetry;
      [apply Z.compare_gt_iff | apply Z.compare_lt_iff]; lia.
  - f_equal. pose proof (bounded_mantissa _ _ Hf) as (He & _ & _).
    assert (0 < Z.pos mf * 2 ^ (ef + 1074))
      by (apply Z.mul_pos_pos; [lia | apply Z.pow_pos_nonneg; lia]).
    destruct sf; unfold Float.signed; symmetry;
      [apply Z.compare_lt_iff | apply Z.compare_gt_iff]; lia.
  - f_equal. pose proof (bounded_mantissa _ _ Hf) as (Hef & _ & _).
    pose proof (bounded_mantissa _ _ Hg) as (Heg & _ & _).
    assert (0 < Z.pos mf * 2 ^ (ef + 1074))
      by (apply Z.mul_pos_pos; [lia | apply Z.pow_pos_nonneg; lia]).
    assert (0 < Z.pos mg * 2 ^ (eg + 1074))
      by (apply Z.mul_pos_pos; [lia | apply Z.pow_pos_nonneg; lia]).
    destruct sf, sg; unfold Float.signed.
    + rewrite !Z.mul_opp_l, Z.compare_opp, <- (magnitude_compare mg mf) by assumption.
      rewrite (Z.compare_antisym ef eg), (Pos.compare_cont_antisym mf mg Eq).
      destruct (ef ?= eg); reflexivity.
    + symmetry. apply Z.compare_lt_iff. lia.
    + symmetry. apply Z.compare_gt_iff. lia.
    + apply magnitude_compare; assumption.
Qed.

Lemma compare_int_scaled (f : Float.float) (n : Z) :
  num_ok (PFloat f) = true ->
  Float.compare_int f n
  = Some (scaled_compare (scale (PFloat f)) (scale (PInt n))).
Proof.
  unfold num_ok. intros Hf. apply andb_true_iff in Hf as [Hf Hnf].
  assert (0 < 2 ^ 1074) as Hp by reflexivity.
  destruct f as [s|s| |s m e]; try discriminate;
    cbn [Float.compare_int scale scaled_compare].
  - f_equal. change 0 with (0 * 2 ^ 1074) at 2. symmetry. apply compare_scale, Hp.
  - destruct s; reflexivity.
  - f_equal. simpl in Hf. apply bounded_mantissa in Hf as (He & _ & _).
    destruct (Z.le_gt_cases 0 e) as [Hpos|Hneg].
    + rewrite (Z.max_l e 0), (Z.max_r (- e) 0) by lia.
      rewrite (Z.pow_add_r 2 e 1074), Z.mul_assoc, compare_scale by lia.
      rewrite Z.pow_0_r, Z.mul_1_r. reflexivity.
    + rewrite (Z.max_r e 0), (Z.max_l (- e) 0) by lia.
      rewrite Z.pow_0_r, Z.mul_1_r.
      replace (2 ^ 1074) with (2 ^ (- e) * 2 ^ (e + 1074))
        by (rewrite <- Z.pow_add_r by lia; f_equal; lia).
      rewrite Z.mul_assoc, compare_scale by (apply Z.pow_pos_nonneg; lia).
      reflexivity.
Qed.

Lemma scaled_compare_antisym (a b : scaled) :
  CompOpp (scaled_compare a b) = scaled_compare b a.
Proof.
  destruct a, b; try reflexivity. simpl. symmetry. apply Z.compare_antisym.
Qed.

(** On ints and binary64 values other than NaN, the comparisons of
    Python are those of the real values. *)
Lemma num_compare_scaled (x y : pynum) :
  num_ok x = true -> num_ok y = true ->
  num_compare x y = Some (scaled_compare (scale x) (scale y)).
Proof.
  intros Hx Hy. destruct x as [a|f], y as [b|g]; cbn [num_compare].
  - simpl. rewrite compare_scale by reflexivity. reflexivity.
  - rewrite (compare_int_scaled g a Hy). simpl fmap.
    rewrite scaled_compare_antisym. reflexivity.
  - apply compare_int_scaled, Hx.
  - apply float_compare_scaled; assumption.
Qed.

Ltac order_of_scaled :=
  unfold num_lt;
  repeat match goal with
         | |- context [num_compare ?x ?y] =>
             rewrite (num_compare_scaled x y) by assumption
         end;
  repeat match goal with
         | |- context [scale ?x] => destruct (scale x)
         end;
  simpl; try congruence;
  repeat match goal with
         | |- context [?a ?= ?b] => destruct (Z.compare_spec a b)
         end;
  try congruence; intros; try lia.

Lemma num_lt_irrefl (x : pynum) : num_ok x = true -> num_lt x x = false.
Proof. intros Hx. order_of_scaled. Qed.

Lemma num_lt_asym (x y : pynum) :
  num_ok x = true -> num_ok y = true -> num_lt x y = true -> num_lt y x = false.
Proof. intros Hx Hy. order_of_scaled. Qed.

(** [x < y] and not [z < y] give [x < z]. *)
Lemma num_lt_below (x y z : pynum) :
  num_ok x = true -> num_ok y = true -> num_ok z = true ->
  num_lt x y = true -> num_lt z y = false -> num_lt x z = true.
Proof. intros Hx Hy Hz. order_of_scaled. Qed.

(** ** HintBandit: the selection without exploration *)

Lemma min_loop_first_minimum (avg : gmap string pynum) (rest pre : list string)
    (best : string) (bv : pynum) (ib : nat) :
  pre !! ib = Some best -> avg !! best = Some bv ->
  (forall s, s ∈ pre ++ rest -> exists v, avg !! s = Some v /\ num_ok v = true) ->
  (forall (j : nat) (s' : string) (v' : pynum),
     pre !! j = Some s' -> avg !! s' = Some v' ->
     num_lt v' bv = false /\ ((j < ib)%nat -> num_lt bv v' = true)) ->
  exists i s, HintBandit.min_loop avg best bv rest = Ok s
              /\ first_minimum avg (pre ++ rest) i s.
Proof.
  revert pre best bv ib.
  induction rest as [|x rest IH]; intros pre best bv ib Hbest Hbv Hok Hinv.
  - exists ib, best. split; [reflexivity|]. rewrite app_nil_r.
    split; [exact Hbest|]. exists bv. split; [exact Hbv|exact Hinv].
  - assert (num_ok bv = true) as Hbvok.
    { destruct (Hok best) as (v & Hv & Hvok).
      - apply elem_of_app. left. eapply list_elem_of_lookup_2, Hbest.
      - congruence. }
    destruct (Hok x) as (v & Hv & Hvok).
    { apply elem_of_app. right. apply elem_of_cons. auto. }
    assert (forall (j : nat) (s' : string) (v' : pynum),
              pre !! j = Some s' -> avg !! s' = Some v' -> num_ok v' = true)
      as Hpre.
    { intros j s' v' Hj Hv'. destruct (Hok s') as (w & Hw & Hwok).
      - apply elem_of_app. left. eapply list_elem_of_lookup_2, Hj.
      - congruence. }
    pose proof (lookup_lt_Some _ _ _ Hbest) as Hib.
    cbn [HintBandit.min_loop]. unfold HintBandit.getitem. rewrite Hv.
    cbn [rbind]. rewrite cons_middle, app_assoc.
    destruct (num_lt v bv) eqn:Hlt.
    + apply (IH (pre ++ [x]) x v (length pre)).
      * apply list_lookup_middle. reflexivity.
      * exact Hv.
      * intros s Hs. apply Hok. rewrite cons_middle, app_assoc. exact Hs.
      * intros j s' v' Hj Hv'. apply lookup_snoc_Some in Hj as [[Hjlt Hj]|[-> <-]].
        -- destruct (Hinv j s' v' Hj Hv') as [Hnot _].
           pose proof (Hpre j s' v' Hj Hv') as Hv'ok.
           assert (num_lt v v' = true) as Hbelow
             by (apply (num_lt_below v bv v'); assumption).
           split; [apply num_lt_asym; assumption | intros _; exact Hbelow].
        -- assert (v' = v) as -> by congruence.
           split; [apply num_lt_irrefl; assumption | lia].
    + apply (IH (pre ++ [x]) best bv ib).
      * apply lookup_app_l_Some, Hbest.
      * exact Hbv.
      * intros s Hs. apply Hok. rewrite cons_middle, app_assoc. exact Hs.
      * intros j s' v' Hj Hv'. apply lookup_snoc_Some in Hj as [[Hjlt Hj]|[-> <-]].
        -- apply (Hinv j s' v' Hj Hv').
        -- assert (v' = v) as -> by congruence. split; [exact Hlt | lia].
Qed.

Lemma min_by_avg_first_minimum (avg : gmap string pynum) (styles : list string) :
  styles <> [] ->
  (forall s, s ∈ styles -> exists v, avg !! s = Some v /\ num_ok v = true) ->
  exists i s, HintBandit.min_by_avg avg styles = Ok s
              /\ first_minimum avg styles i s.
Proof.
  intros Hne Hok. destruct styles as [|x rest]; [contradiction|].
  destruct (Hok x) as (v & Hv & Hvok); [apply elem_of_cons; auto|].
  unfold HintBandit.min_by_avg, HintBandit.getitem. rewrite Hv. cbn [rbind].
  apply (min_loop_first_minimum avg rest [x] x v 0%nat).
  - reflexivity.
  - exact Hv.
  - exact Hok.
  - intros j s' v' Hj Hv'. destruct j as [|j]; [|discriminate].
    injection Hj as <-. assert (v' = v) as -> by congruence.
    split; [apply num_lt_irrefl; assumption | lia].
Qed.

(** A draw of [random.random()], which is not negative, is not below a
    rate of zero. *)
Lemma draw_not_below_zero (r : Float.float) (rate : pynum) :
  Float.leb Float.lit_0_0 r = true -> zero_rate rate ->
  num_lt (PFloat r) rate = false.
Proof.
  unfold zero_rate, num_lt, Float.leb, SFleb. intros Hr Hrate.
  destruct rate as [n|f]; cbn [num_compare] in *.
  - injection Hrate as Hn. apply Z.compare_eq in Hn. subst n.
    destruct r as [s|[]| |[] m e]; try discriminate; try reflexivity.
    cbn [Float.compare_int Float.signed].
    assert (0 < Z.pos m * 2 ^ Z.max e 0)
      by (apply Z.mul_pos_pos; [lia | apply Z.pow_pos_nonneg; lia]).
    rewrite Z.mul_0_l.
    destruct (Z.compare_spec (Z.pos m * 2 ^ Z.max e 0) 0); try reflexivity; lia.
  - destruct f as [s|s| |s m e]; try discriminate;
      try (destruct s; discriminate).
    + destruct r as [s'|[]| |[] m' e']; try discriminate; reflexivity.
    + exfalso. cbn [Float.compare_int] in Hrate. injection Hrate as Hc.
      apply Z.compare_eq in Hc.
      assert (0 < Z.pos m * 2 ^ Z.max e 0)
        by (apply Z.mul_pos_pos; [lia | apply Z.pow_pos_nonneg; lia]).
      destruct s; unfold Float.signed in Hc; lia.
Qed.

(** C4. With [exploration_rate = 0], for every draw [random.random()]
    gives (none is negative), [select_hint_style] returns the value of the
    [min], which no draw enters: the style with the least [avg_attempts]
    and, among equals, the first in the order of [hint_styles]. The
    averages are numbers that compare: none is NaN. *)
Theorem exploit_returns_first_minimum (b : HintBandit.t) (d : style_draws) :
  zero_rate (HintBandit.exploration_rate b) ->
  Float.leb Float.lit_0_0 (explore_draw d) = true ->
  HintBandit.hint_styles b <> [] ->
  (forall s, s ∈ HintBandit.hint_styles b ->
             exists v, HintBandit.avg_attempts b !! s = Some v /\ num_ok v = true) ->
  HintBandit.select_hint_style b d
  = HintBandit.min_by_avg (HintBandit.avg_attempts b) (HintBandit.hint_styles b)
  /\ exists i s,
       HintBandit.select_hint_style b d = Ok s
       /\ first_minimum (HintBandit.avg_attempts b) (HintBandit.hint_styles b) i s.
Proof.
  intros Hrate Hdraw Hne Hok.
  assert (HintBandit.select_hint_style b d
          = HintBandit.min_by_avg (HintBandit.avg_attempts b)
              (HintBandit.hint_styles b)) as Hsel.
  { unfold HintBandit.select_hint_style.
    rewrite (draw_not_below_zero _ _ Hdraw Hrate). reflexivity. }
  split; [exact Hsel|]. rewrite Hsel.
  apply min_by_avg_first_minimum; assumption.
Qed.

Lemma exploit_returns_first_minimum_witness :
  exists i s,
    HintBandit.select_hint_style
      (HintBandit.update_all (HintBandit.init UserProfile.styles (PInt 0))
         [("hot_cold", 3)])
      {| explore_draw := Float.lit_0_0; choice_draw := 2 |} = Ok s
    /\ first_minimum
         (HintBandit.avg_attempts
            (HintBandit.update_all (HintBandit.init UserProfile.styles (PInt 0))
               [("hot_cold", 3)]))
         UserProfile.styles i s.
Proof.
  apply (exploit_returns_first_minimum
           (HintBandit.update_all (HintBandit.init UserProfile.styles (PInt 0))
              [("hot_cold", 3)])
           {| explore_draw := Float.lit_0_0; choice_draw := 2 |}).
  - reflexivity.
  - reflexivity.
  - vm_compute. intros Hnil. discriminate Hnil.
  - intros s Hs. change (s ∈ UserProfile.styles) in Hs.
    unfold UserProfile.styles in Hs. rewrite !elem_of_cons in Hs.
    destruct Hs as [->|[->|[->|Hs]]];
      [eexists; split; vm_compute; reflexivity ..|].
    apply elem_of_nil in Hs. contradiction.
Defined.

(** ** Persistence: saving, then loading *)

Lemma as_num_json_of_num (x : pynum) : as_num (json_of_num x) = Some x.
Proof. destruct x; reflexivity. Qed.

Lemma all_style_stats_items (b : HintBandit.t) (seq : list string) :
  (forall s, s ∈ seq -> is_Some (HintBandit.attempts b !! s)
                        /\ is_Some (HintBandit.avg_attempts b !! s)) ->
  exists items, UserProfile.all_style_stats b seq = Ok items
                /\ Forall2 (stats_item b) seq items.
Proof.
  induction seq as [|s seq IH]; intros Hcov.
  - exists []. split; [reflexivity|constructor].
  - destruct (Hcov s) as [[a Ha] [v Hv]]; [apply elem_of_cons; auto|].
    destruct IH as (items & Hitems & Hall).
    { intros s' Hs'. apply Hcov. apply elem_of_cons. auto. }
    eexists. cbn [UserProfile.all_style_stats].
    unfold UserProfile.style_stats, HintBandit.getitem.
    rewrite Ha, Hv, Hitems. cbn [rbind]. split; [reflexivity|].
    constructor; [|exact Hall]. exists a, v. auto.
Qed.

(** Reading back the items written for the bandit [b] into a bandit [q]
    with the same styles: the entries of these styles become those of [b],
    the others stay. *)
Lemma load_style_stats_items (b : HintBandit.t) (seq : list string)
    (items : list (string * json)) (q : HintBandit.t) :
  Forall2 (stats_item b) seq items ->
  (forall s, s ∈ seq -> s ∈ HintBandit.hint_styles q) ->
  exists q',
    UserProfile.load_style_stats q items = Some (q', true)
    /\ HintBandit.hint_styles q' = HintBandit.hint_styles q
    /\ forall s,
         HintBandit.attempts q' !! s
         = (if bool_decide (s ∈ seq) then HintBandit.attempts b !! s
            else HintBandit.attempts q !! s)
         /\ HintBandit.avg_attempts q' !! s
            = (if bool_decide (s ∈ seq) then HintBandit.avg_attempts b !! s
               else HintBandit.avg_attempts q !! s).
Proof.
  intros Hall. revert q.
  induction Hall as [|s0 item seq items (a & v & Ha & Hv & ->) Hall IH]; intros q Hin.
  - exists q. split; [reflexivity|]. split; [reflexivity|].
    intros s. rewrite bool_decide_eq_false_2 by apply not_elem_of_nil. auto.
  - cbn [UserProfile.load_style_stats].
    rewrite bool_decide_eq_true_2 by (apply Hin, elem_of_cons; auto).
    cbn [member String.eqb Ascii.eqb Bool.eqb andb as_int mbind option_bind].
    rewrite as_num_json_of_num. cbn [mbind option_bind].
    match goal with
    | |- context [UserProfile.load_style_stats ?q1 items] =>
        destruct (IH q1) as (q' & Hload & Hstyles & Hlook)
    end.
    { intros s Hs. cbn [HintBandit.hint_styles]. apply Hin, elem_of_cons. auto. }
    exists q'. split; [exact Hload|]. split; [exact Hstyles|].
    intros s. destruct (Hlook s) as [Hatt Havg]. rewrite Hatt, Havg.
    cbn [HintBandit.attempts HintBandit.avg_attempts].
    destruct (decide (s ∈ seq)) as [Hs|Hs].
    + rewrite !bool_decide_eq_true_2; [auto| |exact Hs]. apply elem_of_cons. auto.
    + rewrite (bool_decide_eq_false_2 _ Hs).
      destruct (decide (s = s0)) as [->|Hne].
      * rewrite !lookup_insert_eq, bool_decide_eq_true_2 by (apply elem_of_cons; auto).
        auto.
      * rewrite !lookup_insert_ne by congruence.
        rewrite bool_decide_eq_false_2; [auto|].
        rewrite elem_of_cons. intros [?|?]; contradiction.
Qed.

(** C8. A profile whose bandit has the entries of its styles is saved
    without an exception, and loading the file into a profile of the same
    username and hint styles (a fresh one, as [AdaptiveGame] does, or any
    other) returns [True] and gives every persisted field the value that
    was saved: [alpha], [avg_attempts], [range_size], [games_played], the
    learner's [k], and [attempts] and [avg_attempts] of every hint style.
    The file is the JSON value written: [json.dump] followed by
    [json.load] is taken to give the value back. *)
Theorem save_then_load (p q : UserProfile.t) (fs : files) :
  covers (UserProfile.hint_bandit p) ->
  UserProfile.username q = UserProfile.username p ->
  HintBandit.hint_styles (UserProfile.hint_bandit q)
  = HintBandit.hint_styles (UserProfile.hint_bandit p) ->
  exists fs' q',
    UserProfile.save_to_file p fs = Ok fs'
    /\ UserProfile.load_from_file q fs' = Some (q', true)
    /\ UserProfile.username q' = UserProfile.username p
    /\ UserProfile.alpha q' = UserProfile.alpha p
    /\ UserProfile.avg_attempts q' = UserProfile.avg_attempts p
    /\ UserProfile.range_size q' = UserProfile.range_size p
    /\ UserProfile.games_played q' = UserProfile.games_played p
    /\ HotColdLearner.k (UserProfile.hot_cold_learner q')
       = HotColdLearner.k (UserProfile.hot_cold_learner p)
    /\ forall s, s ∈ HintBandit.hint_styles (UserProfile.hint_bandit p) ->
         HintBandit.attempts (UserProfile.hint_bandit q') !! s
         = HintBandit.attempts (UserProfile.hint_bandit p) !! s
         /\ HintBandit.avg_attempts (UserProfile.hint_bandit q') !! s
            = HintBandit.avg_attempts (UserProfile.hint_bandit p) !! s.
Proof.
  intros Hcov Hname Hstyles.
  destruct (all_style_stats_items (UserProfile.hint_bandit p)
              (HintBandit.hint_styles (UserProfile.hint_bandit p)) Hcov)
    as (items & Hitems & Hall).
  destruct (load_style_stats_items (UserProfile.hint_bandit p) _ items
              (UserProfile.hint_bandit q) Hall) as (b' & Hload & _ & Hlook).
  { intros s Hs. rewrite Hstyles. exact Hs. }
  unfold UserProfile.save_to_file, UserProfile.to_json. rewrite Hitems.
  cbn [rbind]. eexists. eexists. split; [reflexivity|].
  unfold UserProfile.load_from_file. rewrite Hname, lookup_insert_eq.
  unfold UserProfile.load_data.
  cbn [member String.eqb Ascii.eqb Bool.eqb andb default id as_float as_int
         mbind option_bind fmap option_fmap option_map].
  assert (as_optional_num
            match UserProfile.avg_attempts p with
            | Some x => json_of_num x
            | None => JNull
            end = Some (UserProfile.avg_attempts p)) as ->.
  { destruct (UserProfile.avg_attempts p) as [[n|f]|]; reflexivity. }
  cbn [mbind option_bind]. rewrite Hload. cbn [mbind option_bind].
  split; [reflexivity|]. cbn. repeat (split; [congruence || reflexivity|]).
  intros s Hs. destruct (Hlook s) as [Hatt Havg].
  rewrite bool_decide_eq_true_2 in Hatt, Havg by exact Hs. auto.
Qed.

Lemma init_covers (styles : list string) (rate : pynum) :
  covers (HintBandit.init styles rate).
Proof.
  intros s Hs. cbn [HintBandit.init HintBandit.hint_styles HintBandit.attempts
                      HintBandit.avg_attempts] in *.
  rewrite !dict_of_lookup by exact Hs. split; eexists; reflexivity.
Qed.

Lemma save_then_load_witness :
  exists fs' q',
    UserProfile.save_to_file
      (set_stats (UserProfile.init "Player") (Some (PInt 3)) 1 120) ∅ = Ok fs'
    /\ UserProfile.load_from_file (UserProfile.init "Player") fs' = Some (q', true)
    /\ UserProfile.avg_attempts q' = Some (PInt 3)
    /\ UserProfile.range_size q' = 120
    /\ UserProfile.games_played q' = 1.
Proof.
  destruct (save_then_load
              (set_stats (UserProfile.init "Player") (Some (PInt 3)) 1 120)
              (UserProfile.init "Player") ∅)
    as (fs' & q' & Hsave & Hload & _ & _ & Havg & Hsize & Hplayed & _).
  - apply init_covers.
  - reflexivity.
  - reflexivity.
  - exists fs', q'. auto.
Defined.

(** * Further properties of the code *)

(** ** HintBandit: the counters *)

(** What one call of [update_stats] does to the counters, whether it
    returns or raises. *)
Lemma update_stats_counters (b : HintBandit.t) (s : string) (n : Z) :
  match HintBandit.attempts b !! s with
  | None => HintBandit.update_stats b s n = (b, Some (KeyError s))
  | Some c =>
      let b' := (HintBandit.update_stats b s n).1 in
      HintBandit.hint_styles b' = HintBandit.hint_styles b
      /\ HintBandit.exploration_rate b' = HintBandit.exploration_rate b
      /\ HintBandit.attempts b' = <[s := c + 1]> (HintBandit.attempts b)
      /\ HintBandit.total_games b' = HintBandit.total_games b + 1
      /\ (HintBandit.avg_attempts b' = HintBandit.avg_attempts b
          \/ exists v, HintBandit.avg_attempts b'
                       = <[s := v]> (HintBandit.avg_attempts b))
  end.
Proof.
  unfold HintBandit.update_stats.
  destruct (HintBandit.attempts b !! s) as [c|]; [|reflexivity].
  destruct (c + 1 =? 1); cbn zeta.
  - simpl. repeat split; eauto.
  - destruct (HintBandit.getitem _ s) as [old|e]; cbn [rbind commit raised fst];
      [|cbn; auto 6].
    destruct (HintBandit.blend old n) as [v|e]; cbn; repeat split; eauto.
Qed.

(** X1. On a bandit made by the constructor, after any series of
    [update_stats] calls, made one after the other whether they return or
    raise: the styles are the same, [attempts] has an entry for exactly the
    styles of the bandit and it counts the calls made for the style,
    [total_games] counts the calls that named a style of the bandit, and
    every style still has its average. A call that names another string
    raises [KeyError] and changes nothing. *)
Theorem counters_count_calls (styles : list string) (rate : pynum)
    (calls : list (string * Z)) :
  let b := HintBandit.update_all (HintBandit.init styles rate) calls in
  HintBandit.hint_styles b = styles
  /\ HintBandit.total_games b = Z.of_nat (length (known_calls styles calls))
  /\ (forall s, HintBandit.attempts b !! s
                = if bool_decide (s ∈ styles)
                  then Some (Z.of_nat (calls_for s calls)) else None)
  /\ (forall s, s ∈ styles -> is_Some (HintBandit.avg_attempts b !! s))
  /\ (forall s n, s ∉ styles ->
                  HintBandit.update_stats b s n = (b, Some (KeyError s))).
Proof.
  induction calls as [|[s0 n0] calls IH] using rev_ind; cbn zeta.
  - unfold HintBandit.update_all. cbn [fold_left HintBandit.init
      HintBandit.hint_styles HintBandit.total_games HintBandit.attempts
      HintBandit.avg_attempts].
    split; [reflexivity|]. split; [reflexivity|].
    assert (forall s : string,
              HintBandit.dict_of styles 0 !! s
              = if bool_decide (s ∈ styles) then Some (Z.of_nat 0) else None)
      as Hatt.
    { intros s. unfold HintBandit.dict_of. rewrite fold_insert_lookup.
      rewrite lookup_empty. reflexivity. }
    split; [exact Hatt|]. split.
    + intros s Hs. rewrite dict_of_lookup by exact Hs. eauto.
    + intros s n Hs. unfold HintBandit.update_stats.
      cbn [HintBandit.attempts]. rewrite Hatt, bool_decide_eq_false_2 by exact Hs.
      reflexivity.
  - cbn zeta in IH. destruct IH as (Hst & Htot & Hatt & Havg & Hkey).
    rewrite update_all_snoc. cbn [fst snd].
    set (b := HintBandit.update_all (HintBandit.init styles rate) calls) in *.
    unfold known_calls in *. rewrite List.filter_app, length_app.
    cbn [List.filter fst].
    pose proof (update_stats_counters b s0 n0) as Hstep.
    rewrite Hatt in Hstep.
    destruct (decide (s0 ∈ styles)) as [Hin|Hnot].
    + rewrite bool_decide_eq_true_2 in Hstep |- * by exact Hin.
      cbn zeta in Hstep. destruct Hstep as (Hst' & _ & Hatt' & Htot' & Havg').
      set (b' := (HintBandit.update_stats b s0 n0).1) in *.
      assert (forall s, HintBandit.attempts b' !! s
                        = if bool_decide (s ∈ styles)
                          then Some (Z.of_nat (calls_for s (calls ++ [(s0, n0)])))
                          else None) as Hatt''.
      { intros s. rewrite Hatt', calls_for_snoc. cbn [fst].
        destruct (String.eqb_spec s0 s) as [->|Hne].
        - rewrite lookup_insert_eq, bool_decide_eq_true_2 by exact Hin.
          f_equal. lia.
        - rewrite lookup_insert_ne by exact Hne. rewrite Hatt.
          destruct (bool_decide (s ∈ styles)); [f_equal; lia | reflexivity]. }
      split; [congruence|]. split; [rewrite Htot', Htot; cbn [length]; lia|].
      split; [exact Hatt''|]. split.
      * intros s Hs. destruct Havg' as [->|[v ->]]; [apply Havg, Hs|].
        destruct (decide (s0 = s)) as [->|Hne].
        -- rewrite lookup_insert_eq. eauto.
        -- rewrite lookup_insert_ne by exact Hne. apply Havg, Hs.
      * intros s n Hs. unfold HintBandit.update_stats.
        rewrite Hatt'', bool_decide_eq_false_2 by exact Hs. reflexivity.
    + rewrite bool_decide_eq_false_2 in Hstep |- * by exact Hnot.
      rewrite Hstep. cbn [fst length]. rewrite Nat.add_0_r.
      split; [exact Hst|]. split; [exact Htot|]. split; [|split; assumption].
      intros s. rewrite Hatt, calls_for_snoc. cbn [fst].
      destruct (String.eqb_spec s0 s) as [->|Hne].
      * rewrite bool_decide_eq_false_2 by exact Hnot. reflexivity.
      * rewrite Nat.add_0_r. reflexivity.
Qed.

(** ** HintBandit: the style selected is a style of the bandit *)

Lemma min_loop_member (avg : gmap string pynum) (rest : list string)
    (best : string) (bv : pynum) :
  (forall s, s ∈ rest -> is_Some (avg !! s)) ->
  exists s, HintBandit.min_loop avg best bv rest = Ok s /\ s ∈ best :: rest.
Proof.
  revert best bv. induction rest as [|x rest IH]; intros best bv Hok.
  - exists best. split; [reflexivity | apply elem_of_cons; auto].
  - destruct (Hok x) as [v Hv]; [apply elem_of_cons; auto|].
    cbn [HintBandit.min_loop]. unfold HintBandit.getitem. rewrite Hv. cbn [rbind].
    assert (forall s, s ∈ rest -> is_Some (avg !! s)) as Hrest
      by (intros s Hs; apply Hok, elem_of_cons; auto).
    destruct (num_lt v bv).
    + destruct (IH x v Hrest) as (s & -> & Hs). exists s. split; [reflexivity|].
      apply elem_of_cons. right. exact Hs.
    + destruct (IH best bv Hrest) as (s & -> & Hs). exists s. split; [reflexivity|].
      apply elem_of_cons in Hs as [->|Hs]; rewrite !elem_of_cons; auto.
Qed.

(** The style selected is one of the list, on a bandit that has a style
    and an average for each. *)
Lemma select_returns_style (b : HintBandit.t) (d : style_draws) :
  HintBandit.hint_styles b <> [] ->
  (forall s, s ∈ HintBandit.hint_styles b ->
             is_Some (HintBandit.avg_attempts b !! s)) ->
  exists s, HintBandit.select_hint_style b d = Ok s
            /\ s ∈ HintBandit.hint_styles b.
Proof.
  intros Hne Hok. unfold HintBandit.select_hint_style.
  destruct (HintBandit.hint_styles b) as [|x rest] eqn:Hst; [contradiction|].
  destruct (num_lt _ _).
  - unfold HintBandit.choice.
    destruct ((x :: rest) !! (choice_draw d mod length (x :: rest))%nat)
      as [s|] eqn:Hs.
    + exists s. split; [reflexivity|]. eapply list_elem_of_lookup_2, Hs.
    + apply lookup_ge_None in Hs.
      pose proof (Nat.mod_upper_bound (choice_draw d) (length (x :: rest))) as Hlt.
      cbn [length] in *. lia.
  - unfold HintBandit.min_by_avg, HintBandit.getitem.
    destruct (Hok x) as [v ->]; [apply elem_of_cons; auto|]. cbn [rbind].
    apply min_loop_member. intros s Hs. apply Hok, elem_of_cons. auto.
Qed.

(** X2. Whatever the exploration rate and the draws are, on a bandit whose
    list of styles is not empty and whose styles all have an average,
    [select_hint_style] returns, and what it returns is one of
    [hint_styles]. *)
Theorem select_hint_style_member (b : HintBandit.t) (d : style_draws) :
  HintBandit.hint_styles b <> [] ->
  (forall s, s ∈ HintBandit.hint_styles b ->
             is_Some (HintBandit.avg_attempts b !! s)) ->
  exists s, HintBandit.select_hint_style b d = Ok s
            /\ s ∈ HintBandit.hint_styles b.
Proof. apply select_returns_style. Qed.

Lemma select_hint_style_member_witness :
  exists s,
    HintBandit.select_hint_style
      (HintBandit.init UserProfile.styles (PFloat Float.lit_0_1))
      {| explore_draw := Float.lit_0_0; choice_draw := 7 |} = Ok s
    /\ s ∈ UserProfile.styles.
Proof.
  apply (select_hint_style_member
           (HintBandit.init UserProfile.styles (PFloat Float.lit_0_1))
           {| explore_draw := Float.lit_0_0; choice_draw := 7 |}).
  - intros Hnil. discriminate Hnil.
  - intros s Hs. apply (init_covers UserProfile.styles _ s Hs).
Defined.

(** On an empty list of styles both branches raise. *)
Lemma select_hint_style_empty (b : HintBandit.t) (d : style_draws) :
  HintBandit.hint_styles b = [] ->
  HintBandit.select_hint_style b d = Raise IndexError
  \/ HintBandit.select_hint_style b d = Raise ValueError.
Proof.
  intros Hst. unfold HintBandit.select_hint_style. rewrite Hst.
  destruct (num_lt _ _); auto.
Qed.

(** ** HotColdLearner: a game won within the target *)

Lemma compare_eq_finite (x : Float.float) (s : bool) (m : positive) (e : Z) :
  SFcompare x (S754_finite s m e) = Some Eq -> x = S754_finite s m e.
Proof.
  destruct x as [sx|sx| |sx mx ex]; cbn [SFcompare].
  - destruct s; discriminate.
  - destruct sx; discriminate.
  - discriminate.
  - destruct sx, s; try discriminate;
      destruct (Z.compare_spec ex e) as [->|?|?]; try discriminate;
      intros Hc; injection Hc as Hc.
    + apply (f_equal CompOpp) in Hc. rewrite CompOpp_involutive in Hc.
      apply Pos.compare_eq in Hc. congruence.
    + apply Pos.compare_eq in Hc. congruence.
Qed.

Lemma compare_finite_eq (x : Float.float) (s : bool) (m : positive) (e : Z) :
  SFcompare (S754_finite s m e) x = Some Eq -> x = S754_finite s m e.
Proof.
  destruct x as [sx|sx| |sx mx ex]; cbn [SFcompare].
  - destruct s; discriminate.
  - destruct sx; discriminate.
  - discriminate.
  - destruct s, sx; try discriminate;
      destruct (Z.compare_spec e ex) as [->|?|?]; try discriminate;
      intros Hc; injection Hc as Hc.
    + apply (f_equal CompOpp) in Hc. rewrite CompOpp_involutive in Hc.
      apply Pos.compare_eq in Hc. congruence.
    + apply Pos.compare_eq in Hc. congruence.
Qed.

(** A [k] inside the bounds is a finite positive float that the clamp
    returns as it is. *)
Lemma clamp_in_bounds_id (x : Float.float) :
  in_bounds x ->
  HotColdLearner.clamp x = x /\ exists m e, x = S754_finite false m e.
Proof.
  unfold in_bounds, HotColdLearner.clamp, Float.leb, Float.ltb, SFleb, SFltb.
  intros [Hlo Hhi]. split.
  - destruct (SFcompare x Float.lit_0_8) as [[]|] eqn:Hc8; try discriminate.
    + apply compare_eq_finite in Hc8. subst x. reflexivity.
    + destruct (SFcompare Float.lit_0_1 x) as [[]|] eqn:Hc1; try discriminate.
      * apply compare_finite_eq in Hc1. subst x. reflexivity.
      * reflexivity.
  - destruct x as [s|s| |s m e]; try discriminate.
    + destruct s; discriminate.
    + destruct s; [discriminate|eauto].
Qed.

(** X3. On a learner with the constructor's [target_guesses = 3] and
    [learning_rate = 0.1] whose [k] is inside [[0.1, 0.8]], [record_game]
    for a game of at most three guesses returns, appends the pair
    [(actual_guesses, 3)] to the history, and leaves [k] exactly as it
    was: the increment of that branch is [0.1 * (1 - 3 / 3) = 0.0]. *)
Theorem game_within_target_keeps_k (l : HotColdLearner.t) (actual : Z) :
  HotColdLearner.target_guesses l = 3 ->
  HotColdLearner.learning_rate l = Float.lit_0_1 ->
  in_bounds (HotColdLearner.k l) ->
  actual <= 3 ->
  HotColdLearner.record_game l actual
  = ({| HotColdLearner.k := HotColdLearner.k l;
        HotColdLearner.target_guesses := 3;
        HotColdLearner.learning_rate := Float.lit_0_1;
        HotColdLearner.history := HotColdLearner.history l ++ [(actual, 3)] |},
     None).
Proof.
  destruct l as [k t lr hist]. cbn [HotColdLearner.target_guesses
    HotColdLearner.learning_rate HotColdLearner.k HotColdLearner.history].
  intros -> -> Hk Ha.
  destruct (clamp_in_bounds_id k Hk) as [Hclamp (m & e & ->)].
  unfold HotColdLearner.record_game, HotColdLearner.update_k.
  cbn [HotColdLearner.target_guesses HotColdLearner.learning_rate
         HotColdLearner.k HotColdLearner.history].
  destruct (Z.leb_spec actual 3); [|lia].
  replace (Float.int_truediv 3 3) with (Ok (Float.of_Z 1))
    by (vm_compute; reflexivity).
  cbn [rbind].
  replace (Float.mul Float.lit_0_1 (Float.sub (Float.of_Z 1) (Float.of_Z 1)))
    with (S754_zero false) by (vm_compute; reflexivity).
  change (Float.add (S754_finite false m e) (S754_zero false))
    with (S754_finite false m e).
  unfold HotColdLearner.set_k. cbn [HotColdLearner.target_guesses
    HotColdLearner.learning_rate HotColdLearner.k HotColdLearner.history].
  rewrite Hclamp. reflexivity.
Qed.

Lemma game_within_target_keeps_k_witness :
  HotColdLearner.record_game (HotColdLearner.init 3) 2
  = ({| HotColdLearner.k := Float.lit_0_3;
        HotColdLearner.target_guesses := 3;
        HotColdLearner.learning_rate := Float.lit_0_1;
        HotColdLearner.history := [(2, 3)] |}, None).
Proof.
  apply (game_within_target_keeps_k (HotColdLearner.init 3) 2).
  - reflexivity.
  - reflexivity.
  - split; reflexivity.
  - lia.
Defined.

(** ** [update_user_stats]: the range size *)

Lemma scaling_bounded_to_cap :
  forallb (fun i => scaling_bounded (Z.of_nat i)) (seq 0 (Z.to_nat 10001)) = true.
Proof. vm_cast_no_check (eq_refl true). Qed.

Lemma scaling_bounded_in_range (size : Z) :
  0 <= size <= 10000 ->
  exists up down,
    Float.trunc (Float.mul (Float.of_Z size) Float.lit_1_2) = Ok up
    /\ Float.trunc (Float.mul (Float.of_Z size) Float.lit_0_8) = Ok down
    /\ size <= up /\ 0 <= down <= size.
Proof.
  intros Hs. pose proof scaling_bounded_to_cap as Hall.
  rewrite forallb_forall in Hall. specialize (Hall (Z.to_nat size)).
  rewrite Z2Nat.id in Hall by lia.
  assert (scaling_bounded size = true) as Hb by (apply Hall, in_seq; lia).
  unfold scaling_bounded in Hb.
  destruct (Float.trunc (Float.mul (Float.of_Z size) Float.lit_1_2)) as [up|];
    [|discriminate].
  destruct (Float.trunc (Float.mul (Float.of_Z size) Float.lit_0_8)) as [down|];
    [|discriminate].
  apply andb_true_iff in Hb as [Hb H0]. apply andb_true_iff in Hb as [Hup Hdown].
  exists up, down. rewrite Z.leb_le in *. auto.
Qed.

(** X4. On a profile whose [range_size] is between 10 and 10000,
    [update_user_stats] returns; it stores the count itself as the average
    of a first game; it adds one to [games_played]; it leaves the
    username, [alpha], the learner and the bandit as they were; and the
    new [range_size] is again between 10 and 10000: no smaller than before
    when the new average is below 4, no larger when it is above 8, the
    same otherwise. *)
Theorem update_user_stats_range (p : UserProfile.t) (n : Z) :
  10 <= UserProfile.range_size p <= 10000 ->
  match UserProfile.avg_attempts p with Some v => convertible v | None => True end ->
  Z.abs n < Float.overflow_threshold ->
  exists avg size,
    update_user_stats p n
    = (set_stats p (Some avg) (UserProfile.games_played p + 1) size, None)
    /\ (UserProfile.avg_attempts p = None -> avg = PInt n)
    /\ 10 <= size <= 10000
    /\ (if num_lt avg (PInt 4) then UserProfile.range_size p <= size
        else if num_gt avg (PInt 8) then size <= UserProfile.range_size p
        else size = UserProfile.range_size p).
Proof.
  intros Hsize Havg Hn. unfold update_user_stats.
  assert (exists avg, match UserProfile.avg_attempts p with
                      | Some old => HintBandit.blend old n
                      | None => Ok (PInt n)
                      end = Ok avg
                      /\ (UserProfile.avg_attempts p = None -> avg = PInt n))
    as (avg & -> & Hfirst).
  { destruct (UserProfile.avg_attempts p) as [old|].
    - destruct (blend_returns old n Havg Hn) as [f ->]. eexists.
      split; [reflexivity|discriminate].
    - eexists. split; [reflexivity|auto]. }
  destruct (scaling_bounded_in_range (UserProfile.range_size p) ltac:(lia))
    as (up & down & Hup & Hdown & Hle & Hge).
  pose proof threshold_large.
  exists avg. unfold adjust_range. cbn [set_stats UserProfile.range_size].
  rewrite of_int_returns by lia. cbn [rbind]. rewrite Hup, Hdown. cbn [rbind].
  destruct (num_lt avg (PInt 4)); [|destruct (num_gt avg (PInt 8))].
  - exists (Z.min 10000 up). split; [reflexivity|]. split; [exact Hfirst|]. lia.
  - exists (Z.max 10 down). split; [reflexivity|]. split; [exact Hfirst|]. lia.
  - exists (UserProfile.range_size p). split; [reflexivity|].
    split; [exact Hfirst|]. lia.
Qed.

Lemma update_user_stats_range_witness :
  update_user_stats (UserProfile.init "Player") 3
  = (set_stats (UserProfile.init "Player") (Some (PInt 3)) 1 120, None).
Proof.
  destruct (update_user_stats_range (UserProfile.init "Player") 3)
    as (avg & size & Hrun & Hfirst & _ & _).
  - simpl. lia.
  - exact I.
  - vm_compute. reflexivity.
  - rewrite (Hfirst eq_refl) in Hrun. rewrite Hrun.
    assert (size = 120) as ->; [|reflexivity].
    clear Hfirst. revert Hrun. unfold update_user_stats.
    cbn [UserProfile.avg_attempts UserProfile.init].
    replace (adjust_range (PInt 3)
               (UserProfile.range_size
                  (set_stats (UserProfile.init "Player") (Some (PInt 3))
                     (UserProfile.games_played (UserProfile.init "Player") + 1)
                     (UserProfile.range_size (UserProfile.init "Player")))))
      with (Ok (A := Z) 120) by (vm_compute; reflexivity).
    cbn [rbind commit returned]. intros Heq. injection Heq as Heq. congruence.
Defined.

(** ** The human-guesses mode before the win *)

Lemma accept_guess_profile (g g' : user_game) (x : Z) :
  accept_guess g x = Running g' ->
  same_but_alpha (user g) (user g')
  /\ attempts g' = attempts g + 1
  /\ length (hints g') = S (length (hints g)).
Proof.
  unfold accept_guess.
  destruct (blend_alpha _ _ _ _) as [a|e]; [|discriminate].
  destruct (get_hint _ _ _ _ _ _) as [h|e]; [|discriminate].
  destruct (x =? secret g).
  - destruct (finish_user_game _ _ _) as [p' [e|]]; discriminate.
  - destruct (x <? secret g); intros Hrun; injection Hrun as <-;
      cbn; unfold same_but_alpha; cbn; auto 10.
Qed.

Section Abandoned.

Context `{Builtins}.

Lemma user_step_profile (g g' : user_game) (ev : event) :
  user_step g ev = Running g' ->
  same_but_alpha (user g) (user g')
  /\ attempts g' - attempts g
     = Z.of_nat (length (hints g')) - Z.of_nat (length (hints g)).
Proof.
  assert (same_but_alpha (user g) (user g)) as Hrefl
    by (unfold same_but_alpha; auto 10).
  unfold user_step. destruct (input ev) as [s|e]; [|discriminate].
  destruct (py_int s) as [x|].
  - destruct (in_range g x).
    + intros Hrun. apply accept_guess_profile in Hrun as (Hsame & Hn & Hh).
      split; [exact Hsame|]. rewrite Hn, Hh. lia.
    + intros Hrun. injection Hrun as <-. split; [exact Hrefl|lia].
  - intros Hrun. injection Hrun as <-. split; [exact Hrefl|lia].
Qed.

Lemma user_loop_snoc (evs : list event) (g g' : user_game) (ev : event) :
  user_loop g evs = Running g' -> user_loop g (evs ++ [ev]) = user_step g' ev.
Proof.
  revert g. induction evs as [|e evs IH]; intros g; cbn [user_loop app].
  - intros Hrun. injection Hrun as <-. destruct (user_step g ev); reflexivity.
  - destruct (user_step g e) as [g1| |]; try discriminate. apply IH.
Qed.

(** X5. While a game of the human-guesses mode is running, whatever was
    typed: the profile differs from the one the game started with at most
    in [alpha]; the attempts counted since are as many as the hints
    printed since; and if the input ends there (or is interrupted), the
    exception leaves the mode with that profile, the updates of [alpha]
    made so far included. *)
Theorem abandoned_game_keeps_profile (evs : list event) (g g' : user_game) :
  user_loop g evs = Running g' ->
  same_but_alpha (user g) (user g')
  /\ attempts g' - attempts g
     = Z.of_nat (length (hints g')) - Z.of_nat (length (hints g))
  /\ user_loop g (evs ++ [EndOfInput]) = Crashed EOFError (user g')
  /\ user_loop g (evs ++ [Interrupt]) = Crashed KeyboardInterrupt (user g').
Proof.
  intros Hrun.
  rewrite (user_loop_snoc evs g g' EndOfInput Hrun).
  rewrite (user_loop_snoc evs g g' Interrupt Hrun).
  assert (same_but_alpha (user g) (user g')
          /\ attempts g' - attempts g
             = Z.of_nat (length (hints g')) - Z.of_nat (length (hints g)))
    as [Hsame Hcount].
  { clear -Hrun. revert g Hrun.
    induction evs as [|ev evs IH]; intros g; cbn [user_loop].
    - intros Hrun. injection Hrun as <-.
      split; [unfold same_but_alpha; auto 10 | lia].
    - destruct (user_step g ev) as [g1| |] eqn:Hstep; try discriminate.
      intros Hrun. apply user_step_profile in Hstep as [Hs1 Hc1].
      destruct (IH g1 Hrun) as [Hs2 Hc2]. split; [|lia].
      unfold same_but_alpha in *.
      destruct Hs1 as (? & ? & ? & ? & ? & ?), Hs2 as (? & ? & ? & ? & ? & ?).
      repeat split; congruence. }
  split; [exact Hsame|]. split; [exact Hcount|]. split; reflexivity.
Qed.

End Abandoned.

Lemma abandoned_game_keeps_profile_witness :
  exists g',
    user_loop (H := Ascii_text.builtins) scenario_game
      [Line "75"; Line "abc"; Line "500"; Line "25"] = Running g'
    /\ attempts g' = 2
    /\ UserProfile.games_played (user g') = 0
    /\ user_loop (H := Ascii_text.builtins) scenario_game
         ([Line "75"; Line "abc"; Line "500"; Line "25"] ++ [EndOfInput])
       = Crashed EOFError (user g').
Proof.
  pose (a1 := Float.add (Float.mul Float.lit_0_9 Float.lit_0_5)
                (Float.mul Float.lit_0_1 (Float.quotient 74 99))).
  pose (a2 := Float.add (Float.mul Float.lit_0_9 a1)
                (Float.mul Float.lit_0_1 (Float.quotient 24 73))).
  pose (g2 := {| secret := 50; hint_style := "hot_cold"; attempts := 2;
                 cur_lo := 26; cur_hi := 74;
                 user := set_alpha (UserProfile.init "Player") a2;
                 hints := [Cold; Hot] |}).
  assert (Hrun : user_loop (H := Ascii_text.builtins) scenario_game
                   [Line "75"; Line "abc"; Line "500"; Line "25"] = Running g2)
    by (vm_compute; reflexivity).
  destruct (abandoned_game_keeps_profile (H := Ascii_text.builtins) _ _ _ Hrun)
    as (Hsame & _ & Heof & _).
  exists g2. split; [exact Hrun|]. split; [reflexivity|].
  split; [reflexivity | exact Heof].
Defined.

(** ** The system-guesses mode *)

Lemma computer_turn_cases (p : UserProfile.t) (n lo hi : Z) (l : list Z) :
  lo <= hi ->
  match computer_turn p n lo hi l with
  | Running c =>
      c_user c = p /\ c_attempts c = n + 1 /\ c_lo c = lo /\ c_hi c = hi
      /\ guess_inside c /\ guesses c = c_guess c :: l
      /\ next_guess (UserProfile.alpha p) lo hi = Ok (c_guess c)
  | Returned _ _ => False
  | Crashed e p' => p' = p /\ (e = ValueError \/ e = OverflowError)
  end.
Proof.
  intros Hle. unfold computer_turn.
  pose proof (next_guess_clamped (UserProfile.alpha p) lo hi Hle) as Hg.
  destruct (next_guess _ _ _) as [g|e]; [|auto].
  unfold guess_inside. cbn. auto 10.
Qed.

Section Responses.

Context `{Builtins}.

(** One turn of the mode at a prompt whose range is not empty. *)
Lemma computer_step_cases (c : computer_game) (ev : event) :
  c_lo c <= c_hi c ->
  match computer_step c ev with
  | Running c' =>
      c_user c' = c_user c /\ c_attempts c' = c_attempts c + 1
      /\ c_lo c <= c_lo c' /\ c_hi c' <= c_hi c /\ c_lo c' <= c_hi c'
      /\ guess_inside c'
  | Returned v p =>
      p = c_user c
      /\ forall n, v = Won n ->
           n = c_attempts c
           /\ exists s, ev = Line s /\ py_lower (py_strip s) = "c"
  | Crashed e p => p = c_user c /\ (e = ValueError \/ e = OverflowError)
  end.
Proof.
  intros Hle.
  assert (forall lo hi, c_lo c <= lo -> hi <= c_hi c -> lo <= hi ->
            match computer_turn (c_user c) (c_attempts c) lo hi (guesses c) with
            | Running c' =>
                c_user c' = c_user c /\ c_attempts c' = c_attempts c + 1
                /\ c_lo c <= c_lo c' /\ c_hi c' <= c_hi c /\ c_lo c' <= c_hi c'
                /\ guess_inside c'
            | Returned v p =>
                p = c_user c
                /\ forall n, v = Won n ->
                     n = c_attempts c
                     /\ exists s, ev = Line s /\ py_lower (py_strip s) = "c"
            | Crashed e p => p = c_user c /\ (e = ValueError \/ e = OverflowError)
            end) as Hturn.
  { intros lo hi Hlo Hhi Hlh.
    pose proof (computer_turn_cases (c_user c) (c_attempts c) lo hi (guesses c) Hlh)
      as Ht.
    destruct (computer_turn _ _ _ _ _) as [c'| |]; [|contradiction|exact Ht].
    destruct Ht as (? & ? & -> & -> & ? & _). auto 10. }
  unfold computer_step.
  destruct ev as [s| |]; cbn [input];
    [|split; [reflexivity|discriminate] ..].
  destruct (String.eqb_spec (py_lower (py_strip s)) "c") as [Hc|_].
  { split; [reflexivity|]. intros n Hn. injection Hn as <-. eauto. }
  destruct (String.eqb _ "h").
  - destruct (Z.ltb_spec (c_hi c) (Z.max (c_lo c) (c_guess c + 1)));
      [split; [reflexivity|discriminate]|].
    apply Hturn; lia.
  - destruct (String.eqb _ "l").
    + destruct (Z.ltb_spec (Z.min (c_hi c) (c_guess c - 1)) (c_lo c));
        [split; [reflexivity|discriminate]|].
      apply Hturn; lia.
    + apply Hturn; lia.
Qed.

(** X6. The system-guesses mode never changes the profile, however it
    ends, and while it runs from a prompt whose guess is inside the range:
    each guess printed is inside the range current at its prompt, and
    [attempts] grows by one with every line read, be it an answer or not,
    so that the count announced is the number of lines read up to the
    answer [c]. The only exceptions that leave the loop are those of
    [round] on the biased position. *)
Theorem computer_mode_invariants (evs : list event) (c : computer_game) :
  guess_inside c ->
  match computer_loop c evs with
  | Running c' =>
      c_user c' = c_user c
      /\ c_attempts c' = c_attempts c + Z.of_nat (length evs)
      /\ guess_inside c'
  | Returned v p =>
      p = c_user c
      /\ forall n, v = Won n ->
           exists k s, evs !! k = Some (Line s)
                       /\ py_lower (py_strip s) = "c"
                       /\ n = c_attempts c + Z.of_nat k
  | Crashed e p => p = c_user c /\ (e = ValueError \/ e = OverflowError)
  end.
Proof.
  revert c. induction evs as [|ev evs IH]; intros c Hin; cbn [computer_loop].
  - cbn [length]. repeat split; [lia | apply Hin ..].
  - pose proof (computer_step_cases c ev ltac:(unfold guess_inside in Hin; lia))
      as Hstep.
    destruct (computer_step c ev) as [c1|v p|e p].
    + destruct Hstep as (Hu & Hn & _ & _ & _ & Hin1).
      specialize (IH c1 Hin1). rewrite length_cons, Nat2Z.inj_succ.
      destruct (computer_loop c1 evs) as [c'|v p|e p].
      * destruct IH as (Hu' & Hn' & Hin').
        split; [congruence|]. split; [lia | exact Hin'].
      * destruct IH as [-> Hwon]. split; [exact Hu|].
        intros n Hv. destruct (Hwon n Hv) as (k & s & Hk & Hs & ->).
        exists (S k), s. split; [exact Hk|]. split; [exact Hs|]. lia.
      * destruct IH as [-> He]. split; [exact Hu | exact He].
    + destruct Hstep as [-> Hwon]. split; [reflexivity|].
      intros n Hv. destruct (Hwon n Hv) as (-> & s & -> & Hs).
      exists 0%nat, s. split; [reflexivity|]. split; [exact Hs|]. lia.
    + exact Hstep.
Qed.



End Responses.

Lemma computer_mode_invariants_witness :
  exists c',
    computer_loop (H := Ascii_text.builtins) scenario_computer_game
      [Line "h"; Line "what?"; Line " L "] = Running c'
    /\ c_attempts c' = 4
    /\ c_user c' = UserProfile.init "Player"
    /\ guess_inside c'.
Proof.
  assert (guess_inside scenario_computer_game) as Hin
    by (unfold guess_inside; simpl; lia).
  pose proof (computer_mode_invariants (H := Ascii_text.builtins)
                [Line "h"; Line "what?"; Line " L "] scenario_computer_game Hin)
    as Hinv.
  assert (computer_loop (H := Ascii_text.builtins) scenario_computer_game
            [Line "h"; Line "what?"; Line " L "]
          = Running {| c_attempts := 4; c_lo := 51; c_hi := 75; c_guess := 63;
                       c_user := UserProfile.init "Player";
                       guesses := [63; 76; 76; 50] |}) as Hrun
    by (vm_compute; reflexivity).
  rewrite Hrun in Hinv. destruct Hinv as (Hu & Hn & Hin').
  eexists. split; [exact Hrun|]. split; [exact Hn|]. split; [exact Hu|exact Hin'].
Defined.


(** ** [load_from_file]: what a file does to the attributes *)

Lemma insert_keeps {V : Type} (m : gmap string V) (k s : string) (v : V) :
  is_Some (m !! s) -> is_Some (<[k := v]> m !! s).
Proof.
  intros Hs. destruct (decide (k = s)) as [->|Hne].
  - rewrite lookup_insert_eq. eauto.
  - rewrite lookup_insert_ne by exact Hne. exact Hs.
Qed.

(** The loop over the items of [hint_style_stats], however it ends: the
    other attributes stay, no entry is removed, and only entries of the
    styles are written. *)
Lemma load_style_stats_frame (styles : list string)
    (items : list (string * json)) (a : Attributes.t) :
  let r := Attributes.load_style_stats styles a items in
  Attributes.alpha r.1 = Attributes.alpha a
  /\ Attributes.avg_attempts r.1 = Attributes.avg_attempts a
  /\ Attributes.range_size r.1 = Attributes.range_size a
  /\ Attributes.games_played r.1 = Attributes.games_played a
  /\ Attributes.hot_cold_k r.1 = Attributes.hot_cold_k a
  /\ (forall s, is_Some (Attributes.style_attempts a !! s) ->
                is_Some (Attributes.style_attempts r.1 !! s))
  /\ (forall s, is_Some (Attributes.style_avg_attempts a !! s) ->
                is_Some (Attributes.style_avg_attempts r.1 !! s))
  /\ (forall s, s ∉ styles ->
                Attributes.style_attempts r.1 !! s = Attributes.style_attempts a !! s
                /\ Attributes.style_avg_attempts r.1 !! s
                   = Attributes.style_avg_attempts a !! s).
Proof.
  revert a. induction items as [|[style stats] items IH]; intros a;
    cbn [Attributes.load_style_stats].
  - cbn. repeat apply conj; auto.
  - destruct (decide (style ∈ styles)) as [Hin|Hnot].
    2:{ rewrite bool_decide_eq_false_2 by exact Hnot. apply IH. }
    rewrite bool_decide_eq_true_2 by exact Hin.
    destruct stats as [| | | | | |ms];
      try (cbn [fst snd]; repeat apply conj; auto; fail).
    destruct (member "attempts" ms) as [ja|];
      [|cbn [fst snd]; repeat apply conj; auto].
    destruct (member "avg_attempts" ms) as [jv|].
    + match goal with
      | |- context [Attributes.load_style_stats styles ?a1 items] =>
          destruct (IH a1) as (H1 & H2 & H3 & H4 & H5 & H6 & H7 & H8)
      end.
      cbn [Attributes.set_style_attempts Attributes.set_style_avg_attempts
             Attributes.alpha Attributes.avg_attempts Attributes.range_size
             Attributes.games_played Attributes.hot_cold_k
             Attributes.style_attempts Attributes.style_avg_attempts] in *.
      repeat apply conj; try assumption.
      * intros s Hs. apply H6, insert_keeps, Hs.
      * intros s Hs. apply H7, insert_keeps, Hs.
      * intros s Hs. destruct (H8 s Hs) as [-> ->].
        split; apply lookup_insert_ne; congruence.
    + cbn [fst snd Attributes.set_style_attempts Attributes.alpha
             Attributes.avg_attempts Attributes.range_size
             Attributes.games_played Attributes.hot_cold_k
             Attributes.style_attempts Attributes.style_avg_attempts].
      repeat apply conj; auto.
      * intros s Hs. apply insert_keeps, Hs.
      * intros s Hs. split; [|reflexivity]. apply lookup_insert_ne. congruence.
Qed.

(** The loop runs to its end exactly when every item of a style can be
    read. *)
Lemma load_style_stats_finishes (styles : list string)
    (items : list (string * json)) (a : Attributes.t) :
  (Attributes.load_style_stats styles a items).2 = true
  <-> readable_stats styles items.
Proof.
  unfold readable_stats.
  revert a. induction items as [|[style stats] items IH]; intros a;
    cbn [Attributes.load_style_stats].
  - split; [intros _; constructor | reflexivity].
  - destruct (decide (style ∈ styles)) as [Hin|Hnot].
    { rewrite bool_decide_eq_true_2 by exact Hin.
      assert (forall r : Attributes.t * bool,
                r.2 = false ->
                ~ (exists ms, stats = JObject ms
                              /\ is_Some (member "attempts" ms)
                              /\ is_Some (member "avg_attempts" ms)) ->
                r.2 = true <->
                Forall (fun item : string * json =>
                          item.1 ∈ styles ->
                          exists ms, item.2 = JObject ms
                                     /\ is_Some (member "attempts" ms)
                                     /\ is_Some (member "avg_attempts" ms))
                       ((style, stats) :: items)) as Hfail.
      { intros r Hr Hno. rewrite Hr. split; [discriminate|].
        intros Hall. inversion Hall as [|x l Hx _]. subst.
        exfalso. apply Hno, Hx, Hin. }
      destruct stats as [| | | | | |ms];
        try (apply (Hfail (a, false)); [reflexivity|];
             intros (ms & Heq & _); discriminate Heq).
      destruct (member "attempts" ms) as [ja|] eqn:Hja.
      2:{ apply (Hfail (a, false)); [reflexivity|].
          intros (ms' & Heq & [x Hx] & _). injection Heq as <-.
          rewrite Hja in Hx. discriminate Hx. }
      destruct (member "avg_attempts" ms) as [jv|] eqn:Hjv.
      2:{ apply (Hfail (Attributes.set_style_attempts a style ja, false));
            [reflexivity|].
          intros (ms' & Heq & _ & [x Hx]). injection Heq as <-.
          rewrite Hjv in Hx. discriminate Hx. }
      rewrite IH. split.
      - intros Hall. constructor; [|exact Hall].
        intros _. exists ms. cbn. rewrite Hja, Hjv. eauto.
      - intros Hall. inversion Hall; assumption. }
    rewrite bool_decide_eq_false_2 by exact Hnot. rewrite IH. split.
    + intros Hall. constructor; [cbn; intros; contradiction | exact Hall].
    + intros Hall. inversion Hall; assumption.
Qed.

Lemma as_float_Some (j : json) (a : Float.float) :
  as_float j = Some a -> j = JFloat a.
Proof. destruct j; cbn; intros Heq; try discriminate Heq. congruence. Qed.

Lemma as_int_Some (j : json) (n : Z) : as_int j = Some n -> j = JInt n.
Proof. destruct j; cbn; intros Heq; try discriminate Heq. congruence. Qed.

Lemma as_num_Some (j : json) (x : pynum) : as_num j = Some x -> j = json_of_num x.
Proof.
  destruct j; cbn; intros Heq; try discriminate Heq;
    injection Heq as <-; reflexivity.
Qed.

Lemma as_optional_num_Some (j : json) (x : option pynum) :
  as_optional_num j = Some x ->
  j = match x with None => JNull | Some v => json_of_num v end.
Proof.
  destruct j; cbn; intros Heq; try discriminate Heq;
    injection Heq as <-; reflexivity.
Qed.

(** The loop on the typed dictionaries is the loop on the attributes. *)
Lemma load_style_stats_typed (items : list (string * json)) (b b' : HintBandit.t)
    (ok : bool) (a : Attributes.t) :
  UserProfile.load_style_stats b items = Some (b', ok) ->
  Attributes.load_style_stats (HintBandit.hint_styles b) (with_bandit a b) items
  = (with_bandit a b', ok)
  /\ HintBandit.hint_styles b' = HintBandit.hint_styles b
  /\ HintBandit.exploration_rate b' = HintBandit.exploration_rate b
  /\ HintBandit.total_games b' = HintBandit.total_games b.
Proof.
  revert b. induction items as [|[style stats] items IH]; intros b;
    cbn [UserProfile.load_style_stats Attributes.load_style_stats].
  - intros Heq. injection Heq as <- <-. auto.
  - destruct (bool_decide (style ∈ HintBandit.hint_styles b)); [|apply IH].
    destruct stats as [| | | | | |ms];
      try (intros Heq; injection Heq as <- <-; auto).
    destruct (member "attempts" ms) as [ja|];
      [|intros Heq; injection Heq as <- <-; auto].
    destruct (as_int ja) as [n|] eqn:Hn; cbn [mbind option_bind]; [|discriminate].
    apply as_int_Some in Hn as ->.
    destruct (member "avg_attempts" ms) as [jv|].
    + destruct (as_num jv) as [v|] eqn:Hv; cbn [mbind option_bind]; [|discriminate].
      apply as_num_Some in Hv as ->.
      intros Hload. apply IH in Hload as (Hload & Hst & Hr & Ht).
      cbn [HintBandit.hint_styles HintBandit.exploration_rate
             HintBandit.total_games] in *.
      split; [|auto]. rewrite <- Hload. f_equal.
      unfold with_bandit, Attributes.set_style_avg_attempts,
        Attributes.set_style_attempts.
      cbn [Attributes.alpha Attributes.avg_attempts Attributes.range_size
             Attributes.games_played Attributes.hot_cold_k
             Attributes.style_attempts Attributes.style_avg_attempts
             HintBandit.attempts HintBandit.avg_attempts].
      rewrite !fmap_insert. reflexivity.
    + intros Heq. injection Heq as <- <-.
      cbn [HintBandit.hint_styles HintBandit.exploration_rate
             HintBandit.total_games].
      split; [|auto]. f_equal.
      unfold with_bandit, Attributes.set_style_attempts.
      cbn [Attributes.alpha Attributes.avg_attempts Attributes.range_size
             Attributes.games_played Attributes.hot_cold_k
             Attributes.style_attempts Attributes.style_avg_attempts
             HintBandit.attempts HintBandit.avg_attempts].
      rewrite !fmap_insert. reflexivity.
Qed.

(** The typed [load_data], where it is defined, is [load_data] on the
    attributes; it leaves the username, the learner but for [k], and the
    bandit but for its two dictionaries. *)
Lemma load_data_typed (p p' : UserProfile.t) (data : json) (ok : bool) :
  UserProfile.load_data p data = Some (p', ok) ->
  Attributes.load_data (HintBandit.hint_styles (UserProfile.hint_bandit p))
    (Attributes.of_profile p) data
  = (Attributes.of_profile p', ok)
  /\ UserProfile.username p' = UserProfile.username p
  /\ HotColdLearner.target_guesses (UserProfile.hot_cold_learner p')
     = HotColdLearner.target_guesses (UserProfile.hot_cold_learner p)
  /\ HotColdLearner.learning_rate (UserProfile.hot_cold_learner p')
     = HotColdLearner.learning_rate (UserProfile.hot_cold_learner p)
  /\ HotColdLearner.history (UserProfile.hot_cold_learner p')
     = HotColdLearner.history (UserProfile.hot_cold_learner p)
  /\ HintBandit.hint_styles (UserProfile.hint_bandit p')
     = HintBandit.hint_styles (UserProfile.hint_bandit p)
  /\ HintBandit.exploration_rate (UserProfile.hint_bandit p')
     = HintBandit.exploration_rate (UserProfile.hint_bandit p)
  /\ HintBandit.total_games (UserProfile.hint_bandit p')
     = HintBandit.total_games (UserProfile.hint_bandit p).
Proof.
  unfold UserProfile.load_data, Attributes.load_data.
  destruct data as [| | | | | |ms];
    try (intros Heq; injection Heq as <- <-; auto 10).
  destruct (as_float _) as [al|] eqn:Hal; cbn [mbind option_bind]; [|discriminate].
  destruct (as_optional_num _) as [avg|] eqn:Havg; cbn [mbind option_bind];
    [|discriminate].
  destruct (as_int (default (JInt 100) _)) as [rs|] eqn:Hrs;
    cbn [mbind option_bind]; [|discriminate].
  destruct (as_int (default (JInt 0) _)) as [gp|] eqn:Hgp;
    cbn [mbind option_bind]; [|discriminate].
  apply as_float_Some in Hal. apply as_int_Some in Hrs, Hgp.
  apply as_optional_num_Some in Havg.
  rewrite Hal, Havg, Hrs, Hgp.
  assert (exists x,
            match member "hot_cold_k" ms with
            | Some jk => HotColdLearner.set_k (UserProfile.hot_cold_learner p)
                           <$> as_float jk
            | None => Some (UserProfile.hot_cold_learner p)
            end = Some (HotColdLearner.set_k (UserProfile.hot_cold_learner p) x)
            /\ default (Attributes.hot_cold_k (Attributes.of_profile p))
                 (member "hot_cold_k" ms) = JFloat x
          \/ match member "hot_cold_k" ms with
             | Some jk => HotColdLearner.set_k (UserProfile.hot_cold_learner p)
                            <$> as_float jk
             | None => Some (UserProfile.hot_cold_learner p)
             end = None) as Hk.
  { destruct (member "hot_cold_k" ms) as [jk|].
    - destruct (as_float jk) as [x|] eqn:Hx; [|exists Float.lit_0_0; right; reflexivity].
      apply as_float_Some in Hx as ->. exists x. left. cbn. auto.
    - exists (HotColdLearner.k (UserProfile.hot_cold_learner p)). left.
      split; [|reflexivity]. destruct (UserProfile.hot_cold_learner p); reflexivity. }
  destruct Hk as [x [[-> Hkx]| ->]]; cbn [mbind option_bind]; [|discriminate].
  rewrite Hkx.
  destruct (member "hint_style_stats" ms) as [stats|].
  2:{ intros Heq. injection Heq as <- <-. cbn. auto 10. }
  destruct stats as [| | | | | |items];
    try (intros Heq; injection Heq as <- <-; cbn; auto 10).
  destruct (UserProfile.load_style_stats _ items) as [[b fin]|] eqn:Hload;
    cbn [mbind option_bind]; [|discriminate].
  intros Heq. injection Heq as <- <-.
  match goal with
  | |- Attributes.load_style_stats _ ?a1 items = _ /\ _ =>
      apply (load_style_stats_typed items _ b fin a1) in Hload
        as (Hload & Hst & Hr & Ht)
  end.
  cbn. split; [|auto 10]. exact Hload.
Qed.

(** X8. Whatever the file name leads to, and whatever the types of the
    values in the file, [load_from_file] removes no entry of the two
    dictionaries of the bandit and writes no entry for a string that is
    not a hint style: unknown styles in the file are ignored. When the
    name leads to no file, to a file that is not JSON, or to a JSON value
    that is not an object, no attribute is changed and the value returned
    is [False]. (The method assigns to no other attribute than the seven
    of [Attributes.t].) *)
Theorem load_keeps_structure (styles : list string) (a : Attributes.t)
    (found : option file) :
  let r := Attributes.load_from_file styles a found in
  (forall s, is_Some (Attributes.style_attempts a !! s) ->
             is_Some (Attributes.style_attempts r.1 !! s))
  /\ (forall s, is_Some (Attributes.style_avg_attempts a !! s) ->
                is_Some (Attributes.style_avg_attempts r.1 !! s))
  /\ (forall s, s ∉ styles ->
                Attributes.style_attempts r.1 !! s = Attributes.style_attempts a !! s
                /\ Attributes.style_avg_attempts r.1 !! s
                   = Attributes.style_avg_attempts a !! s)
  /\ match found with
     | Some (Json (JObject _)) => True
     | _ => r = (a, false)
     end.
Proof.
  unfold Attributes.load_from_file.
  destruct found as [[|data]|]; cbn zeta; [auto| |auto].
  unfold Attributes.load_data.
  destruct data as [| | | | | |ms]; cbn [fst snd]; auto.
  destruct (member "hint_style_stats" ms) as [stats|];
    [|cbn; auto].
  destruct stats as [| | | | | |items]; try (cbn; auto; fail).
  match goal with
  | |- context [Attributes.load_style_stats styles ?a1 items] =>
      destruct (load_style_stats_frame styles items a1)
        as (_ & _ & _ & _ & _ & H6 & H7 & H8)
  end.
  cbn [Attributes.style_attempts Attributes.style_avg_attempts] in *.
  auto.
Qed.

(** X9. When the name leads to a JSON object, each scalar attribute is,
    after [load_from_file], the member of that name, of whatever type, or
    its default when the member is missing: 0.5 for [alpha], [None] for
    [avg_attempts], 100 for [range_size], 0 for [games_played], while a
    missing [hot_cold_k] leaves [k] as it was. This holds also when the
    call returns [False]: the attributes assigned before the exception
    stay assigned. The call returns [True] exactly when the member
    [hint_style_stats] is missing, or is an object whose every item for a
    hint style is an object with the keys [attempts] and
    [avg_attempts]; without the member the dictionaries are
    unchanged. *)
Theorem load_reads_fields (styles : list string) (a : Attributes.t)
    (found : option file) (ms : list (string * json)) :
  found = Some (Json (JObject ms)) ->
  let r := Attributes.load_from_file styles a found in
  Attributes.alpha r.1 = default (JFloat Float.lit_0_5) (member "alpha" ms)
  /\ Attributes.avg_attempts r.1 = default JNull (member "avg_attempts" ms)
  /\ Attributes.range_size r.1 = default (JInt 100) (member "range_size" ms)
  /\ Attributes.games_played r.1 = default (JInt 0) (member "games_played" ms)
  /\ Attributes.hot_cold_k r.1
     = default (Attributes.hot_cold_k a) (member "hot_cold_k" ms)
  /\ (r.2 = true <->
      match member "hint_style_stats" ms with
      | None => True
      | Some (JObject items) => readable_stats styles items
      | Some _ => False
      end)
  /\ (member "hint_style_stats" ms = None ->
      Attributes.style_attempts r.1 = Attributes.style_attempts a
      /\ Attributes.style_avg_attempts r.1 = Attributes.style_avg_attempts a).
Proof.
  intros ->. unfold Attributes.load_from_file, Attributes.load_data. cbn zeta.
  destruct (member "hint_style_stats" ms) as [stats|].
  2:{ cbn. repeat apply conj; auto; reflexivity. }
  assert (false = true <-> False) as Hff by (split; [discriminate|contradiction]).
  destruct stats as [| | | | | |items];
    try (cbn; repeat split; auto; try discriminate; try contradiction; fail).
  match goal with
  | |- context [Attributes.load_style_stats styles ?a1 items] =>
      destruct (load_style_stats_frame styles items a1)
        as (H1 & H2 & H3 & H4 & H5 & _);
      pose proof (load_style_stats_finishes styles items a1) as Hfin
  end.
  cbn [Attributes.alpha Attributes.avg_attempts Attributes.range_size
         Attributes.games_played Attributes.hot_cold_k] in *.
  split; [exact H1|]. split; [exact H2|]. split; [exact H3|].
  split; [exact H4|]. split; [exact H5|]. split; [exact Hfin|].
  intros Hnone. discriminate Hnone.
Qed.

Lemma load_reads_fields_witness :
  exists a',
    Attributes.load_from_file UserProfile.styles
      (Attributes.of_profile (UserProfile.init "Player"))
      (Some (Json (JObject [("alpha", JInt 1);
                            ("games_played", JString "many");
                            ("hint_style_stats",
                              JObject [("range", JObject [("attempts", JNull)])])])))
    = (a', false)
    /\ Attributes.alpha a' = JInt 1
    /\ Attributes.games_played a' = JString "many"
    /\ Attributes.range_size a' = JInt 100.
Proof.
  pose (found := Some (Json (JObject [("alpha", JInt 1);
                                      ("games_played", JString "many");
                                      ("hint_style_stats",
                                        JObject [("range",
                                                  JObject [("attempts", JNull)])])]))).
  pose proof (load_reads_fields UserProfile.styles
                (Attributes.of_profile (UserProfile.init "Player")) found _ eq_refl)
    as (Ha & _ & Hrs & Hgp & _).
  destruct (Attributes.load_from_file UserProfile.styles
              (Attributes.of_profile (UserProfile.init "Player")) found)
    as [a' ok] eqn:Hload.
  assert (ok = false) as ->.
  { clear -Hload. vm_compute in Hload. injection Hload as _ <-. reflexivity. }
  exists a'. auto.
Defined.

(** X18. Where the typed [load_from_file] of the embedding is defined,
    that is, when every value the file assigns has the type of its field,
    it is [load_from_file] on the attributes: the profile after the call
    has the attributes that the method assigns, and the value returned is
    the same. The username, the learner's target, rate and history, and
    the bandit's styles, exploration rate and [total_games] are as
    before. *)
Theorem typed_load_agrees {F : FileSystem} (p p' : UserProfile.t) (fs : files)
    (ok : bool) :
  OnDisk.load_from_file p fs = Some (p', ok) ->
  Attributes.load_from_file
    (HintBandit.hint_styles (UserProfile.hint_bandit p))
    (Attributes.of_profile p)
    (OnDisk.found (UserProfile.filename (UserProfile.username p)) fs)
  = (Attributes.of_profile p', ok)
  /\ UserProfile.username p' = UserProfile.username p
  /\ HotColdLearner.target_guesses (UserProfile.hot_cold_learner p')
     = HotColdLearner.target_guesses (UserProfile.hot_cold_learner p)
  /\ HotColdLearner.learning_rate (UserProfile.hot_cold_learner p')
     = HotColdLearner.learning_rate (UserProfile.hot_cold_learner p)
  /\ HotColdLearner.history (UserProfile.hot_cold_learner p')
     = HotColdLearner.history (UserProfile.hot_cold_learner p)
  /\ HintBandit.hint_styles (UserProfile.hint_bandit p')
     = HintBandit.hint_styles (UserProfile.hint_bandit p)
  /\ HintBandit.exploration_rate (UserProfile.hint_bandit p')
     = HintBandit.exploration_rate (UserProfile.hint_bandit p)
  /\ HintBandit.total_games (UserProfile.hint_bandit p')
     = HintBandit.total_games (UserProfile.hint_bandit p).
Proof.
  unfold OnDisk.load_from_file, Attributes.load_from_file.
  destruct (OnDisk.found _ fs) as [[|data]|];
    try (intros Heq; injection Heq as <- <-; auto 10).
  apply load_data_typed.
Qed.

Lemma typed_load_agrees_witness :
  exists p',
    OnDisk.load_from_file (F := Flat.file_system) (UserProfile.init "Player")
      {[ "user_Player.json" :=
           Json (JObject
                   [("alpha", JFloat Float.lit_0_9);
                    ("hint_style_stats",
                      JObject [("bogus", JObject [("attempts", JInt 5)]);
                               ("range", JObject [("attempts", JInt 2)])])]) ]}
    = Some (p', false)
    /\ UserProfile.username p' = "Player"
    /\ Attributes.of_profile p'
       = (Attributes.load_from_file UserProfile.styles
            (Attributes.of_profile (UserProfile.init "Player"))
            (Some (Json (JObject
                   [("alpha", JFloat Float.lit_0_9);
                    ("hint_style_stats",
                      JObject [("bogus", JObject [("attempts", JInt 5)]);
                               ("range", JObject [("attempts", JInt 2)])])])))).1.
Proof.
  pose (fs := ({[ "user_Player.json" :=
           Json (JObject
                   [("alpha", JFloat Float.lit_0_9);
                    ("hint_style_stats",
                      JObject [("bogus", JObject [("attempts", JInt 5)]);
                               ("range", JObject [("attempts", JInt 2)])])]) ]}
               : files)).
  destruct (OnDisk.load_from_file (F := Flat.file_system)
              (UserProfile.init "Player") fs) as [[p' ok]|] eqn:Hload.
  - pose proof (typed_load_agrees (F := Flat.file_system) _ _ _ _ Hload)
      as (Hattrs & Hname & _).
    assert (ok = false) as ->.
    { clear -Hload. vm_compute in Hload. injection Hload as _ <-. reflexivity. }
    exists p'. split; [exact Hload|]. split; [exact Hname|].
    assert (OnDisk.found (F := Flat.file_system)
              (UserProfile.filename (UserProfile.username (UserProfile.init "Player")))
              fs
            = Some (Json (JObject
                   [("alpha", JFloat Float.lit_0_9);
                    ("hint_style_stats",
                      JObject [("bogus", JObject [("attempts", JInt 5)]);
                               ("range", JObject [("attempts", JInt 2)])])])))
      as Hfound by (vm_compute; reflexivity).
    rewrite Hfound in Hattrs.
    change (HintBandit.hint_styles (UserProfile.hint_bandit (UserProfile.init "Player")))
      with UserProfile.styles in Hattrs.
    rewrite Hattrs. reflexivity.
  - exfalso. vm_compute in Hload. discriminate Hload.
Defined.

(** ** Saving what was loaded, and restarting *)

Lemma all_style_stats_ext (b b' : HintBandit.t) (seq : list string) :
  (forall s, s ∈ seq ->
             HintBandit.attempts b' !! s = HintBandit.attempts b !! s
             /\ HintBandit.avg_attempts b' !! s = HintBandit.avg_attempts b !! s) ->
  UserProfile.all_style_stats b' seq = UserProfile.all_style_stats b seq.
Proof.
  induction seq as [|s seq IH]; intros Heq; [reflexivity|].
  cbn [UserProfile.all_style_stats]. unfold UserProfile.style_stats, HintBandit.getitem.
  destruct (Heq s) as [-> ->]; [apply elem_of_cons; auto|].
  rewrite IH; [reflexivity|]. intros s' Hs'. apply Heq, elem_of_cons. auto.
Qed.

(** The record written for [p], read into [q]: every persisted field is
    the one of [p], the rest is the one of [q]. *)
Lemma saved_record_loads (p q : UserProfile.t) :
  covers (UserProfile.hint_bandit p) ->
  HintBandit.hint_styles (UserProfile.hint_bandit q)
  = HintBandit.hint_styles (UserProfile.hint_bandit p) ->
  exists data b',
    UserProfile.to_json p = Ok data
    /\ UserProfile.load_data q data
       = Some ({| UserProfile.username := UserProfile.username q;
                  UserProfile.alpha := UserProfile.alpha p;
                  UserProfile.avg_attempts := UserProfile.avg_attempts p;
                  UserProfile.range_size := UserProfile.range_size p;
                  UserProfile.games_played := UserProfile.games_played p;
                  UserProfile.hot_cold_learner :=
                    HotColdLearner.set_k (UserProfile.hot_cold_learner q)
                      (HotColdLearner.k (UserProfile.hot_cold_learner p));
                  UserProfile.hint_bandit := b' |}, true)
    /\ HintBandit.hint_styles b' = HintBandit.hint_styles (UserProfile.hint_bandit q)
    /\ HintBandit.exploration_rate b'
       = HintBandit.exploration_rate (UserProfile.hint_bandit q)
    /\ HintBandit.total_games b' = HintBandit.total_games (UserProfile.hint_bandit q)
    /\ forall s, s ∈ HintBandit.hint_styles (UserProfile.hint_bandit p) ->
         HintBandit.attempts b' !! s
         = HintBandit.attempts (UserProfile.hint_bandit p) !! s
         /\ HintBandit.avg_attempts b' !! s
            = HintBandit.avg_attempts (UserProfile.hint_bandit p) !! s.
Proof.
  intros Hcov Hstyles.
  destruct (all_style_stats_items (UserProfile.hint_bandit p)
              (HintBandit.hint_styles (UserProfile.hint_bandit p)) Hcov)
    as (items & Hitems & Hall).
  destruct (load_style_stats_items (UserProfile.hint_bandit p) _ items
              (UserProfile.hint_bandit q) Hall) as (b' & Hload & Hst & Hlook).
  { intros s Hs. rewrite Hstyles. exact Hs. }
  pose proof (load_style_stats_typed _ _ _ _ (Attributes.of_profile q) Hload)
    as (_ & _ & Hrate & Htot).
  unfold UserProfile.to_json. rewrite Hitems. cbn [rbind].
  eexists. exists b'. split; [reflexivity|]. unfold UserProfile.load_data.
  cbn [member String.eqb Ascii.eqb Bool.eqb andb default id as_float as_int
         mbind option_bind fmap option_fmap option_map].
  assert (as_optional_num
            match UserProfile.avg_attempts p with
            | Some x => json_of_num x
            | None => JNull
            end = Some (UserProfile.avg_attempts p)) as ->.
  { destruct (UserProfile.avg_attempts p) as [[n|f]|]; reflexivity. }
  cbn [mbind option_bind]. rewrite Hload. cbn [mbind option_bind].
  split; [reflexivity|]. split; [exact Hst|]. split; [exact Hrate|].
  split; [exact Htot|]. intros s Hs. destruct (Hlook s) as [Ha Hv].
  rewrite bool_decide_eq_true_2 in Ha, Hv by exact Hs. auto.
Qed.

(** Saving a profile whose record can be built and written, on a name
    that opens: the file opened holds the record. *)
Lemma save_to_file_writes {F : FileSystem} (p : UserProfile.t) (fs : files)
    (path : string) (data : json) :
  UserProfile.to_json p = Ok data ->
  open_w (UserProfile.filename (UserProfile.username p)) = Ok path ->
  dumpable data = true ->
  OnDisk.save_to_file p fs = (<[path := Json data]> fs, None).
Proof.
  intros Hjson Hopen Hdump. unfold OnDisk.save_to_file.
  rewrite Hjson, Hopen, Hdump. reflexivity.
Qed.

(** X10. On a name that opens for writing and leads afterwards to the file
    opened, for a profile whose record [json.dump] accepts: saving the
    profile, loading the file into a profile of the same username and
    styles, and saving what was loaded writes the file that is already
    there. The three calls return, the load with [True], and the disk after
    the second save is the disk after the first. *)
Theorem save_load_save {F : FileSystem} (p q : UserProfile.t) (fs : files)
    (path : string) :
  covers (UserProfile.hint_bandit p) ->
  UserProfile.username q = UserProfile.username p ->
  HintBandit.hint_styles (UserProfile.hint_bandit q)
  = HintBandit.hint_styles (UserProfile.hint_bandit p) ->
  open_w (UserProfile.filename (UserProfile.username p)) = Ok path ->
  locate (UserProfile.filename (UserProfile.username p)) = Some path ->
  dumps p ->
  exists fs' q',
    OnDisk.save_to_file p fs = (fs', None)
    /\ OnDisk.load_from_file q fs' = Some (q', true)
    /\ OnDisk.save_to_file q' fs' = (fs', None).
Proof.
  intros Hcov Hname Hstyles Hopen Hlocate Hdumps.
  destruct (saved_record_loads p q Hcov Hstyles)
    as (data & b' & Hjson & Hload & Hst & _ & _ & Hlook).
  set (q' := {| UserProfile.username := UserProfile.username q;
                UserProfile.alpha := UserProfile.alpha p;
                UserProfile.avg_attempts := UserProfile.avg_attempts p;
                UserProfile.range_size := UserProfile.range_size p;
                UserProfile.games_played := UserProfile.games_played p;
                UserProfile.hot_cold_learner :=
                  HotColdLearner.set_k (UserProfile.hot_cold_learner q)
                    (HotColdLearner.k (UserProfile.hot_cold_learner p));
                UserProfile.hint_bandit := b' |}) in *.
  assert (UserProfile.to_json q' = Ok data) as Hjson'.
  { rewrite <- Hjson. unfold UserProfile.to_json, q'.
    cbn [UserProfile.hint_bandit UserProfile.username UserProfile.alpha
           UserProfile.avg_attempts UserProfile.range_size
           UserProfile.games_played UserProfile.hot_cold_learner
           HotColdLearner.k HotColdLearner.set_k].
    rewrite Hst, Hstyles, Hname.
    rewrite (all_style_stats_ext (UserProfile.hint_bandit p) b' _ Hlook).
    reflexivity. }
  pose proof (Hdumps data Hjson) as Hdump.
  exists (<[path := Json data]> fs), q'.
  split; [apply save_to_file_writes; assumption|]. split.
  - unfold OnDisk.load_from_file, OnDisk.found. rewrite Hname, Hlocate.
    cbn [mbind option_bind]. rewrite lookup_insert_eq. exact Hload.
  - rewrite (save_to_file_writes q' _ path data Hjson'); [|rewrite <- Hopen|exact Hdump].
    + rewrite insert_insert_eq. reflexivity.
    + unfold q'. cbn [UserProfile.username]. rewrite Hname. reflexivity.
Qed.

Lemma save_load_save_witness :
  exists fs' q',
    OnDisk.save_to_file (F := Flat.file_system)
      (set_stats (UserProfile.init "Player") (Some (PInt 3)) 1 120) ∅ = (fs', None)
    /\ OnDisk.load_from_file (F := Flat.file_system) (UserProfile.init "Player") fs'
       = Some (q', true)
    /\ OnDisk.save_to_file (F := Flat.file_system) q' fs' = (fs', None).
Proof.
  apply (save_load_save (F := Flat.file_system)
           (set_stats (UserProfile.init "Player") (Some (PInt 3)) 1 120)
           (UserProfile.init "Player") ∅ "user_Player.json").
  - apply init_covers.
  - reflexivity.
  - reflexivity.
  - reflexivity.
  - reflexivity.
  - intros data Hjson. vm_compute in Hjson. injection Hjson as <-.
    vm_compute. reflexivity.
Defined.

(** ** [save_to_file]: its outcomes *)

Lemma all_style_stats_covers (b : HintBandit.t) (seq : list string)
    (items : list (string * json)) :
  UserProfile.all_style_stats b seq = Ok items ->
  forall s, s ∈ seq -> is_Some (HintBandit.attempts b !! s)
                       /\ is_Some (HintBandit.avg_attempts b !! s).
Proof.
  revert items. induction seq as [|x seq IH]; intros items;
    cbn [UserProfile.all_style_stats].
  - intros _ s Hs. apply elem_of_nil in Hs. contradiction.
  - unfold UserProfile.style_stats, HintBandit.getitem.
    destruct (HintBandit.attempts b !! x) as [a|] eqn:Ha; cbn [rbind];
      [|discriminate].
    destruct (HintBandit.avg_attempts b !! x) as [v|] eqn:Hv; cbn [rbind];
      [|discriminate].
    destruct (UserProfile.all_style_stats b seq) as [rest|e] eqn:Hrest;
      cbn [rbind]; [|discriminate].
    intros _ s Hs. apply elem_of_cons in Hs as [->|Hs].
    + rewrite Ha, Hv. eauto.
    + apply (IH rest eq_refl s Hs).
Qed.

Lemma all_style_stats_raises (b : HintBandit.t) (seq : list string) (e : exn) :
  UserProfile.all_style_stats b seq = Raise e ->
  exists s, s ∈ seq /\ e = KeyError s
            /\ (HintBandit.attempts b !! s = None
                \/ HintBandit.avg_attempts b !! s = None).
Proof.
  induction seq as [|s seq IH]; cbn [UserProfile.all_style_stats]; [discriminate|].
  unfold UserProfile.style_stats, HintBandit.getitem.
  destruct (HintBandit.attempts b !! s) as [a|] eqn:Ha; cbn [rbind].
  - destruct (HintBandit.avg_attempts b !! s) as [v|] eqn:Hv; cbn [rbind].
    + destruct (UserProfile.all_style_stats b seq) as [items|e'] eqn:Hrest;
        cbn [rbind]; [discriminate|].
      intros Heq. injection Heq as ->. destruct (IH eq_refl) as (s' & Hs' & He & Hnone).
      exists s'. split; [apply elem_of_cons; auto | auto].
    + intros Heq. injection Heq as <-. exists s.
      split; [apply elem_of_cons; auto | auto].
  - intros Heq. injection Heq as <-. exists s.
    split; [apply elem_of_cons; auto | auto].
Qed.

(** The record of a profile can be built exactly when every style has its
    two entries. *)
Lemma to_json_covers (p : UserProfile.t) :
  covers (UserProfile.hint_bandit p)
  <-> exists data, UserProfile.to_json p = Ok data.
Proof.
  unfold UserProfile.to_json. split.
  - intros Hcov. destruct (all_style_stats_items _ _ Hcov) as (items & -> & _).
    cbn [rbind]. eauto.
  - intros [data Hjson].
    destruct (UserProfile.all_style_stats _ _) as [items|e] eqn:Hitems;
      cbn [rbind] in Hjson; [|discriminate Hjson].
    exact (all_style_stats_covers _ _ _ Hitems).
Qed.

Lemma save_to_file_other {F : FileSystem} (p : UserProfile.t) (fs : files)
    (path : string) :
  open_w (UserProfile.filename (UserProfile.username p)) <> Ok path ->
  (OnDisk.save_to_file p fs).1 !! path = fs !! path.
Proof.
  intros Hne. unfold OnDisk.save_to_file.
  destruct (UserProfile.to_json p) as [data|e]; [|reflexivity].
  destruct (open_w _) as [path'|e]; [|reflexivity].
  destruct (dumpable data); cbn [fst returned raised];
    apply lookup_insert_ne; congruence.
Qed.

(** X17. The outcomes of [save_to_file]. It returns exactly when every
    hint style has its entry in both dictionaries, [open] returns, and
    [json.dump] accepts the record; the file opened then holds the record.
    It raises [KeyError] for a style that lacks an entry, before the file
    is opened, or the exception of [open]: the disk is then as it was. It
    raises the [ValueError] of [json.dump], on an [int] of more than 4300
    digits, after [open] has emptied the file, which is left without a
    JSON text. Whatever the outcome, no file but the one [open] opens is
    changed. *)
Theorem save_to_file_outcomes {F : FileSystem} (p : UserProfile.t) (fs : files) :
  let name := UserProfile.filename (UserProfile.username p) in
  let r := OnDisk.save_to_file p fs in
  (r.2 = None <->
   covers (UserProfile.hint_bandit p)
   /\ (exists path, open_w name = Ok path) /\ dumps p)
  /\ (r.2 = None ->
      exists path data,
        open_w name = Ok path /\ UserProfile.to_json p = Ok data
        /\ r.1 = <[path := Json data]> fs)
  /\ (forall e, r.2 = Some e ->
        (exists s, s ∈ HintBandit.hint_styles (UserProfile.hint_bandit p)
                   /\ e = KeyError s
                   /\ (HintBandit.attempts (UserProfile.hint_bandit p) !! s = None
                       \/ HintBandit.avg_attempts (UserProfile.hint_bandit p) !! s
                          = None)
                   /\ r.1 = fs)
        \/ (covers (UserProfile.hint_bandit p)
            /\ open_w name = Raise e /\ r.1 = fs)
        \/ (covers (UserProfile.hint_bandit p)
            /\ e = ValueError /\ ~ dumps p
            /\ exists path, open_w name = Ok path
                            /\ r.1 = <[path := NotJson]> fs))
  /\ (forall path, open_w name <> Ok path -> r.1 !! path = fs !! path).
Proof.
  cbn zeta. split; [|split; [|split]].
  4:{ intros path. apply save_to_file_other. }
  all: pose proof (to_json_covers p) as Hcov;
    unfold dumps, OnDisk.save_to_file;
    destruct (UserProfile.to_json p) as [data|e0] eqn:Hjson.
  - destruct (open_w _) as [path|e1] eqn:Hopen.
    + destruct (dumpable data) eqn:Hdump; cbn [snd returned raised].
      * split; [intros _|reflexivity].
        split; [apply Hcov; eauto|]. split; [eauto|].
        intros data' Heq. injection Heq as <-. exact Hdump.
      * split; [discriminate|]. intros (_ & _ & Hd).
        rewrite (Hd data eq_refl) in Hdump. discriminate Hdump.
    + cbn [snd raised]. split; [discriminate|].
      intros (_ & [path Hpath] & _). discriminate Hpath.
  - cbn [snd raised]. split; [discriminate|].
    intros (Hc & _). apply Hcov in Hc as [data Hdata]. discriminate Hdata.
  - destruct (open_w _) as [path|e1] eqn:Hopen.
    + destruct (dumpable data) eqn:Hdump; cbn [fst snd returned raised].
      * intros _. exists path, data. auto.
      * discriminate.
    + cbn [snd raised]. discriminate.
  - cbn [snd raised]. discriminate.
  - intros e. destruct (open_w _) as [path|e1] eqn:Hopen.
    + destruct (dumpable data) eqn:Hdump; cbn [fst snd returned raised].
      * discriminate.
      * intros Heq. injection Heq as <-. right. right.
        split; [apply Hcov; eauto|]. split; [reflexivity|].
        split; [|eauto].
        intros Hd. rewrite (Hd data eq_refl) in Hdump. discriminate Hdump.
    + cbn [fst snd raised]. intros Heq. injection Heq as <-. right. left.
      split; [apply Hcov; eauto|]. auto.
  - intros e. cbn [fst snd raised]. intros Heq. injection Heq as <-. left.
    unfold UserProfile.to_json in Hjson.
    destruct (UserProfile.all_style_stats _ _) as [items|e'] eqn:Hitems;
      cbn [rbind] in Hjson; [discriminate Hjson|].
    injection Hjson as <-.
    destruct (all_style_stats_raises _ _ _ Hitems) as (s & Hs & He & Hnone).
    exists s. auto.
Qed.

Lemma save_to_file_outcomes_witness :
  let r := OnDisk.save_to_file (F := Flat.file_system) (UserProfile.init "a/b")
             {[ "user_a.json" := NotJson ]} in
  r.2 = Some OSError
  /\ open_w (FileSystem := Flat.file_system) "user_a/b.json" = Raise OSError
  /\ r.1 = {[ "user_a.json" := NotJson ]}.
Proof.
  cbn zeta.
  destruct (save_to_file_outcomes (F := Flat.file_system) (UserProfile.init "a/b")
              {[ "user_a.json" := NotJson ]}) as (_ & _ & Hraise & _).
  assert ((OnDisk.save_to_file (F := Flat.file_system) (UserProfile.init "a/b")
             {[ "user_a.json" := NotJson ]}).2 = Some OSError) as Hexc
    by (vm_compute; reflexivity).
  split; [exact Hexc|].
  destruct (Hraise OSError Hexc)
    as [(s & _ & He & _) | [(_ & Hopen & Hdisk) | (_ & He & _)]].
  - discriminate He.
  - split; [exact Hopen | exact Hdisk].
  - discriminate He.
Defined.

(** ** [main]: quitting and restarting *)

Section Restart.

Context `{Builtins} {F : FileSystem}.
Variable rng : nat -> game_draws.

Lemma main_quits (fs : files) (n : nat) (p : UserProfile.t) (s : string) :
  py_strip s = "5" ->
  main_step rng {| disk := fs; games_started := n; at_prompt := AtMenu p |} (Line s)
  = {| disk := (OnDisk.save_to_file p fs).1; games_started := n;
       at_prompt := match (OnDisk.save_to_file p fs).2 with
                    | None => Exited
                    | Some e => Died e
                    end |}.
Proof.
  intros Hs. unfold main_step. cbn [at_prompt input disk games_started].
  rewrite Hs. cbn. destruct (OnDisk.save_to_file p fs) as [fs' exc]. reflexivity.
Qed.

(** X11. Quitting with the menu choice 5 saves the profile, when its
    record can be built and written. If [open] returns, and the name leads
    afterwards to the file opened, the run ends, and a new run of [main]
    under the same username starts from the file: [alpha],
    [avg_attempts], [range_size], [games_played], [k] and the statistics
    of every hint style are those of the profile that quit, while what is
    not in the file starts afresh, the learner's history empty and the
    bandit's [total_games] 0. If [open] raises, the process dies of that
    exception and the disk is as it was. The username is one that [strip]
    leaves as it is. *)
Theorem quit_and_restart (rng' : nat -> game_draws) (fs : files) (n : nat)
    (p : UserProfile.t) (s : string) :
  covers (UserProfile.hint_bandit p) ->
  HintBandit.hint_styles (UserProfile.hint_bandit p) = UserProfile.styles ->
  py_strip (UserProfile.username p) = UserProfile.username p ->
  UserProfile.username p <> "" ->
  dumps p ->
  py_strip s = "5" ->
  let quit :=
    main_step rng {| disk := fs; games_started := n; at_prompt := AtMenu p |}
      (Line s) in
  match open_w (UserProfile.filename (UserProfile.username p)) with
  | Raise e => quit = {| disk := fs; games_started := n; at_prompt := Died e |}
  | Ok path =>
      locate (UserProfile.filename (UserProfile.username p)) = Some path ->
      exists fs' q,
        quit = {| disk := fs'; games_started := n; at_prompt := Exited |}
        /\ main rng' fs' [Line (UserProfile.username p)]
           = {| disk := fs'; games_started := 0%nat; at_prompt := AtMenu q |}
        /\ UserProfile.username q = UserProfile.username p
        /\ UserProfile.alpha q = UserProfile.alpha p
        /\ UserProfile.avg_attempts q = UserProfile.avg_attempts p
        /\ UserProfile.range_size q = UserProfile.range_size p
        /\ UserProfile.games_played q = UserProfile.games_played p
        /\ HotColdLearner.k (UserProfile.hot_cold_learner q)
           = HotColdLearner.k (UserProfile.hot_cold_learner p)
        /\ (forall s, s ∈ UserProfile.styles ->
              HintBandit.attempts (UserProfile.hint_bandit q) !! s
              = HintBandit.attempts (UserProfile.hint_bandit p) !! s
              /\ HintBandit.avg_attempts (UserProfile.hint_bandit q) !! s
                 = HintBandit.avg_attempts (UserProfile.hint_bandit p) !! s)
        /\ HotColdLearner.history (UserProfile.hot_cold_learner q) = []
        /\ HintBandit.total_games (UserProfile.hint_bandit q) = 0
  end.
Proof.
  intros Hcov Hstyles Hstrip Hne Hdumps Hs. cbn zeta.
  rewrite (main_quits fs n p s Hs).
  destruct (saved_record_loads p (UserProfile.init (UserProfile.username p)) Hcov)
    as (data & b' & Hjson & Hload & _ & _ & Htot & Hlook).
  { rewrite Hstyles. reflexivity. }
  destruct (open_w _) as [path|e] eqn:Hopen.
  - intros Hlocate.
    rewrite (save_to_file_writes p fs path data Hjson Hopen (Hdumps data Hjson)).
    cbn [fst snd]. eexists. eexists. split; [reflexivity|]. split.
    + unfold main. cbn [fold_left]. unfold main_step.
      cbn [at_prompt input disk games_started]. rewrite Hstrip.
      destruct (String.eqb_spec (UserProfile.username p) ""); [contradiction|].
      unfold AdaptiveGame.init, OnDisk.load_from_file, OnDisk.found.
      cbn [UserProfile.username UserProfile.init]. rewrite Hlocate.
      cbn [mbind option_bind]. rewrite lookup_insert_eq, Hload. reflexivity.
    + cbn. rewrite Hstyles in Hlook. repeat (split; [reflexivity|]).
      split; [exact Hlook|]. split; [reflexivity|exact Htot].
  - unfold OnDisk.save_to_file. rewrite Hjson, Hopen. reflexivity.
Qed.

End Restart.

Lemma quit_and_restart_witness :
  (exists fs' q,
     main (H := Ascii_text.builtins) (F := Flat.file_system)
       (fun _ => scenario_draws {| explore_draw := Float.lit_0_5; choice_draw := 0 |})
       ∅ [Line "ann"; Line "5"]
     = {| disk := fs'; games_started := 0%nat; at_prompt := Exited |}
     /\ main (H := Ascii_text.builtins) (F := Flat.file_system)
          (fun _ => scenario_draws {| explore_draw := Float.lit_0_5; choice_draw := 0 |})
          fs' [Line "ann"]
        = {| disk := fs'; games_started := 0%nat; at_prompt := AtMenu q |}
     /\ UserProfile.range_size q = 100)
  /\ main (H := Ascii_text.builtins) (F := Flat.file_system)
       (fun _ => scenario_draws {| explore_draw := Float.lit_0_5; choice_draw := 0 |})
       ∅ [Line "a/b"; Line "5"]
     = {| disk := ∅; games_started := 0%nat; at_prompt := Died OSError |}.
Proof.
  pose (rng := fun _ : nat => scenario_draws
                 {| explore_draw := Float.lit_0_5; choice_draw := 0 |}).
  assert (forall name, dumps (UserProfile.init name)) as Hdumps.
  { intros name data Hjson. vm_compute in Hjson. injection Hjson as <-.
    reflexivity. }
  split.
  - pose proof (quit_and_restart (H := Ascii_text.builtins) (F := Flat.file_system)
                  rng rng ∅ 0%nat (UserProfile.init "ann") "5") as Hquit.
    cbn zeta in Hquit.
    change (open_w (UserProfile.filename
                      (UserProfile.username (UserProfile.init "ann"))))
      with (Ok (A := string) "user_ann.json") in Hquit.
    destruct Hquit as (fs' & q & Hquit & Hstart & _ & _ & _ & Hrange & _).
    + apply init_covers.
    + reflexivity.
    + reflexivity.
    + intros Heq. discriminate Heq.
    + apply Hdumps.
    + reflexivity.
    + reflexivity.
    + exists fs', q. split; [|split; [exact Hstart | exact Hrange]].
      unfold main. cbn [fold_left].
      rewrite (main_reads_username _ _ "ann") by (reflexivity || discriminate).
      exact Hquit.
  - pose proof (quit_and_restart (H := Ascii_text.builtins) (F := Flat.file_system)
                  rng rng ∅ 0%nat (UserProfile.init "a/b") "5") as Hquit.
    cbn zeta in Hquit.
    change (open_w (UserProfile.filename
                      (UserProfile.username (UserProfile.init "a/b"))))
      with (Raise (A := string) OSError) in Hquit.
    unfold main. cbn [fold_left].
    rewrite (main_reads_username _ _ "a/b") by (reflexivity || discriminate).
    apply Hquit.
    + apply init_covers.
    + reflexivity.
    + reflexivity.
    + intros Heq. discriminate Heq.
    + apply Hdumps.
    + reflexivity.
Defined.

(** ** [main]: the files it writes *)

Lemma load_username {F : FileSystem} (p p' : UserProfile.t) (fs : files)
    (ok : bool) :
  OnDisk.load_from_file p fs = Some (p', ok) ->
  UserProfile.username p' = UserProfile.username p.
Proof.
  unfold OnDisk.load_from_file.
  destruct (OnDisk.found _ fs) as [[|data]|];
    try (intros Heq; injection Heq as <- _; reflexivity).
  intros Hload. apply load_data_typed in Hload as (_ & Hname & _). exact Hname.
Qed.

Lemma update_user_stats_username (p : UserProfile.t) (n : Z) :
  UserProfile.username (update_user_stats p n).1 = UserProfile.username p.
Proof.
  unfold update_user_stats.
  destruct (match UserProfile.avg_attempts p with
            | Some old => HintBandit.blend old n
            | None => Ok (PInt n)
            end) as [avg|e]; [|reflexivity].
  destruct (adjust_range _ _); reflexivity.
Qed.

Lemma finish_user_game_username (p : UserProfile.t) (style : string) (n : Z) :
  UserProfile.username (finish_user_game p style n).1 = UserProfile.username p.
Proof.
  unfold finish_user_game.
  destruct (HotColdLearner.record_game _ n) as [l [e|]]; [reflexivity|].
  cbn [and_then].
  destruct (HintBandit.update_stats _ style n) as [b [e|]]; [reflexivity|].
  cbn [and_then]. rewrite update_user_stats_username. reflexivity.
Qed.

Lemma start_user_game_user (p : UserProfile.t) (d : game_draws) :
  match start_user_game p d with
  | Running g => user g = p
  | Returned _ p' => p' = p
  | Crashed _ p' => p' = p
  end.
Proof.
  unfold start_user_game. destruct (randint _ _ _); [|reflexivity].
  destruct (HintBandit.select_hint_style _ _); reflexivity.
Qed.

Lemma start_computer_game_user (p : UserProfile.t) (ev : event) :
  match start_computer_game p ev with
  | Running c => c_user c = p
  | Returned _ p' => p' = p
  | Crashed _ p' => p' = p
  end.
Proof.
  unfold start_computer_game, computer_turn. destruct (input ev); [|reflexivity].
  destruct (next_guess _ _ _); reflexivity.
Qed.

Section Files.

Context `{Builtins} {F : FileSystem}.
Variable rng : nat -> game_draws.

Lemma user_step_username (g : user_game) (ev : event) :
  match user_step g ev with
  | Running g' => UserProfile.username (user g') = UserProfile.username (user g)
  | Returned _ p => UserProfile.username p = UserProfile.username (user g)
  | Crashed _ p => UserProfile.username p = UserProfile.username (user g)
  end.
Proof.
  unfold user_step. destruct (input ev) as [s|e]; [|reflexivity].
  destruct (py_int s) as [x|]; [|reflexivity].
  destruct (in_range g x); [|reflexivity].
  unfold accept_guess.
  destruct (blend_alpha _ _ _ _) as [a|e]; [|reflexivity].
  destruct (get_hint _ _ _ _ _ _) as [h|e]; [|reflexivity].
  destruct (x =? secret g).
  - pose proof (finish_user_game_username (set_alpha (user g) a)
                  (hint_style g) (attempts g + 1)) as Hname.
    destruct (finish_user_game _ _ _) as [p' [e|]]; exact Hname.
  - destruct (x <? secret g); reflexivity.
Qed.

Lemma computer_step_user (c : computer_game) (ev : event) :
  match computer_step c ev with
  | Running c' => c_user c' = c_user c
  | Returned _ p => p = c_user c
  | Crashed _ p => p = c_user c
  end.
Proof.
  unfold computer_step, computer_turn. destruct (input ev); [|reflexivity].
  repeat match goal with
         | |- context [if ?b then _ else _] => destruct b
         end; try reflexivity;
    destruct (next_guess _ _ _); reflexivity.
Qed.

(** One event of a process past the prompt for the username [u]: the
    process holds no profile of another username afterwards, it has
    changed no file but the one the file name of [u] opens, and it is still
    inside the embedding if it was. *)
Lemma main_step_session (u : string) (st : process) (ev : event) :
  session_of u st ->
  session_of u (main_step rng st ev)
  /\ (forall path, open_w (UserProfile.filename u) <> Ok path ->
                   disk (main_step rng st ev) !! path = disk st !! path)
  /\ (at_prompt st <> Untyped -> at_prompt (main_step rng st ev) <> Untyped).
Proof.
  unfold session_of. intros [Hpast Huser].
  assert (forall {S : Type} (k : S -> prompt) (r : progress S),
            match r with
            | Running s => forall p, profile_at (k s) = Some p ->
                                     UserProfile.username p = u
            | Returned _ p => UserProfile.username p = u
            | Crashed _ _ => True
            end ->
            (forall s, k s <> AtUsername) -> (forall s, k s <> Untyped) ->
            (back_to_menu k r <> AtUsername
             /\ forall p, profile_at (back_to_menu k r) = Some p ->
                          UserProfile.username p = u)
            /\ back_to_menu k r <> Untyped) as Hback.
  { intros S k [s|v p|e p] Hr Hk Hk'; cbn [back_to_menu profile_at].
    - split; [split; [apply Hk | exact Hr] | apply Hk'].
    - split; [split; [discriminate|]|discriminate].
      intros p' Hp. injection Hp as <-. exact Hr.
    - split; [split; [discriminate|discriminate]|discriminate]. }
  assert (forall pr : prompt,
            pr <> AtUsername -> pr <> Untyped ->
            (forall p, profile_at pr = Some p -> UserProfile.username p = u) ->
            (pr <> AtUsername
             /\ forall p, profile_at pr = Some p -> UserProfile.username p = u)
            /\ (forall path : string,
                  open_w (UserProfile.filename u) <> Ok path ->
                  disk st !! path = disk st !! path)
            /\ (at_prompt st <> Untyped -> pr <> Untyped)) as Hstay.
  { intros pr H1 H2 H3. split; [split; assumption|]. split; [reflexivity|auto]. }
  unfold main_step. destruct (at_prompt st) as [|p|g|p|c| | |] eqn:Hat;
    try contradiction; cbn [disk at_prompt games_started].
  - specialize (Huser p eq_refl).
    destruct (input ev) as [s|e]; cbn [disk at_prompt];
      [|apply Hstay; [discriminate|discriminate|discriminate]].
    repeat match goal with
           | |- context [if String.eqb ?a ?b then _ else _] =>
               destruct (String.eqb a b)
           end; cbn [disk at_prompt].
    + pose proof (start_user_game_user p (rng (games_started st))) as Hs.
      destruct (Hback _ AtGuess (start_user_game p (rng (games_started st))))
        as [Hsess Htyped]; [| discriminate | discriminate |].
      { destruct (start_user_game _ _) as [g|v p'|e p']; [|congruence|exact I].
        intros p' Hp. injection Hp as <-. congruence. }
      split; [exact Hsess|]. split; [reflexivity|auto].
    + apply Hstay; [discriminate|discriminate|].
      intros p' Hp. injection Hp as <-. exact Huser.
    + destruct (show_stats p) as [[]|e]; cbn [disk at_prompt];
        (apply Hstay; [discriminate|discriminate|]).
      * intros p' Hp. injection Hp as <-. exact Huser.
      * discriminate.
    + pose proof (save_to_file_other p (disk st)) as Hother.
      destruct (OnDisk.save_to_file p (disk st)) as [fs' exc];
        cbn [disk at_prompt fst] in *.
      split; [split|split].
      * destruct exc; discriminate.
      * destruct exc; cbn [profile_at]; [discriminate|].
        intros p' Hp. injection Hp as <-. exact Huser.
      * intros path Hpath. apply Hother. rewrite Huser. exact Hpath.
      * destruct exc; discriminate.
    + pose proof (save_to_file_other p (disk st)) as Hother.
      destruct (OnDisk.save_to_file p (disk st)) as [fs' exc];
        cbn [disk at_prompt fst] in *.
      split; [split|split].
      * destruct exc; discriminate.
      * destruct exc; cbn [profile_at]; discriminate.
      * intros path Hpath. apply Hother. rewrite Huser. exact Hpath.
      * destruct exc; discriminate.
    + apply Hstay; [discriminate|discriminate|].
      intros p' Hp. injection Hp as <-. exact Huser.
  - specialize (Huser (user g) eq_refl).
    pose proof (user_step_username g ev) as Hs.
    destruct (Hback _ AtGuess (user_step g ev))
      as [Hsess Htyped]; [| discriminate | discriminate |].
    { destruct (user_step g ev) as [g'|v p'|e p']; [|congruence|exact I].
      intros p' Hp. injection Hp as <-. congruence. }
    split; [exact Hsess|]. split; [reflexivity|auto].
  - specialize (Huser p eq_refl).
    pose proof (start_computer_game_user p ev) as Hs.
    destruct (Hback _ AtResponse (start_computer_game p ev))
      as [Hsess Htyped]; [| discriminate | discriminate |].
    { destruct (start_computer_game p ev) as [c|v p'|e p']; [|congruence|exact I].
      intros p' Hp. injection Hp as <-. congruence. }
    split; [exact Hsess|]. split; [reflexivity|auto].
  - specialize (Huser (c_user c) eq_refl).
    pose proof (computer_step_user c ev) as Hs.
    destruct (Hback _ AtResponse (computer_step c ev))
      as [Hsess Htyped]; [| discriminate | discriminate |].
    { destruct (computer_step c ev) as [c'|v p'|e p']; [|congruence|exact I].
      intros p' Hp. injection Hp as <-. congruence. }
    split; [exact Hsess|]. split; [reflexivity|auto].
  - rewrite Hat. split; [split; [discriminate|discriminate]|].
    split; [reflexivity|auto].
  - rewrite Hat. split; [split; [discriminate|discriminate]|].
    split; [reflexivity|auto].
  - rewrite Hat. split; [split; [discriminate|discriminate]|].
    split; [reflexivity|auto].
Qed.

Lemma main_run_session (u : string) (evs : list event) (st : process) :
  session_of u st ->
  (forall path, open_w (UserProfile.filename u) <> Ok path ->
                disk (fold_left (main_step rng) evs st) !! path = disk st !! path)
  /\ (at_prompt st <> Untyped ->
      at_prompt (fold_left (main_step rng) evs st) <> Untyped).
Proof.
  revert st. induction evs as [|ev evs IH]; intros st Hst; [auto|].
  cbn [fold_left].
  destruct (main_step_session u st ev Hst) as (Hst' & Hdisk & Htyped).
  destruct (IH _ Hst') as [IHdisk IHtyped]. split.
  - intros path Hpath. rewrite (IHdisk path Hpath). apply Hdisk, Hpath.
  - auto.
Qed.

Lemma main_ended (evs : list event) (st : process) :
  at_prompt st <> AtUsername -> profile_at (at_prompt st) = None ->
  fold_left (main_step rng) evs st = st.
Proof.
  intros Hpast Hnone. induction evs as [|ev evs IH]; [reflexivity|].
  cbn [fold_left].
  assert (main_step rng st ev = st) as ->; [|exact IH].
  unfold main_step. destruct (at_prompt st); try discriminate Hnone;
    try reflexivity. contradiction.
Qed.

(** X12. Whatever is typed after the username, a run of [main] that finds
    for its username no record, or one the embedding types, changes no file
    but the one that [open] opens for the name [user_<name>.json] of its
    own username: the first line stripped, or Player when that is empty.
    When [open] raises on that name, no file at all is changed. The run
    stays inside the embedding. *)
Theorem main_writes_only_own_file (fs : files) (evs : list event) (path : string) :
  (forall line, head evs = Some (Line line) ->
                typed_start (session_name line) fs) ->
  (forall line, head evs = Some (Line line) ->
                open_w (UserProfile.filename (session_name line)) <> Ok path) ->
  disk (main rng fs evs) !! path = fs !! path
  /\ at_prompt (main rng fs evs) <> Untyped.
Proof.
  intros Htyped Hpath. unfold main. destruct evs as [|ev evs];
    [split; [reflexivity|discriminate]|].
  cbn [fold_left]. unfold main_step at 2 4. cbn [at_prompt disk games_started].
  destruct ev as [line| |]; cbn [input];
    try (rewrite main_ended by (discriminate || reflexivity);
         split; [reflexivity|discriminate]).
  specialize (Hpath line eq_refl). specialize (Htyped line eq_refl).
  fold (session_name line).
  destruct Htyped as [p Hinit]. rewrite Hinit.
  destruct (main_run_session (session_name line) evs
              {| disk := fs; games_started := 0%nat; at_prompt := AtMenu p |})
    as [Hdisk Hin].
  - split; [discriminate|]. cbn [at_prompt profile_at].
    intros p' Hp. injection Hp as <-.
    unfold AdaptiveGame.init in Hinit.
    destruct (OnDisk.load_from_file _ fs) as [[q ok]|] eqn:Hload;
      [|discriminate Hinit].
    injection Hinit as <-. apply (load_username _ _ _ _ Hload).
  - split; [apply (Hdisk path Hpath)|]. apply Hin. discriminate.
Qed.

End Files.

Lemma main_writes_only_own_file_witness :
  disk (main (H := Ascii_text.builtins) (F := Flat.file_system)
          (fun _ => scenario_draws {| explore_draw := Float.lit_0_5; choice_draw := 0 |})
          {[ "user_bob.json" := NotJson ]}
          [Line " ann "; Line "1"; Line "75"; Line "25"; Line "50"; Line "4"])
    !! "user_bob.json" = Some NotJson
  /\ at_prompt
       (main (H := Ascii_text.builtins) (F := Flat.file_system)
          (fun _ => scenario_draws {| explore_draw := Float.lit_0_5; choice_draw := 0 |})
          {[ "user_bob.json" := NotJson ]}
          [Line " ann "; Line "1"; Line "75"; Line "25"; Line "50"; Line "4"])
     <> Untyped.
Proof.
  apply (main_writes_only_own_file (H := Ascii_text.builtins)
           (F := Flat.file_system)).
  - intros line Hline. injection Hline as <-. vm_compute. eauto.
  - intros line Hline. injection Hline as <-. vm_compute. intros Heq.
    discriminate Heq.
Defined.

(** ** A won game in the statistics *)

Lemma record_game_effects (l l' : HotColdLearner.t) (n : Z) (e : option exn) :
  HotColdLearner.record_game l n = (l', e) ->
  HotColdLearner.history l'
  = HotColdLearner.history l ++ [(n, HotColdLearner.target_guesses l)]
  /\ HotColdLearner.target_guesses l' = HotColdLearner.target_guesses l
  /\ (e = None -> in_bounds (HotColdLearner.k l')).
Proof.
  unfold HotColdLearner.record_game.
  match goal with |- context [commit ?s ?r] => destruct r as [l2|e2] eqn:Hup end;
    cbn [commit returned raised]; intros Heq; injection Heq as <- <-.
  - pose proof (update_k_in_bounds _ _ _ _ Hup) as Hk.
    revert Hup. unfold HotColdLearner.update_k.
    destruct (_ <=? _); destruct (Float.int_truediv _ _); cbn [rbind];
      intros Heq; try discriminate Heq; injection Heq as <-; cbn; auto.
  - cbn. split; [reflexivity|]. split; [reflexivity|discriminate].
Qed.

Lemma update_user_stats_effects (p p' : UserProfile.t) (n : Z) :
  update_user_stats p n = (p', None) ->
  UserProfile.games_played p' = UserProfile.games_played p + 1
  /\ UserProfile.alpha p' = UserProfile.alpha p
  /\ UserProfile.hot_cold_learner p' = UserProfile.hot_cold_learner p
  /\ UserProfile.hint_bandit p' = UserProfile.hint_bandit p
  /\ (UserProfile.avg_attempts p = None ->
      UserProfile.avg_attempts p' = Some (PInt n)).
Proof.
  unfold update_user_stats.
  destruct (UserProfile.avg_attempts p) as [old|].
  - destruct (HintBandit.blend old n) as [avg|e]; [|discriminate].
    destruct (adjust_range _ _); cbn [rbind commit returned raised];
      intros Heq; [|discriminate Heq].
    injection Heq as <-. cbn. repeat split; discriminate.
  - destruct (adjust_range _ _); cbn [rbind commit returned raised];
      intros Heq; [|discriminate Heq].
    injection Heq as <-. cbn. auto.
Qed.

(** X13. In a game of the human-guesses mode in a state the mode reaches,
    the guess equal to the secret ends the game with the count of
    attempts, and the win enters each statistic once: one pair
    [(attempts, target_guesses)] more in the learner's history, with [k]
    inside [[0.1, 0.8]]; one more in [total_games] and in [attempts] of
    the style played, no other counter touched; one more in
    [games_played]. *)
Theorem win_is_counted_once (g : user_game) :
  game_ready g ->
  exists p' c,
    accept_guess g (secret g) = Returned (Won (attempts g + 1)) p'
    /\ UserProfile.username p' = UserProfile.username (user g)
    /\ UserProfile.games_played p' = UserProfile.games_played (user g) + 1
    /\ HotColdLearner.history (UserProfile.hot_cold_learner p')
       = HotColdLearner.history (UserProfile.hot_cold_learner (user g))
         ++ [(attempts g + 1,
              HotColdLearner.target_guesses (UserProfile.hot_cold_learner (user g)))]
    /\ in_bounds (HotColdLearner.k (UserProfile.hot_cold_learner p'))
    /\ HintBandit.total_games (UserProfile.hint_bandit p')
       = HintBandit.total_games (UserProfile.hint_bandit (user g)) + 1
    /\ HintBandit.attempts (UserProfile.hint_bandit (user g)) !! hint_style g = Some c
    /\ HintBandit.attempts (UserProfile.hint_bandit p')
       = <[hint_style g := c + 1]>
           (HintBandit.attempts (UserProfile.hint_bandit (user g))).
Proof.
  intros Hready.
  assert (in_range g (secret g) = true) as Hin.
  { apply in_range_spec. apply Hready. }
  destruct (accept_guess_ready g (secret g) Hready Hin)
    as [[_ [p' Hwin]] | [Hne _]]; [|contradiction].
  pose proof Hwin as Hrun. revert Hrun. unfold accept_guess.
  destruct (blend_alpha _ _ _ _) as [a|e]; [|discriminate].
  destruct (get_hint _ _ _ _ _ _) as [h|e]; [|discriminate].
  rewrite Z.eqb_refl.
  pose proof (finish_user_game_username (set_alpha (user g) a) (hint_style g)
                (attempts g + 1)) as Hname.
  destruct (finish_user_game _ _ _) as [q [e|]] eqn:Hfin; [discriminate|].
  intros Heq. injection Heq as ->. cbn [fst] in Hname.
  revert Hfin. unfold finish_user_game.
  destruct (HotColdLearner.record_game _ _) as [l [e|]] eqn:Hrec;
    cbn [and_then]; [discriminate|].
  cbn [UserProfile.hint_bandit set_learner].
  pose proof (update_stats_counters (UserProfile.hint_bandit (set_alpha (user g) a))
                (hint_style g) (attempts g + 1)) as Hcount.
  destruct (HintBandit.update_stats _ _ _) as [b [e|]] eqn:Hupd;
    cbn [and_then]; [discriminate|].
  intros Hstats. apply update_user_stats_effects in Hstats
    as (Hplayed & _ & Hlearner & Hbandit & _).
  cbn [set_bandit set_learner UserProfile.games_played
         UserProfile.hot_cold_learner UserProfile.hint_bandit set_alpha]
    in Hplayed, Hlearner, Hbandit, Hcount, Hrec.
  apply record_game_effects in Hrec as (Hhist & _ & Hk).
  destruct (HintBandit.attempts (UserProfile.hint_bandit (user g)) !! hint_style g)
    as [c|] eqn:Hc; [|discriminate Hcount].
  cbn zeta in Hcount. cbn [fst] in Hcount.
  destruct Hcount as (_ & _ & Hatt & Htot & _).
  exists p', c. split; [reflexivity|]. split; [exact Hname|].
  split; [exact Hplayed|]. rewrite Hlearner, Hbandit.
  split; [exact Hhist|]. split; [apply Hk; reflexivity|].
  split; [exact Htot|]. split; [reflexivity|exact Hatt].
Qed.

Lemma win_is_counted_once_witness :
  exists p',
    accept_guess scenario_game 50 = Returned (Won 1) p'
    /\ UserProfile.games_played p' = 1
    /\ HotColdLearner.history (UserProfile.hot_cold_learner p') = [(1, 3)]
    /\ HintBandit.total_games (UserProfile.hint_bandit p') = 1.
Proof.
  destruct (win_is_counted_once scenario_game scenario_game_ready)
    as (p' & c & Hwin & _ & Hplayed & Hhist & _ & Htot & _).
  exists p'. split; [exact Hwin|]. split; [exact Hplayed|].
  split; [exact Hhist | exact Htot].
Defined.

(** ** A whole game of the human-guesses mode *)

Lemma start_user_game_fit (p : UserProfile.t) (d : game_draws) :
  profile_fit p ->
  exists g,
    start_user_game p d = Running g
    /\ user g = p /\ attempts g = 0 /\ cur_lo g = 1
    /\ cur_hi g = UserProfile.range_size p
    /\ hint_style g ∈ HintBandit.hint_styles (UserProfile.hint_bandit p)
    /\ game_ready g.
Proof.
  intros [Hrange Htarget Hstyles Hentries Havg].
  destruct (select_returns_style (UserProfile.hint_bandit p) (style_of_game d)
              Hstyles) as (s & Hsel & Hs).
  { intros s Hs. destruct (Hentries s Hs) as [_ (v & -> & _)]. eauto. }
  unfold start_user_game, randint.
  destruct (Z.ltb_spec (UserProfile.range_size p) 1); [lia|].
  rewrite Hsel. eexists. split; [reflexivity|]. cbn.
  split; [reflexivity|]. split; [reflexivity|]. split; [reflexivity|].
  split; [reflexivity|]. split; [exact Hs|].
  pose proof (Z.mod_pos_bound (secret_draw d) (UserProfile.range_size p - 1 + 1)
                ltac:(lia)) as Hmod.
  pose proof threshold_large.
  constructor; unfold secret_inside, width; cbn; try lia.
  destruct (Hentries s Hs) as [Ha Hv].
  constructor; try assumption. lia.
Qed.

Section WholeGame.

Context `{Builtins}.

(** X14. On a profile fit for a game, whatever the draws of the secret and
    of the hint style are, [play_user_guesses] starts a game on the range
    [[1, range_size]] with a secret inside it and a style of the bandit,
    and, fed guesses that are each inside the range current when typed,
    returns with a win after at most [range_size] attempts. *)
Theorem game_on_fit_profile_is_won (p : UserProfile.t) (d : game_draws) :
  profile_fit p ->
  exists g,
    start_user_game p d = Running g
    /\ user g = p /\ cur_lo g = 1 /\ cur_hi g = UserProfile.range_size p
    /\ 1 <= secret g <= UserProfile.range_size p
    /\ hint_style g ∈ HintBandit.hint_styles (UserProfile.hint_bandit p)
    /\ forall evs,
         guesses_in_range g evs = true ->
         UserProfile.range_size p <= Z.of_nat (length evs) ->
         exists n p', play_user_guesses p d evs = Returned (Won n) p'
                      /\ 0 < n <= UserProfile.range_size p.
Proof.
  intros Hfit.
  destruct (start_user_game_fit p d Hfit)
    as (g & Hstart & Hu & Hn & Hlo & Hhi & Hs & Hready).
  exists g. split; [exact Hstart|]. split; [exact Hu|]. split; [exact Hlo|].
  split; [exact Hhi|]. split.
  { destruct Hready as [Hsec _ _ _]. unfold secret_inside in Hsec. lia. }
  split; [exact Hs|]. intros evs Hgs Hlen.
  unfold play_user_guesses. rewrite Hstart.
  destruct (user_loop_wins evs g Hready Hgs) as (n & p' & Hwin & Hcount).
  { unfold width. lia. }
  exists n, p'. split; [exact Hwin|]. unfold width in Hcount. lia.
Qed.

End WholeGame.

Lemma init_fit (name : string) : profile_fit (UserProfile.init name).
Proof.
  constructor.
  - cbn. lia.
  - cbn. lia.
  - cbn. intros Hnil. discriminate Hnil.
  - intros s Hs.
    cbn [UserProfile.init UserProfile.hint_bandit HintBandit.init
           HintBandit.hint_styles HintBandit.attempts HintBandit.avg_attempts]
      in *.
    rewrite !dict_of_lookup by exact Hs.
    split; [eauto|]. eexists. split; [reflexivity|exact I].
  - exact I.
Qed.

Lemma game_on_fit_profile_is_won_witness :
  exists n p',
    play_user_guesses (H := Ascii_text.builtins) (UserProfile.init "Player")
      (scenario_draws {| explore_draw := Float.lit_0_5; choice_draw := 0 |})
      (repeat (Line "50") 100) = Returned (Won n) p'
    /\ 0 < n <= 100.
Proof.
  destruct (game_on_fit_profile_is_won (H := Ascii_text.builtins)
              (UserProfile.init "Player")
              (scenario_draws {| explore_draw := Float.lit_0_5; choice_draw := 0 |})
              (init_fit "Player"))
    as (g & Hstart & _ & _ & _ & _ & _ & Hwin).
  assert (g = scenario_game) as ->.
  { assert (start_user_game (UserProfile.init "Player")
              (scenario_draws {| explore_draw := Float.lit_0_5; choice_draw := 0 |})
            = Running scenario_game) as Hs by (vm_compute; reflexivity).
    rewrite Hs in Hstart. injection Hstart as <-. reflexivity. }
  apply (Hwin (repeat (Line "50") 100)).
  - vm_compute. reflexivity.
  - vm_compute. discriminate.
Defined.

(** ** Game after game *)

Lemma update_user_stats_fit (p p' : UserProfile.t) (n : Z) :
  1 <= UserProfile.range_size p <= 10000 ->
  Z.abs n < Float.overflow_threshold ->
  update_user_stats p n = (p', None) ->
  1 <= UserProfile.range_size p' <= 10000
  /\ match UserProfile.avg_attempts p' with
     | Some v => convertible v
     | None => True
     end
  /\ UserProfile.hot_cold_learner p' = UserProfile.hot_cold_learner p
  /\ UserProfile.hint_bandit p' = UserProfile.hint_bandit p.
Proof.
  intros Hrange Hn. unfold update_user_stats.
  assert (forall avg, convertible avg ->
            commit (set_stats p (Some avg) (UserProfile.games_played p + 1)
                      (UserProfile.range_size p))
              (rbind (adjust_range avg
                        (UserProfile.range_size
                           (set_stats p (Some avg) (UserProfile.games_played p + 1)
                              (UserProfile.range_size p))))
                 (fun size =>
                    Ok (set_stats
                          (set_stats p (Some avg) (UserProfile.games_played p + 1)
                             (UserProfile.range_size p))
                          (Some avg)
                          (UserProfile.games_played
                             (set_stats p (Some avg)
                                (UserProfile.games_played p + 1)
                                (UserProfile.range_size p)))
                          size))) = (p', None) ->
            1 <= UserProfile.range_size p' <= 10000
            /\ match UserProfile.avg_attempts p' with
               | Some v => convertible v
               | None => True
               end
            /\ UserProfile.hot_cold_learner p' = UserProfile.hot_cold_learner p
            /\ UserProfile.hint_bandit p' = UserProfile.hint_bandit p) as Hcommit.
  { intros avg Hconv. cbn [set_stats UserProfile.range_size].
    destruct (scaling_bounded_in_range (UserProfile.range_size p) ltac:(lia))
      as (up & down & Hup & Hdown & Hle & Hge).
    pose proof threshold_large.
    unfold adjust_range. rewrite of_int_returns by lia. cbn [rbind].
    rewrite Hup, Hdown. cbn [rbind].
    destruct (num_lt avg (PInt 4)); [|destruct (num_gt avg (PInt 8))];
      cbn [rbind commit returned]; intros Heq; injection Heq as <-; cbn;
      repeat split; try assumption; lia. }
  destruct (UserProfile.avg_attempts p) as [old|].
  - destruct (HintBandit.blend old n) as [avg|e] eqn:Hblend; [|discriminate].
    apply Hcommit. revert Hblend. unfold HintBandit.blend.
    destruct (to_float old); cbn [rbind]; [|discriminate].
    destruct (Float.of_int n); cbn [rbind]; [|discriminate].
    intros Heq. injection Heq as <-. exact I.
  - apply Hcommit. exact Hn.
Qed.

Lemma finish_keeps_fit (p p' : UserProfile.t) (style : string) (n : Z) :
  profile_fit p ->
  style ∈ HintBandit.hint_styles (UserProfile.hint_bandit p) ->
  Z.abs n < Float.overflow_threshold ->
  finish_user_game p style n = (p', None) ->
  profile_fit p'.
Proof.
  intros [Hrange Htarget Hstyles Hentries Havg] Hstyle Hn.
  unfold finish_user_game.
  destruct (HotColdLearner.record_game _ n) as [l [e|]] eqn:Hrec;
    cbn [and_then]; [discriminate|].
  apply record_game_effects in Hrec as (_ & Htarget' & _).
  cbn [set_learner UserProfile.hint_bandit].
  destruct (Hentries style Hstyle) as [[c Hc] (old & Hold & Hconv)].
  destruct (update_stats_step (UserProfile.hint_bandit p) style n c old
              Hc Hold Hconv Hn) as (o & _ & ->).
  cbn [and_then]. intros Hstats.
  apply update_user_stats_fit in Hstats as (Hrange' & Havg' & Hl & Hb);
    [|exact Hrange|exact Hn].
  cbn [set_bandit set_learner UserProfile.hot_cold_learner
         UserProfile.hint_bandit] in Hl, Hb.
  constructor; rewrite ?Hl, ?Hb; cbn [HintBandit.hint_styles
    HintBandit.attempts HintBandit.avg_attempts]; try assumption.
  - congruence.
  - intros s Hs. destruct (Hentries s Hs) as [Ha (v & Hv & Hvc)].
    destruct (decide (style = s)) as [->|Hne].
    + rewrite !lookup_insert_eq. split; [eauto|]. eexists.
      split; [reflexivity|]. destruct (c =? 0); [exact Hn | exact I].
    + rewrite !lookup_insert_ne by exact Hne. split; [exact Ha|eauto].
Qed.

Section GameAfterGame.

Context `{Builtins}.

(** X15. Fitness for a game is kept by the human-guesses mode: while a
    game runs on a fit profile the profile stays fit, and the profile a
    won game returns is fit again, with a range size between 1 and 10000,
    so that the next game can be played and won in turn. *)
Theorem mode_keeps_profile_fit (evs : list event) (g : user_game) :
  profile_fit (user g) ->
  hint_style g ∈ HintBandit.hint_styles (UserProfile.hint_bandit (user g)) ->
  attempts g + Z.of_nat (length evs) < Float.overflow_threshold ->
  0 <= attempts g ->
  match user_loop g evs with
  | Running g' => profile_fit (user g')
  | Returned _ p' => profile_fit p'
  | Crashed _ _ => True
  end.
Proof.
  revert g. induction evs as [|ev evs IH]; intros g Hfit Hstyle Hcount Hpos;
    cbn [user_loop]; [exact Hfit|].
  rewrite length_cons, Nat2Z.inj_succ in Hcount.
  assert (match user_step g ev with
          | Running g' =>
              profile_fit (user g')
              /\ hint_style g' = hint_style g
              /\ UserProfile.hint_bandit (user g') = UserProfile.hint_bandit (user g)
              /\ attempts g <= attempts g' <= attempts g + 1
          | Returned _ p' => profile_fit p'
          | Crashed _ _ => True
          end) as Hstep.
  { unfold user_step. destruct (input ev) as [s|e]; [|exact I].
    destruct (py_int s) as [x|]; [|split; [exact Hfit|]; repeat split; lia].
    destruct (in_range g x); [|split; [exact Hfit|]; repeat split; lia].
    destruct (accept_guess g x) as [g'|v p'|e p'] eqn:Hacc; [| |exact I].
    - pose proof (accept_guess_profile g g' x Hacc)
        as ((Hname & Havg & Hrange & Hplayed & Hl & Hb) & Hn & _).
      apply accept_guess_running in Hacc as (_ & Hst & _).
      split; [|repeat split; try assumption; lia].
      destruct Hfit as [F1 F2 F3 F4 F5].
      constructor; rewrite ?Hrange, ?Hl, ?Hb, ?Havg; assumption.
    - revert Hacc. unfold accept_guess.
      destruct (blend_alpha _ _ _ _) as [a|e]; [|discriminate].
      destruct (get_hint _ _ _ _ _ _) as [h|e]; [|discriminate].
      destruct (x =? secret g); [|destruct (x <? secret g); discriminate].
      destruct (finish_user_game _ _ _) as [q [e|]] eqn:Hfin; [discriminate|].
      intros Heq. injection Heq as _ <-.
      apply (finish_keeps_fit (set_alpha (user g) a) q (hint_style g)
               (attempts g + 1)); [| |lia|exact Hfin].
      + destruct Hfit as [F1 F2 F3 F4 F5]. constructor; assumption.
      + exact Hstyle. }
  destruct (user_step g ev) as [g'|v p'|e p']; [|exact Hstep|exact I].
  destruct Hstep as (Hfit' & Hst & Hb & Hn).
  apply IH; [exact Hfit'| |lia|lia]. rewrite Hst, Hb. exact Hstyle.
Qed.

End GameAfterGame.

Lemma mode_keeps_profile_fit_witness :
  exists p',
    user_loop (H := Ascii_text.builtins) scenario_game scenario_lines
    = Returned (Won 3) p'
    /\ profile_fit p'.
Proof.
  pose proof (mode_keeps_profile_fit (H := Ascii_text.builtins)
                scenario_lines scenario_game (init_fit "Player")) as Hfit.
  destruct (scenario_outcome "hot_cold" (or_introl eq_refl))
    as (p' & Hrun & _).
  change (user_loop (H := Ascii_text.builtins) scenario_game scenario_lines
          = Returned (Won 3) p') in Hrun.
  rewrite Hrun in Hfit. exists p'. split; [exact Hrun|]. apply Hfit.
  - cbn. unfold UserProfile.styles. rewrite !elem_of_cons. auto.
  - vm_compute. reflexivity.
  - cbn. lia.
Defined.

(** ** The learner's history *)

(** X16. [record_game] appends to the history before it updates [k]: after
    any series of calls the history is the one before followed by the
    games in order, each paired with [target_guesses], the games whose
    update raised included, and [target_guesses] is unchanged. *)
Theorem history_lists_every_game (games : list Z) (l : HotColdLearner.t) :
  HotColdLearner.history (HotColdLearner.record_games l games)
  = HotColdLearner.history l
    ++ map (fun a => (a, HotColdLearner.target_guesses l)) games
  /\ HotColdLearner.target_guesses (HotColdLearner.record_games l games)
     = HotColdLearner.target_guesses l.
Proof.
  revert l. induction games as [|a games IH]; intros l.
  - cbn. rewrite app_nil_r. auto.
  - unfold HotColdLearner.record_games in *. cbn [fold_left map].
    destruct (HotColdLearner.record_game l a) as [l1 e] eqn:Hrec. cbn [fst].
    apply record_game_effects in Hrec as (Hhist & Htarget & _).
    destruct (IH l1) as [IHh IHt]. rewrite IHh, IHt, Hhist, Htarget.
    rewrite <- app_assoc. auto.
Qed.
